(** * VelociTrack: the text serialisation of velocity models

    A shallow embedding of [create_text_response_1d] (the VELEST profile
    formatter) and [create_text_response_3d] (the pipe-delimited grid
    formatter) of [src/velocitrack/main.py], together with the Python values
    they manipulate: binary64 floats, unbounded integers, strings, and lists
    of ORM row objects; of the request handlers of the same file, over a
    database whose comparisons and orders are the fields of [Engine]; and
    of the three import functions of [scripts/import_data.py]. *)

From Stdlib Require Import ZArith QArith Qabs Qround Ascii DecimalString.
From Stdlib Require Import Floats.SpecFloat.
From stdpp Require Import base option list list_monad sorting strings gmap.

Local Open Scope Z_scope.

(** ** Python values *)

(** *** Floats

    A Python [float] is an IEEE 754 binary64 number.  The Standard Library's
    [spec_float] is the carrier; the values a Python program can hold are the
    ones accepted by [is_float] (canonical mantissa and exponent for
    precision 53 and maximal exponent 1024). *)

Definition float : Type := spec_float.
Definition prec : Z := 53.
Definition emax : Z := 1024.
Definition is_float (x : float) : bool := valid_binary prec emax x.

(** [float(n)] for an integer [n], and the float denoted by the decimal
    literal [digits / 10^places] (correctly rounded, as the Python parser
    does: both operands of the division are exact). *)
Definition float_of_int (n : Z) : float := binary_normalize prec emax n 0 false.
Definition float_literal (digits : Z) (places : Z) : float :=
  SFdiv prec emax (float_of_int digits) (float_of_int (10 ^ places)).
Definition float_neg (x : float) : float := SFopp x.

(** Comparisons: [x < y], [x >= y], [x == y]; all false on NaN. *)
Definition float_lt (x y : float) : bool := SFltb x y.
Definition float_le (x y : float) : bool := SFleb x y.
Definition float_ge (x y : float) : bool := float_le y x.
Definition float_eq (x y : float) : bool := SFeqb x y.
Definition is_nan (x : float) : bool :=
  match x with S754_nan => true | _ => false end.

(** [o != y] for an attribute that may hold [None]: [None != 1.0] is true. *)
Definition opt_float_ne (o : option float) (y : float) : bool :=
  match o with
  | None => true
  | Some x => negb (float_eq x y)
  end.

(** *** Strings and integers *)

Definition newline : string := String "010"%char "".

(** [str(n)] for an [int]. *)
Definition str_of_int (n : Z) : string := NilZero.string_of_int (Z.to_int n).

(** [sep.join(parts)]. *)
Definition str_join (sep : string) (parts : list string) : string :=
  String.concat sep parts.

(** Truth value of a [str]. *)
Definition str_nonempty (s : string) : bool :=
  match s with EmptyString => false | String _ _ => true end.

Fixpoint spaces (n : nat) : string :=
  match n with O => "" | S k => String " "%char (spaces k) end.

Fixpoint zeros (n : nat) : string :=
  match n with O => "" | S k => String "0"%char (zeros k) end.

(** Right alignment in a field of minimal width [width] (the default for
    numbers in a format specification): longer text is never truncated. *)
Definition pad_left (width : nat) (s : string) : string :=
  spaces (width - String.length s) +:+ s.

Definition zero_fill (width : nat) (s : string) : string :=
  zeros (width - String.length s) +:+ s.

Definition sign_str (s : bool) : string := if s then "-" else "".

Definition str_take (n : nat) (s : string) : string := String.substring 0 n s.
Definition str_drop (n : nat) (s : string) : string :=
  String.substring n (String.length s - n) s.

(** [s.split(sep)] for a one-character separator. *)
Fixpoint split_on (sep : ascii) (s : string) : list string :=
  match s with
  | EmptyString => [""]
  | String c t =>
      if Ascii.eqb c sep then "" :: split_on sep t
      else match split_on sep t with
           | [] => [String c ""]
           | h :: rest => String c h :: rest
           end
  end.

(** Character classes used to tell the emitted lines apart. *)
Fixpoint all_chars (P : ascii → bool) (s : string) : bool :=
  match s with
  | EmptyString => true
  | String c t => P c && all_chars P t
  end.

Fixpoint has_char (c : ascii) (s : string) : bool :=
  match s with
  | EmptyString => false
  | String d t => Ascii.eqb d c || has_char c t
  end.

Definition is_digit (c : ascii) : bool := has_char c "0123456789".
Definition is_number_char (c : ascii) : bool := has_char c " 0123456789.-+einfa".

(** *** Fixed-point formatting: [format(x, "W.Pf")]

    Python prints the exact binary value rounded half-to-even to [places]
    decimals, keeps the sign bit (also of a negative zero and of a negative
    value that rounds to zero), then right-aligns in [width] columns. *)

Definition round_half_even (num den : Z) : Z :=
  let q := num / den in
  match Z.compare (2 * (num mod den)) den with
  | Lt => q
  | Gt => q + 1
  | Eq => if Z.even q then q else q + 1
  end.

(** [m * 2^e * 10^places], rounded to an integer. *)
Definition scaled_round (places : nat) (m : positive) (e : Z) : Z :=
  if 0 <=? e then Zpos m * 2 ^ e * 10 ^ Z.of_nat places
  else round_half_even (Zpos m * 10 ^ Z.of_nat places) (2 ^ (- e)).

Definition fixed_digits (places : nat) (n : Z) : string :=
  let ip := str_of_int (n / 10 ^ Z.of_nat places) in
  match places with
  | O => ip
  | _ => ip +:+ "." +:+ zero_fill places (str_of_int (n mod 10 ^ Z.of_nat places))
  end.

Definition format_float_f (width places : nat) (x : float) : string :=
  pad_left width
    match x with
    | S754_nan => "nan"
    | S754_infinity s => sign_str s +:+ "inf"
    | S754_zero s => sign_str s +:+ fixed_digits places 0
    | S754_finite s m e => sign_str s +:+ fixed_digits places (scaled_round places m e)
    end.

(** *** [repr(x)]: the shortest decimal that reads back as [x]

    An f-string field without format specification prints a float with
    [repr]: the shortest digit string whose nearest binary64 number is [x]
    (the closest to [x] among the shortest, the even one of two equally
    close), in positional notation when the
    decimal point falls within (-4, 16], in exponent notation otherwise. *)

Definition float_value (m : positive) (e : Z) : Q := inject_Z (Zpos m) * (2 # 1) ^ e.
Definition dec_value (d k : Z) : Q := inject_Z d * (10 # 1) ^ k.

(** The reals that round to [m * 2^e] lie between the midpoints to its two
    neighbours; the lower neighbour is half as far below a power of two. *)
Definition lower_bound (m : positive) (e : Z) : Q :=
  if Pos.eqb m (2 ^ 52) && (-1074 <? e)
  then float_value (4 * m - 1) (e - 2)
  else inject_Z (2 * Zpos m - 1) * (2 # 1) ^ (e - 1).
Definition upper_bound (m : positive) (e : Z) : Q := float_value (2 * m + 1) (e - 1).

Definition reads_back (m : positive) (e : Z) (d k : Z) : bool :=
  let v := dec_value d k in
  match Qcompare (lower_bound m e) v, Qcompare v (upper_bound m e) with
  | Lt, Lt => true
  | Eq, (Lt | Eq) | Lt, Eq => Z.even (Zpos m)
  | _, _ => false
  end.

Fixpoint floor_log10_from (fuel : nat) (p : Z) (x : Q) : Z :=
  match fuel with
  | O => p
  | S f => if Qle_bool ((10 # 1) ^ (p + 1)) x then floor_log10_from f (p + 1) x else p
  end.

(** The decimal order of magnitude, searched upwards from an estimate that
    is at most two below it. *)
Definition floor_log10 (m : positive) (e : Z) : Z :=
  let bits := Zpos (digits2_pos m) + e in
  floor_log10_from 4 ((bits - 1) * 30103 / 100000 - 1) (float_value m e).

Definition Qdist (a b : Q) : Q := Qabs (a - b).

(** The [n]-digit decimals just below and just above [m * 2^e].  When both
    read back, the nearer one is taken, and the one with the even last
    digit when [m * 2^e] lies halfway between them. *)
Definition shortest_at (m : positive) (e : Z) (p : Z) (n : Z) : option (Z * Z) :=
  let x := float_value m e in
  let k := p - n + 1 in
  let lo := Qfloor (x / (10 # 1) ^ k) in
  let hi := lo + 1 in
  match reads_back m e lo k, reads_back m e hi k with
  | true, true =>
      match Qcompare (Qdist x (dec_value lo k)) (Qdist (dec_value hi k) x) with
      | Lt => Some (lo, k)
      | Gt => Some (hi, k)
      | Eq => if Z.even lo then Some (lo, k) else Some (hi, k)
      end
  | true, false => Some (lo, k)
  | false, true => Some (hi, k)
  | false, false => None
  end.

Fixpoint shortest_from (fuel : nat) (m : positive) (e : Z) (p : Z) (n : Z) : Z * Z :=
  match fuel with
  | O => (Qfloor (float_value m e / (10 # 1) ^ (p - n + 1)), p - n + 1)
  | S f =>
      match shortest_at m e p n with
      | Some dk => dk
      | None => shortest_from f m e p (n + 1)
      end
  end.

(** Seventeen significant digits always suffice for a binary64 number. *)
Definition shortest_decimal (m : positive) (e : Z) : Z * Z :=
  shortest_from 17 m e (floor_log10 m e) 1.

Fixpoint strip_trailing_zeros (s : string) : string :=
  match s with
  | EmptyString => ""
  | String c t =>
      match strip_trailing_zeros t with
      | EmptyString => if Ascii.eqb c "0" then "" else String c ""
      | t' => String c t'
      end
  end.

(** [digits] are the significant digits, [decpt] the position of the decimal
    point relative to their start. *)
Definition repr_digits (digits : string) (decpt : Z) : string :=
  let nd := Z.of_nat (String.length digits) in
  if (decpt <=? -4) || (16 <? decpt) then
    let ex := decpt - 1 in
    str_take 1 digits
    +:+ (if 1 <? nd then "." +:+ str_drop 1 digits else "")
    +:+ "e" +:+ (if ex <? 0 then "-" else "+") +:+ zero_fill 2 (str_of_int (Z.abs ex))
  else if decpt <=? 0 then "0." +:+ zeros (Z.to_nat (- decpt)) +:+ digits
  else if nd <=? decpt then digits +:+ zeros (Z.to_nat (decpt - nd)) +:+ ".0"
  else str_take (Z.to_nat decpt) digits +:+ "." +:+ str_drop (Z.to_nat decpt) digits.

Definition float_repr (x : float) : string :=
  match x with
  | S754_nan => "nan"
  | S754_infinity s => sign_str s +:+ "inf"
  | S754_zero s => sign_str s +:+ "0.0"
  | S754_finite s m e =>
      let '(d, k) := shortest_decimal m e in
      let all := str_of_int d in
      sign_str s +:+ repr_digits (strip_trailing_zeros all) (Z.of_nat (String.length all) + k)
  end.

(** *** [list.sort(key=...)]

    Python's sort is stable and compares keys with [<] only.  On keys that
    [<] orders totally (floats other than NaN) the result of a stable sort is
    unique ([list_sort_unique] below), so the stable insertion sort computes
    the list Python produces; with NaN keys the order Python leaves depends
    on the merge strategy, and only the facts that hold for every
    permutation carry over. *)

Section Sort.
Context {A : Type} (key : A → float).

Fixpoint sort_insert (x : A) (l : list A) : list A :=
  match l with
  | [] => [x]
  | y :: t => if float_lt (key y) (key x) then y :: sort_insert x t else x :: y :: t
  end.

Definition list_sort (l : list A) : list A := foldr sort_insert [] l.
End Sort.

(** ** The ORM rows ([models.py]) *)

Module VelocityModel1D.
Record t : Type := mk {
  id : Z;
  depth : float;
  velocity : float;
  wave_type : string;
  nfo : string;
  author : string
}.
End VelocityModel1D.

Module VelocityModel3D_VP.
Record t : Type := mk {
  id : Z;
  longitude : float;
  latitude : float;
  depth : float;
  vp : float;
  r : option float;
  nfo : string;
  author : string
}.
End VelocityModel3D_VP.

Module VelocityModel3D_VS.
Record t : Type := mk {
  id : Z;
  longitude : float;
  latitude : float;
  depth : float;
  vs : float;
  r : option float;
  nfo : string;
  author : string
}.
End VelocityModel3D_VS.

(** A row handed to the grid formatter is an instance of one of the two 3D
    classes. *)
Inductive model3d : Type :=
  | RowVP (m : VelocityModel3D_VP.t)
  | RowVS (m : VelocityModel3D_VS.t).

(** ** Exceptions *)

Inductive exn : Type :=
  | AttributeError (attr : string)
  | TypeError.

Inductive result (A : Type) : Type :=
  | Ok (a : A)
  | Raise (e : exn).
Arguments Ok {A} a.
Arguments Raise {A} e.

Global Instance result_ret : MRet result := λ A a, Ok a.
Global Instance result_bind : MBind result := λ A B f x,
  match x with
  | Ok a => f a
  | Raise e => Raise e
  end.

(** Attribute access on a 3D row; [vp] exists on the P-wave class only and
    [vs] on the S-wave class only. *)
Module Row3D.
Definition longitude (m : model3d) : float :=
  match m with
  | RowVP m => VelocityModel3D_VP.longitude m
  | RowVS m => VelocityModel3D_VS.longitude m
  end.
Definition latitude (m : model3d) : float :=
  match m with
  | RowVP m => VelocityModel3D_VP.latitude m
  | RowVS m => VelocityModel3D_VS.latitude m
  end.
Definition depth (m : model3d) : float :=
  match m with
  | RowVP m => VelocityModel3D_VP.depth m
  | RowVS m => VelocityModel3D_VS.depth m
  end.
Definition r (m : model3d) : option float :=
  match m with
  | RowVP m => VelocityModel3D_VP.r m
  | RowVS m => VelocityModel3D_VS.r m
  end.
Definition nfo (m : model3d) : string :=
  match m with
  | RowVP m => VelocityModel3D_VP.nfo m
  | RowVS m => VelocityModel3D_VS.nfo m
  end.
Definition vp (m : model3d) : result float :=
  match m with
  | RowVP m => Ok (VelocityModel3D_VP.vp m)
  | RowVS _ => Raise (AttributeError "vp")
  end.
Definition vs (m : model3d) : result float :=
  match m with
  | RowVP _ => Raise (AttributeError "vs")
  | RowVS m => Ok (VelocityModel3D_VS.vs m)
  end.
End Row3D.

(** ** Shared pieces of the two formatters *)

Definition len {A : Type} (l : list A) : Z := Z.of_nat (length l).

(** The f-string of the pagination annotation (lines 67 and 397). *)
Definition pagination_line (count total_count offset limit : Z) : string :=
  "# Showing " +:+ str_of_int (offset + 1) +:+ "-" +:+ str_of_int (offset + count)
  +:+ " of " +:+ str_of_int total_count +:+ " records (limit=" +:+ str_of_int limit
  +:+ ", offset=" +:+ str_of_int offset +:+ ")".

Definition title_line (kind nfo bibref : string) : string :=
  if str_nonempty bibref then kind +:+ " " +:+ nfo +:+ " " +:+ bibref
  else kind +:+ " " +:+ nfo.

(** ** The profile formatter: [create_text_response_1d] *)

Definition vp_descriptor : string :=
  "        vel,depth,vdamp,phase (f5.2,5x,f7.2,2x,f7.3,3x,a1)".

(** The three-way choice of [spacing] and [depth_str] (lines 78-89 and
    105-116). *)
Definition depth_field (d : float) : string * string :=
  if float_lt d (float_of_int 0) then (spaces 7, format_float_f 5 2 d)
  else if float_ge d (float_of_int 10) then (spaces 7, format_float_f 5 2 d)
  else (spaces 8, format_float_f 4 2 d).

(** One body line of a section (the loops at lines 74-98 and 101-123 differ
    in the phase label only); [phase] is the text appended to the first line
    of the section. *)
Definition velest_line (phase : string) (i : nat) (model : VelocityModel1D.t) : string :=
  let vel_str := format_float_f 4 2 (VelocityModel1D.velocity model) in
  let '(spacing, depth_str) := depth_field (VelocityModel1D.depth model) in
  if Nat.eqb i 0
  then " " +:+ vel_str +:+ spacing +:+ depth_str +:+ "   001.000           " +:+ phase
  else " " +:+ vel_str +:+ spacing +:+ depth_str +:+ "   001.000".

(** [[m for m in models if m.wave_type == wt]] (lines 49 and 50). *)
Definition select_wave (wt : string) (models : list VelocityModel1D.t)
    : list VelocityModel1D.t :=
  filter (λ m, VelocityModel1D.wave_type m = wt) models.

(** The two sublists after [sort] (lines 53 and 54). *)
Definition vp_models (models : list VelocityModel1D.t) : list VelocityModel1D.t :=
  list_sort VelocityModel1D.depth (select_wave "VP" models).

Definition vs_models (models : list VelocityModel1D.t) : list VelocityModel1D.t :=
  list_sort VelocityModel1D.depth (select_wave "VS" models).

Definition vp_section (vp : list VelocityModel1D.t) : list string :=
  match vp with
  | [] => []
  | _ => (" " +:+ str_of_int (len vp) +:+ vp_descriptor)
         :: imap (velest_line "P-VELOCITY MODEL") vp
  end.

Definition vs_section (vs : list VelocityModel1D.t) : list string :=
  match vs with
  | [] => []
  | _ => (" " +:+ str_of_int (len vs)) :: imap (velest_line "S-VELOCITY MODEL") vs
  end.

Definition header_lines (kind nfo bibref : string) (count total_count offset limit : Z)
    : list string :=
  let lines := [title_line kind nfo bibref] in
  if count <? total_count
  then lines ++ [pagination_line count total_count offset limit]
  else lines.

(** [models[0].nfo if models else "Unknown"] *)
Definition first_nfo (models : list VelocityModel1D.t) : string :=
  match models with
  | m :: _ => VelocityModel1D.nfo m
  | [] => "Unknown"
  end.

(** The list [lines] as it stands when line 125 joins it. *)
Definition lines_1d (models : list VelocityModel1D.t) (bibref : string)
    (total_count offset limit : Z) : list string :=
  let vp := vp_models models in
  let vs := vs_models models in
  let nfo := first_nfo models in
  header_lines "1D" nfo bibref (len models) total_count offset limit
  ++ vp_section vp ++ vs_section vs.

Definition create_text_response_1d (models : list VelocityModel1D.t) (bibref : string)
    (total_count offset limit : Z) : string :=
  match models with
  | [] => ""
  | _ => str_join newline (lines_1d models bibref total_count offset limit)
  end.

(** ** The grid formatter: [create_text_response_3d] *)

Definition has_non_default_r (models : list model3d) : bool :=
  existsb (λ model, opt_float_ne (Row3D.r model) (float_literal 10 1)) models.

Definition show_r (include_r : bool) (models : list model3d) : bool :=
  include_r && has_non_default_r models.

Definition header (wave_type : string) (show : bool) : string :=
  if show
  then "Longitude|Latitude|Depth|" +:+ (if String.eqb wave_type "VP" then "Vp" else "Vs") +:+ "|R"
  else "Longitude|Latitude|Depth|" +:+ (if String.eqb wave_type "VP" then "Vp" else "Vs").

Definition r_value (model : model3d) : float :=
  match Row3D.r model with
  | Some x => x
  | None => float_literal 10 1
  end.

(** [model.vp if wave_type == "VP" else model.vs] (lines 412-415). *)
Definition velocity_of (wave_type : string) (model : model3d) : result float :=
  if String.eqb wave_type "VP" then Row3D.vp model else Row3D.vs model.

(** The body of the loop at lines 411-425. *)
Definition grid_row (wave_type : string) (show : bool) (model : model3d) : result string :=
  velocity ← velocity_of wave_type model;
  if show
  then Ok (float_repr (Row3D.longitude model) +:+ "|" +:+ float_repr (Row3D.latitude model)
           +:+ "|" +:+ float_repr (Row3D.depth model) +:+ "|" +:+ float_repr velocity
           +:+ "|" +:+ float_repr (r_value model))
  else Ok (float_repr (Row3D.longitude model) +:+ "|" +:+ float_repr (Row3D.latitude model)
           +:+ "|" +:+ float_repr (Row3D.depth model) +:+ "|" +:+ float_repr velocity).

Definition first_nfo_3d (models : list model3d) : string :=
  match models with
  | m :: _ => Row3D.nfo m
  | [] => "Unknown"
  end.

Definition lines_3d (models : list model3d) (wave_type : string) (include_r : bool)
    (bibref : string) (total_count offset limit : Z) : result (list string) :=
  let show := show_r include_r models in
  let nfo := first_nfo_3d models in
  let lines := header_lines "3D" nfo bibref (len models) total_count offset limit in
  let lines := lines ++ [header wave_type show] in
  rows ← mapM (grid_row wave_type show) models;
  Ok (lines ++ rows).

Definition create_text_response_3d (models : list model3d) (wave_type : string)
    (include_r : bool) (bibref : string) (total_count offset limit : Z) : result string :=
  match models with
  | [] => Ok ""
  | _ =>
      lines ← lines_3d models wave_type include_r bibref total_count offset limit;
      Ok (str_join newline lines)
  end.

(** ** The formatters on the object store

    The arguments of the formatters are references: [models] points to a
    list object whose items point to row objects, and [list.sort] updates a
    list object in place.  The store-level definitions below follow the same
    statements as the value-level ones above and make allocation and update
    explicit.  The local list [lines] holds strings only and is never shared,
    so it is kept as a value. *)

Module Heap.
Definition loc : Type := positive.

Inductive object : Type :=
  | PyList (items : list loc)
  | PyModel1D (row : VelocityModel1D.t)
  | PyModel3D (row : model3d).

Abbreviation heap := (gmap loc object).

Definition M (A : Type) : Type := heap → result (A * heap).

Global Instance M_ret : MRet M := λ A a h, Ok (a, h).
Global Instance M_bind : MBind M := λ A B f x h,
  match x h with
  | Ok (a, h') => f a h'
  | Raise e => Raise e
  end.

Definition lift {A : Type} (x : result A) : M A := λ h,
  match x with
  | Ok a => Ok (a, h)
  | Raise e => Raise e
  end.

Definition read_list (l : loc) : M (list loc) := λ h,
  match h !! l with
  | Some (PyList items) => Ok (items, h)
  | _ => Raise TypeError
  end.

Definition read_model1d (l : loc) : M VelocityModel1D.t := λ h,
  match h !! l with
  | Some (PyModel1D row) => Ok (row, h)
  | _ => Raise TypeError
  end.

Definition read_model3d (l : loc) : M model3d := λ h,
  match h !! l with
  | Some (PyModel3D row) => Ok (row, h)
  | _ => Raise TypeError
  end.

(** A new list object at an unused address. *)
Definition new_list (items : list loc) : M loc := λ h,
  let l := fresh (dom h) in Ok (l, <[l := PyList items]> h).

(** In-place replacement of the items of the list object at [l]. *)
Definition store_list (l : loc) (items : list loc) : M unit := λ h,
  Ok ((), <[l := PyList items]> h).

Fixpoint filterM {A : Type} (p : A → M bool) (l : list A) : M (list A) :=
  match l with
  | [] => mret []
  | a :: t =>
      b ← p a;
      kept ← filterM p t;
      mret (if b : bool then a :: kept else kept)
  end.

(** [[m for m in models if m.wave_type == wt]] *)
Definition select_wave (models : loc) (wt : string) : M loc :=
  items ← read_list models;
  kept ← filterM (λ m, row ← read_model1d m;
                       mret (bool_decide (VelocityModel1D.wave_type row = wt))) items;
  new_list kept.

(** [l.sort(key=lambda x: x.depth)] *)
Definition sort_by_depth (l : loc) : M unit :=
  items ← read_list l;
  keyed ← mapM (λ m, row ← read_model1d m; mret (VelocityModel1D.depth row, m)) items;
  store_list l (snd <$> list_sort fst keyed).

Definition create_text_response_1d (models : loc) (bibref : string)
    (total_count offset limit : Z) : M string :=
  items ← read_list models;
  match items with
  | [] => mret ""
  | first :: _ =>
      vp_models ← select_wave models "VP";
      vs_models ← select_wave models "VS";
      _ ← sort_by_depth vp_models;
      _ ← sort_by_depth vs_models;
      first_row ← read_model1d first;
      let lines := header_lines "1D" (VelocityModel1D.nfo first_row) bibref
                     (len items) total_count offset limit in
      vp ← read_list vp_models;
      vp_rows ← mapM read_model1d vp;
      let lines := lines ++ vp_section vp_rows in
      vs ← read_list vs_models;
      vs_rows ← mapM read_model1d vs;
      let lines := lines ++ vs_section vs_rows in
      mret (str_join newline lines)
  end.

Definition create_text_response_3d (models : loc) (wave_type : string)
    (include_r : bool) (bibref : string) (total_count offset limit : Z) : M string :=
  items ← read_list models;
  match items with
  | [] => mret ""
  | first :: _ =>
      rs ← mapM (λ m, row ← read_model3d m; mret (Row3D.r row)) items;
      let has_non_default_r := existsb (λ r, opt_float_ne r (float_literal 10 1)) rs in
      let show := include_r && has_non_default_r in
      first_row ← read_model3d first;
      let lines := header_lines "3D" (Row3D.nfo first_row) bibref
                     (len items) total_count offset limit in
      let lines := lines ++ [header wave_type show] in
      rows ← mapM (λ m, row ← read_model3d m; lift (grid_row wave_type show row)) items;
      mret (str_join newline (lines ++ rows))
  end.
End Heap.

(** ** The order on floats, as an order on ranks *)

(** A float other than NaN has a rank in the lexicographic order on triples
    of integers; [SFcompare] compares ranks. *)
Definition rank (x : float) : Z * Z * Z :=
  match x with
  | S754_nan => (0, 0, 0)
  | S754_zero _ => (0, 0, 0)
  | S754_infinity s => (if s then -2 else 2, 0, 0)
  | S754_finite s m e => if s then (-1, - e, Zneg m) else (1, e, Zpos m)
  end.

Definition lex_compare (a b : Z * Z * Z) : comparison :=
  let '(a1, a2, a3) := a in
  let '(b1, b2, b3) := b in
  match a1 ?= b1 with
  | Eq => match a2 ?= b2 with Eq => a3 ?= b3 | c => c end
  | c => c
  end.

(** ** Vocabulary of the statements *)

(** The width rule of the depth column in the words of the format
    description: [lead] spaces, then a field of minimal width [width]. *)
Definition depth_rule (d : float) (lead width : nat) : Prop :=
  (float_lt d (float_of_int 0) = true → lead = 7%nat ∧ width = 5%nat)
  ∧ (float_ge d (float_of_int 10) = true → lead = 7%nat ∧ width = 5%nat)
  ∧ (float_le (float_of_int 0) d = true → float_lt d (float_of_int 10) = true →
     lead = 8%nat ∧ width = 4%nat).

(** A line that starts like the pagination annotation. *)
Definition is_annotation (line : string) : bool :=
  match line with
  | String c _ => Ascii.eqb c "#"
  | EmptyString => false
  end.

(** A 3D row that carries the velocity attribute [wave_type] selects. *)
Definition has_velocity (wave_type : string) (model : model3d) : Prop :=
  ∃ v, velocity_of wave_type model = Ok v.

(** The stored scale factor compares different from 1.0 ([model.r != 1.0];
    an absent value does). *)
Definition differs_from_default (model : model3d) : Prop :=
  opt_float_ne (Row3D.r model) (float_literal 10 1) = true.

(** [row] splits at the pipes into the values of [model]: four of them, and
    the scale factor as a fifth when [with_r] holds. *)
Definition row_fields (wave_type : string) (with_r : bool) (model : model3d)
    (row : string) : Prop :=
  ∃ v, velocity_of wave_type model = Ok v
       ∧ split_on "|" row
         = [float_repr (Row3D.longitude model); float_repr (Row3D.latitude model);
            float_repr (Row3D.depth model); float_repr v]
           ++ (if with_r then [float_repr (r_value model)] else []).

(** In store [h], the references [items] point to the row objects [rows]. *)
Definition rows_at (h : gmap Heap.loc Heap.object) (items : list Heap.loc)
    (rows : list VelocityModel1D.t) : Prop :=
  Forall2 (λ l row, h !! l = Some (Heap.PyModel1D row)) items rows.

Definition rows3d_at (h : gmap Heap.loc Heap.object) (items : list Heap.loc)
    (rows : list model3d) : Prop :=
  Forall2 (λ l row, h !! l = Some (Heap.PyModel3D row)) items rows.

(** The column header without and with the scale-factor column. *)
Definition plain_header (wave_type : string) : string :=
  "Longitude|Latitude|Depth|" +:+ (if String.eqb wave_type "VP" then "Vp" else "Vs").
Definition r_header (wave_type : string) : string :=
  plain_header wave_type +:+ "|R".

(** ** Sample data

    Rows of a crustal model: two P-wave layers, three S-wave layers (two of
    them at the same depth), and a row whose type column holds ["P"]. *)

Definition row_p_moho : VelocityModel1D.t :=
  VelocityModel1D.mk 1 (float_literal 350 1) (float_literal 800 2) "VP" "CRUST1" "Herrin".
Definition row_p_top : VelocityModel1D.t :=
  VelocityModel1D.mk 2 (float_literal 0 1) (float_literal 580 2) "VP" "CRUST1" "Herrin".
Definition row_s_moho : VelocityModel1D.t :=
  VelocityModel1D.mk 3 (float_literal 350 1) (float_literal 447 2) "VS" "CRUST1" "Herrin".
Definition row_s_top : VelocityModel1D.t :=
  VelocityModel1D.mk 4 (float_literal 0 1) (float_literal 336 2) "VS" "CRUST1" "Herrin".
Definition row_s_top' : VelocityModel1D.t :=
  VelocityModel1D.mk 5 (float_literal 0 1) (float_literal 340 2) "VS" "CRUST1" "Herrin".
Definition row_other : VelocityModel1D.t :=
  VelocityModel1D.mk 6 (float_literal 0 1) (float_literal 580 2) "P" "CRUST1" "Herrin".
Definition row_neg_zero : VelocityModel1D.t :=
  VelocityModel1D.mk 7 (float_neg (float_of_int 0)) (float_literal 580 2) "VP" "CRUST1" "Herrin".

Definition sample_profile : list VelocityModel1D.t :=
  [row_p_moho; row_s_moho; row_s_top; row_p_top; row_s_top'].

Definition sample_s_only : list VelocityModel1D.t := [row_s_moho; row_s_top].

Definition grid_vp (lon lat depth vp : float) (r : option float) : model3d :=
  RowVP (VelocityModel3D_VP.mk 1 lon lat depth vp r "GRID" "Karakonstantis").

Definition sample_grid_default : list model3d :=
  [grid_vp (float_literal 235 1) (float_literal 3801 2) (float_of_int 5)
     (float_literal 612 2) (Some (float_literal 10 1));
   grid_vp (float_literal 235 1) (float_literal 3801 2) (float_of_int 10)
     (float_literal 65 1) (Some (float_literal 10 1))].

Definition sample_grid_scaled : list model3d :=
  [grid_vp (float_literal 235 1) (float_literal 3801 2) (float_of_int 5)
     (float_literal 612 2) (Some (float_literal 10 1));
   grid_vp (float_literal 235 1) (float_literal 3801 2) (float_of_int 10)
     (float_literal 65 1) (Some (float_literal 95 2))].

Definition sample_grid_absent : list model3d :=
  [grid_vp (float_literal 235 1) (float_literal 3801 2) (float_of_int 5)
     (float_literal 612 2) None;
   grid_vp (float_literal 235 1) (float_literal 3801 2) (float_of_int 10)
     (float_literal 65 1) (Some (float_literal 10 1))].

(** A store holding a profile list at address 1 and a grid list at
    address 10. *)
Definition sample_heap : gmap Heap.loc Heap.object :=
  list_to_map
    [(1%positive, Heap.PyList [2; 3; 4]%positive);
     (2%positive, Heap.PyModel1D row_p_moho);
     (3%positive, Heap.PyModel1D row_s_top);
     (4%positive, Heap.PyModel1D row_p_top);
     (10%positive, Heap.PyList [11; 12]%positive);
     (11%positive, Heap.PyModel3D
        (grid_vp (float_literal 235 1) (float_literal 3801 2) (float_of_int 5)
           (float_literal 612 2) (Some (float_literal 10 1))));
     (12%positive, Heap.PyModel3D
        (grid_vp (float_literal 235 1) (float_literal 3801 2) (float_of_int 10)
           (float_literal 65 1) (Some (float_literal 95 2))))].

(** ** The database

    A table is the list of its rows in storage order.  What the database
    engine and the Python runtime decide is a parameter of the handlers: the
    [ILIKE] operator, the order [ORDER BY] leaves between rows (ties are not
    determined by the query), the [=] of a [filter_by] on a float or string
    column, the primary keys given to new rows, whether a float column that
    is not nullable takes NaN ([stores_nan]), and the text of [str(e)].  An
    [ORDER BY] returns the rows it was given. *)

(** Modelled from its uses: the class [AuthorBibref] is imported from
    [models.py] but not declared there; [main.py] and [import_data.py] read
    and write its attributes [author] and [bibref]. *)
Module AuthorBibref.
Record t : Type := mk {
  author : string;
  bibref : string
}.
End AuthorBibref.

Record database : Type := Database {
  velocity_models_1d : list VelocityModel1D.t;
  velocity_models_3d_vp : list VelocityModel3D_VP.t;
  velocity_models_3d_vs : list VelocityModel3D_VS.t;
  author_bibref : list AuthorBibref.t
}.

Class Engine : Type := {
  ilike : string → string → bool;
  order_by_depth : list VelocityModel1D.t → list VelocityModel1D.t;
  order_by_position_vp : list VelocityModel3D_VP.t → list VelocityModel3D_VP.t;
  order_by_position_vs : list VelocityModel3D_VS.t → list VelocityModel3D_VS.t;
  eq_float : float → float → bool;
  eq_str : string → string → bool;
  next_id : Z → Z;
  stores_nan : bool;
  str_of_exn : exn → string;
  order_by_depth_perm : ∀ l, order_by_depth l ≡ₚ l;
  order_by_position_vp_perm : ∀ l, order_by_position_vp l ≡ₚ l;
  order_by_position_vs_perm : ∀ l, order_by_position_vs l ≡ₚ l
}.

(** ** The request handlers ([main.py])

    A handler returns its response or raises an [HTTPException]; both are
    values of [response].  The bounds that [Query] puts on [limit] and
    [offset] are checked before the handler runs. *)

Inductive response : Type :=
  | PlainTextResponse (content : string)
  | HTTPException (status_code : Z) (detail : string).

(** [Literal["VP", "VS"]] *)
Inductive wave_literal : Type := VP | VS.

Definition wave_str (wave_type : wave_literal) : string :=
  match wave_type with VP => "VP" | VS => "VS" end.

Section Handlers.
Context `{Engine}.

(** [f"%{text}%"] *)
Definition contains_pattern (text : string) : string := "%" +:+ text +:+ "%".

(** [.offset(offset).limit(limit)] *)
Definition page {A : Type} (offset limit : Z) (rows : list A) : list A :=
  take (Z.to_nat limit) (drop (Z.to_nat offset) rows).

Definition get_bibref_for_author (db : database) (author : string) : string :=
  match filter (λ b, ilike (AuthorBibref.author b) (contains_pattern author))
          (author_bibref db) with
  | result :: _ => AuthorBibref.bibref result
  | [] => ""
  end.

Definition offset_detail (offset total_count : Z) : string :=
  "Offset " +:+ str_of_int offset +:+ " exceeds total records ("
  +:+ str_of_int total_count +:+ "). Max offset: " +:+ str_of_int (total_count - 1).

(** The rows the two queries of [query_1d_velocity_models] filter. *)
Definition matching_1d (db : database) (author nfo : string) : list VelocityModel1D.t :=
  filter (λ m, ilike (VelocityModel1D.author m) (contains_pattern author)
               && ilike (VelocityModel1D.nfo m) (contains_pattern nfo))
    (velocity_models_1d db).

Definition query_1d_velocity_models (db : database) (author nfo : string)
    (limit offset : Z) : response :=
  let total_count := len (matching_1d db author nfo) in
  if total_count =? 0
  then HTTPException 404 ("No data found for author: " +:+ author +:+ " and NFO: " +:+ nfo)
  else if total_count <=? offset
  then HTTPException 400 (offset_detail offset total_count)
  else
    let models := page offset limit (order_by_depth (matching_1d db author nfo)) in
    let bibref := get_bibref_for_author db author in
    PlainTextResponse (create_text_response_1d models bibref total_count offset limit).

(** The body of [query_3d_velocity_models] once [model_class] is chosen:
    [table] is its table, [order] its [ORDER BY longitude, latitude, depth],
    [row] the view of its instances as formatter input. *)
Definition query_3d_table {A : Type} (table : list A) (author_of : A → string)
    (order : list A → list A) (row : A → model3d) (wave_type : wave_literal)
    (author : string) (include_r : bool) (limit offset : Z) (bibref : string) : response :=
  let matching := filter (λ m, ilike (author_of m) (contains_pattern author)) table in
  let total_count := len matching in
  if total_count =? 0
  then HTTPException 404
         ("No " +:+ wave_str wave_type +:+ " data found for author: " +:+ author)
  else if total_count <=? offset
  then HTTPException 400 (offset_detail offset total_count)
  else
    let models := row <$> page offset limit (order matching) in
    match create_text_response_3d models (wave_str wave_type) include_r bibref
            total_count offset limit with
    | Ok content => PlainTextResponse content
    | Raise e => HTTPException 500 ("Internal server error: " +:+ str_of_exn e)
    end.

Definition query_3d_velocity_models (db : database) (wave_type : wave_literal)
    (author : string) (include_r : bool) (limit offset : Z) : response :=
  match wave_type with
  | VP => query_3d_table (velocity_models_3d_vp db) VelocityModel3D_VP.author
            order_by_position_vp RowVP VP author include_r limit offset
            (get_bibref_for_author db author)
  | VS => query_3d_table (velocity_models_3d_vs db) VelocityModel3D_VS.author
            order_by_position_vs RowVS VS author include_r limit offset
            (get_bibref_for_author db author)
  end.

End Handlers.

(** *** [/authors] and [/nfos] *)

(** The loop [for v in values: if v[0]: names.add(v[0])]. *)
Definition add_names (values : list string) (names : gset string) : gset string :=
  foldl (λ acc v, if str_nonempty v then acc ∪ {[v]} else acc) names values.

(** [sorted] on strings: code-point order, which on UTF-8 text is the
    lexicographic order of the bytes. *)
Definition sorted_strings (l : list string) : list string :=
  merge_sort (λ a b, String.leb a b) l.

(** [sorted(list(names))] after the three loops. *)
Definition collect_names (values_1d values_vp values_vs : list string) : list string :=
  sorted_strings (elements (add_names values_vs (add_names values_vp (add_names values_1d ∅)))).

Definition author_names (db : database) : list string :=
  collect_names (VelocityModel1D.author <$> velocity_models_1d db)
    (VelocityModel3D_VP.author <$> velocity_models_3d_vp db)
    (VelocityModel3D_VS.author <$> velocity_models_3d_vs db).

Definition nfo_names (db : database) : list string :=
  collect_names (VelocityModel1D.nfo <$> velocity_models_1d db)
    (VelocityModel3D_VP.nfo <$> velocity_models_3d_vp db)
    (VelocityModel3D_VS.nfo <$> velocity_models_3d_vs db).

Definition get_authors (db : database) : response :=
  PlainTextResponse (str_join newline (author_names db) +:+ newline).

Definition get_nfos (db : database) : response :=
  PlainTextResponse (str_join newline (nfo_names db) +:+ newline).

(** ** The import script ([import_data.py])

    The functions below start where the file has been read and its required
    columns found: [rows] are the rows of the data frame.  A numeric cell is
    given by the outcome of [float(cell)], a text cell by the string the
    loop computes from it ([str], [strip] and, for the type, [upper]).  All
    rows are added in one transaction: an exception rolls every addition
    back and the function returns [False].  Two exceptions are modelled: a
    cell that [float] does not convert, and the refusal of a row by the
    database when the session flushes it (before the next query or at the
    commit).  The numeric columns other than [r] are declared
    [nullable=False]; a database that binds NaN as NULL (SQLite does, the
    field [stores_nan] of the engine tells) refuses a row with NaN in one of
    them. *)

(** [float(cell)]: the number, or [None] when the conversion raises. *)
Definition float_cell : Type := option float.

Module FileRow1D.
Record t : Type := mk {
  depth : float_cell;
  velocity : float_cell;
  wave_type : string;
  nfo : string;
  author : string
}.
End FileRow1D.

(** The cell of the optional column [R]: the column is absent, the cell is
    empty ([pd.notna] is false), or it holds a value that [float] converts. *)
Inductive r_cell : Type :=
  | RAbsent
  | RMissing
  | RValue (x : float_cell).

Module FileRow3D.
Record t : Type := mk {
  longitude : float_cell;
  latitude : float_cell;
  depth : float_cell;
  velocity : float_cell;
  r : r_cell;
  nfo : string;
  author : string
}.
End FileRow3D.

(** What an import returns and prints: [True] with the two counts, or
    [False]. *)
Inductive import_result : Type :=
  | ImportDone (imported_count other_count : Z)
  | ImportFailed.

Section ImportScript.
Context `{Engine}.

(** A [nullable=False] float column takes the value. *)
Definition storable (x : float) : bool := stores_nan || negb (is_nan x).

(** The [filter_by] of lines 65-75, on one stored row. *)
Definition same_1d (depth velocity : float) (wave_type nfo author : string)
    (m : VelocityModel1D.t) : bool :=
  eq_float (VelocityModel1D.depth m) depth
  && eq_float (VelocityModel1D.velocity m) velocity
  && eq_str (VelocityModel1D.wave_type m) wave_type
  && eq_str (VelocityModel1D.nfo m) nfo
  && eq_str (VelocityModel1D.author m) author.

(** The loop of lines 58-89; rows added earlier in the loop are seen by the
    later queries (the session flushes before it queries).  A row that the
    database refuses ends the import, whatever follows it. *)
Fixpoint import_1d_loop (rows : list FileRow1D.t) (table : list VelocityModel1D.t)
    (imported_count skipped_count : Z)
    : option (list VelocityModel1D.t * Z * Z) :=
  match rows with
  | [] => Some (table, imported_count, skipped_count)
  | row :: rest =>
      depth ← FileRow1D.depth row;
      velocity ← FileRow1D.velocity row;
      let wave_type := FileRow1D.wave_type row in
      let nfo := FileRow1D.nfo row in
      let author := FileRow1D.author row in
      if existsb (same_1d depth velocity wave_type nfo author) table
      then import_1d_loop rest table imported_count (skipped_count + 1)
      else
        let velocity_model :=
          VelocityModel1D.mk (next_id (len table)) depth velocity wave_type nfo author in
        if storable depth && storable velocity
        then import_1d_loop rest (table ++ [velocity_model]) (imported_count + 1)
               skipped_count
        else None
  end.

Definition import_1d_from_file (db : database) (rows : list FileRow1D.t)
    : database * import_result :=
  match import_1d_loop rows (velocity_models_1d db) 0 0 with
  | Some (table, imported_count, skipped_count) =>
      (Database table (velocity_models_3d_vp db) (velocity_models_3d_vs db)
         (author_bibref db),
       ImportDone imported_count skipped_count)
  | None => (db, ImportFailed)
  end.

(** Lines 161-164. *)
Definition r_value_of (cell : r_cell) : option float :=
  match cell with
  | RValue x => x
  | RAbsent | RMissing => Some (float_literal 10 1)
  end.

(** The loop of lines 152-219 for the class [A] of the wave type: [same] is
    its [filter_by] (which leaves [r] out), [new] its constructor. *)
Fixpoint import_3d_loop {A : Type}
    (same : float → float → float → float → string → string → A → bool)
    (new : Z → float → float → float → float → option float → string → string → A)
    (rows : list FileRow3D.t) (table : list A) (imported_count skipped_count : Z)
    : option (list A * Z * Z) :=
  match rows with
  | [] => Some (table, imported_count, skipped_count)
  | row :: rest =>
      longitude ← FileRow3D.longitude row;
      latitude ← FileRow3D.latitude row;
      depth ← FileRow3D.depth row;
      velocity ← FileRow3D.velocity row;
      let nfo := FileRow3D.nfo row in
      let author := FileRow3D.author row in
      r_value ← r_value_of (FileRow3D.r row);
      if existsb (same longitude latitude depth velocity nfo author) table
      then import_3d_loop same new rest table imported_count (skipped_count + 1)
      else
        let velocity_model :=
          new (next_id (len table)) longitude latitude depth velocity (Some r_value)
            nfo author in
        if storable longitude && storable latitude && storable depth && storable velocity
        then import_3d_loop same new rest (table ++ [velocity_model])
               (imported_count + 1) skipped_count
        else None
  end.

Definition same_vp (longitude latitude depth vp : float) (nfo author : string)
    (m : VelocityModel3D_VP.t) : bool :=
  eq_float (VelocityModel3D_VP.longitude m) longitude
  && eq_float (VelocityModel3D_VP.latitude m) latitude
  && eq_float (VelocityModel3D_VP.depth m) depth
  && eq_float (VelocityModel3D_VP.vp m) vp
  && eq_str (VelocityModel3D_VP.nfo m) nfo
  && eq_str (VelocityModel3D_VP.author m) author.

Definition same_vs (longitude latitude depth vs : float) (nfo author : string)
    (m : VelocityModel3D_VS.t) : bool :=
  eq_float (VelocityModel3D_VS.longitude m) longitude
  && eq_float (VelocityModel3D_VS.latitude m) latitude
  && eq_float (VelocityModel3D_VS.depth m) depth
  && eq_float (VelocityModel3D_VS.vs m) vs
  && eq_str (VelocityModel3D_VS.nfo m) nfo
  && eq_str (VelocityModel3D_VS.author m) author.

Definition import_3d_from_file (db : database) (wave_type : wave_literal)
    (rows : list FileRow3D.t) : database * import_result :=
  match wave_type with
  | VP =>
      match import_3d_loop same_vp VelocityModel3D_VP.mk rows
              (velocity_models_3d_vp db) 0 0 with
      | Some (table, imported_count, skipped_count) =>
          (Database (velocity_models_1d db) table (velocity_models_3d_vs db)
             (author_bibref db),
           ImportDone imported_count skipped_count)
      | None => (db, ImportFailed)
      end
  | VS =>
      match import_3d_loop same_vs VelocityModel3D_VS.mk rows
              (velocity_models_3d_vs db) 0 0 with
      | Some (table, imported_count, skipped_count) =>
          (Database (velocity_models_1d db) (velocity_models_3d_vp db) table
             (author_bibref db),
           ImportDone imported_count skipped_count)
      | None => (db, ImportFailed)
      end
  end.

(** The loop of lines 264-287 over the pairs [(author, bibref)]: an author
    already stored has its reference replaced when it differs. *)
Fixpoint import_bibrefs_loop (rows : list (string * string)) (table : list AuthorBibref.t)
    (imported_count updated_count : Z) : list AuthorBibref.t * Z * Z :=
  match rows with
  | [] => (table, imported_count, updated_count)
  | (author, bibref) :: rest =>
      match list_find (λ b, eq_str (AuthorBibref.author b) author) table with
      | Some (i, existing) =>
          if String.eqb (AuthorBibref.bibref existing) bibref
          then import_bibrefs_loop rest table imported_count updated_count
          else import_bibrefs_loop rest
                 (<[i := AuthorBibref.mk (AuthorBibref.author existing) bibref]> table)
                 imported_count (updated_count + 1)
      | None =>
          import_bibrefs_loop rest (table ++ [AuthorBibref.mk author bibref])
            (imported_count + 1) updated_count
      end
  end.

Definition import_bibrefs_from_file (db : database) (rows : list (string * string))
    : database * import_result :=
  let '(table, imported_count, updated_count) :=
    import_bibrefs_loop rows (author_bibref db) 0 0 in
  (Database (velocity_models_1d db) (velocity_models_3d_vp db) (velocity_models_3d_vs db)
     table,
   ImportDone imported_count updated_count).

End ImportScript.

(** ** Vocabulary of the statements on the database *)

(** Both numeric cells of a 1D file row convert. *)
Definition converts_1d (row : FileRow1D.t) : Prop :=
  is_Some (FileRow1D.depth row) ∧ is_Some (FileRow1D.velocity row).

(** The stored row [m] carries the values of the file row [row]. *)
Definition stored_from_1d (row : FileRow1D.t) (m : VelocityModel1D.t) : Prop :=
  FileRow1D.depth row = Some (VelocityModel1D.depth m)
  ∧ FileRow1D.velocity row = Some (VelocityModel1D.velocity m)
  ∧ FileRow1D.wave_type row = VelocityModel1D.wave_type m
  ∧ FileRow1D.nfo row = VelocityModel1D.nfo m
  ∧ FileRow1D.author row = VelocityModel1D.author m.

(** The duplicate test of the 1D import, with the values of the stored row
    [y], on the stored row [x]. *)
Definition duplicate_1d `{Engine} (x y : VelocityModel1D.t) : bool :=
  same_1d (VelocityModel1D.depth y) (VelocityModel1D.velocity y)
    (VelocityModel1D.wave_type y) (VelocityModel1D.nfo y) (VelocityModel1D.author y) x.

(** No stored row is matched, by the duplicate test of the import, with the
    values of a row stored after it. *)
Definition distinct_1d `{Engine} (table : list VelocityModel1D.t) : Prop :=
  StronglySorted (λ x y, duplicate_1d x y = false) table.

(** No numeric cell of a 1D file row is NaN (an empty cell of the data frame
    is). *)
Definition numbers_1d (row : FileRow1D.t) : Prop :=
  ∃ depth velocity,
    FileRow1D.depth row = Some depth ∧ FileRow1D.velocity row = Some velocity
    ∧ is_nan depth = false ∧ is_nan velocity = false.

(** The rows of the 3D table of a wave type, as the grid formatter sees
    them. *)
Definition rows_3d (db : database) (wave_type : wave_literal) : list model3d :=
  match wave_type with
  | VP => RowVP <$> velocity_models_3d_vp db
  | VS => RowVS <$> velocity_models_3d_vs db
  end.


(** The file has no [R] column, or the [R] cell of the row is empty. *)
Definition no_r_value (row : FileRow3D.t) : Prop :=
  FileRow3D.r row = RAbsent ∨ FileRow3D.r row = RMissing.

(** The duplicate test of the 3D import on a stored row, for the values of
    a file row whose cells convert. *)
Definition stored_3d `{Engine} (wave_type : wave_literal) (db : database)
    (row : FileRow3D.t) : Prop :=
  ∃ longitude latitude depth velocity,
    FileRow3D.longitude row = Some longitude ∧ FileRow3D.latitude row = Some latitude
    ∧ FileRow3D.depth row = Some depth ∧ FileRow3D.velocity row = Some velocity
    ∧ is_Some (r_value_of (FileRow3D.r row))
    ∧ match wave_type with
      | VP => existsb (same_vp longitude latitude depth velocity (FileRow3D.nfo row)
                         (FileRow3D.author row)) (velocity_models_3d_vp db)
      | VS => existsb (same_vs longitude latitude depth velocity (FileRow3D.nfo row)
                         (FileRow3D.author row)) (velocity_models_3d_vs db)
      end = true.

(** The reference stored for [author]: the first row a [filter_by] finds. *)
Definition stored_bibref `{Engine} (table : list AuthorBibref.t) (author : string)
    : option string :=
  (λ found, AuthorBibref.bibref found.2)
    <$> list_find (λ b, eq_str (AuthorBibref.author b) author) table.

(** The reference of the last row of a file that names [author]. *)
Fixpoint last_bibref (rows : list (string * string)) (author : string) : option string :=
  match rows with
  | [] => None
  | (a, b) :: rest =>
      match last_bibref rest author with
      | Some b' => Some b'
      | None => if String.eqb a author then Some b else None
      end
  end.

(** ** A sample engine and sample tables

    The sample engine matches a pattern [%text%] when the value contains
    [text] up to the case of ASCII letters, orders rows with a merge sort,
    compares floats numerically and strings byte by byte, numbers new rows
    from the size of their table, and refuses NaN in a column that is not
    nullable. *)

Definition ascii_lower (c : ascii) : ascii :=
  let n := nat_of_ascii c in
  if (65 <=? n)%nat && (n <=? 90)%nat then ascii_of_nat (n + 32) else c.

Fixpoint str_lower (s : string) : string :=
  match s with
  | EmptyString => ""
  | String c t => String (ascii_lower c) (str_lower t)
  end.

Fixpoint str_contains (needle hay : string) : bool :=
  String.prefix needle hay
  || match hay with
     | EmptyString => false
     | String _ t => str_contains needle t
     end.

Definition sample_ilike (value pattern : string) : bool :=
  str_contains (str_lower (str_take (String.length pattern - 2) (str_drop 1 pattern)))
    (str_lower value).

Definition sample_engine : Engine := {|
  ilike := sample_ilike;
  order_by_depth :=
    merge_sort (λ a b, float_le (VelocityModel1D.depth a) (VelocityModel1D.depth b));
  order_by_position_vp := λ l, l;
  order_by_position_vs := λ l, l;
  eq_float := float_eq;
  eq_str := String.eqb;
  next_id := λ n, n + 1;
  stores_nan := false;
  str_of_exn := λ e, match e with AttributeError attr => attr | TypeError => "TypeError" end;
  order_by_depth_perm := merge_sort_Permutation _;
  order_by_position_vp_perm := λ l, Permutation_refl l;
  order_by_position_vs_perm := λ l, Permutation_refl l
|}.

Definition sample_db : database :=
  Database sample_profile
    [VelocityModel3D_VP.mk 1 (float_literal 235 1) (float_literal 3801 2) (float_of_int 5)
       (float_literal 612 2) (Some (float_literal 10 1)) "GRID" "Karakonstantis";
     VelocityModel3D_VP.mk 2 (float_literal 235 1) (float_literal 3801 2) (float_of_int 10)
       (float_literal 65 1) (Some (float_literal 95 2)) "GRID" "Karakonstantis"]
    []
    [AuthorBibref.mk "Herrin" "Herrin (1968)"].

Definition sample_file_1d : list FileRow1D.t :=
  [FileRow1D.mk (Some (float_literal 0 1)) (Some (float_literal 580 2)) "VP" "CRUST1" "Herrin";
   FileRow1D.mk (Some (float_literal 200 1)) (Some (float_literal 650 2)) "VP" "CRUST1" "Herrin";
   FileRow1D.mk (Some (float_literal 200 1)) (Some (float_literal 650 2)) "VP" "CRUST1" "Herrin"].

Definition sample_file_3d : list FileRow3D.t :=
  [FileRow3D.mk (Some (float_literal 235 1)) (Some (float_literal 3801 2))
     (Some (float_of_int 5)) (Some (float_literal 612 2)) RAbsent "GRID" "Karakonstantis";
   FileRow3D.mk (Some (float_literal 240 1)) (Some (float_literal 3801 2))
     (Some (float_of_int 5)) (Some (float_literal 610 2)) RMissing "GRID" "Karakonstantis"].

(** A file that names a stored grid point again, with another scale
    factor. *)
Definition sample_file_3d_rescaled : list FileRow3D.t :=
  [FileRow3D.mk (Some (float_literal 235 1)) (Some (float_literal 3801 2))
     (Some (float_of_int 10)) (Some (float_literal 65 1))
     (RValue (Some (float_literal 20 1))) "GRID" "Karakonstantis"].

Definition sample_bibrefs : list (string * string) :=
  [("Herrin", "Herrin (1968), revised"); ("Kennett", "Kennett (1991)");
   ("Kennett", "Kennett et al. (1995)")].

(** * Properties *)

(** ** Strings *)

Lemma all_chars_app (P : ascii → bool) (a b : string) :
  all_chars P (a +:+ b) = all_chars P a && all_chars P b.
Proof.
  induction a as [|c a IH]; simpl; [done|].
  rewrite IH. by destruct (P c).
Qed.

Lemma all_chars_mono (P Q : ascii → bool) (s : string) :
  (∀ c, P c = true → Q c = true) → all_chars P s = true → all_chars Q s = true.
Proof.
  intros HPQ. induction s as [|c s IH]; simpl; [done|].
  intros [Hc Hs]%andb_true_iff. rewrite (HPQ _ Hc). by apply IH.
Qed.

Lemma all_chars_spaces (P : ascii → bool) (n : nat) :
  P " "%char = true → all_chars P (spaces n) = true.
Proof. intros HP. induction n as [|n IH]; simpl; [done|]. by rewrite HP. Qed.

Lemma all_chars_zeros (P : ascii → bool) (n : nat) :
  P "0"%char = true → all_chars P (zeros n) = true.
Proof. intros HP. induction n as [|n IH]; simpl; [done|]. by rewrite HP. Qed.

Lemma all_chars_substring (P : ascii → bool) (s : string) (n k : nat) :
  all_chars P s = true → all_chars P (String.substring n k s) = true.
Proof.
  revert n k. induction s as [|c s IH]; intros n k.
  - by destruct n, k.
  - simpl. intros [Hc Hs]%andb_true_iff.
    destruct n as [|n]; [destruct k as [|k]; simpl; [done|]|]; auto.
    rewrite Hc. simpl. by apply IH.
Qed.

Lemma all_chars_strip (P : ascii → bool) (s : string) :
  all_chars P s = true → all_chars P (strip_trailing_zeros s) = true.
Proof.
  induction s as [|c s IH]; simpl; [done|].
  intros [Hc Hs]%andb_true_iff. specialize (IH Hs).
  destruct (strip_trailing_zeros s).
  - destruct (Ascii.eqb c "0"); simpl; [done|]. by rewrite Hc.
  - simpl in *. by rewrite Hc, IH.
Qed.

Lemma all_chars_uint (u : Decimal.uint) :
  all_chars is_digit (NilEmpty.string_of_uint u) = true.
Proof. induction u; simpl; auto. Qed.

Lemma is_digit_number_char (c : ascii) : is_digit c = true → is_number_char c = true.
Proof.
  unfold is_digit, is_number_char. simpl. intros H.
  repeat (apply orb_prop in H as [->|H]; [by rewrite ?orb_true_r|]). done.
Qed.

Lemma all_chars_str_of_int (n : Z) : all_chars is_number_char (str_of_int n) = true.
Proof.
  assert (Hu : ∀ u, all_chars is_number_char (NilZero.string_of_uint u) = true).
  { intros u. apply (all_chars_mono is_digit); [apply is_digit_number_char|].
    destruct u; try apply all_chars_uint. done. }
  unfold str_of_int. destruct (Z.to_int n) as [u|u]; simpl; [apply Hu|].
  apply Hu.
Qed.

Lemma all_chars_zero_fill (w : nat) (s : string) :
  all_chars is_number_char s = true → all_chars is_number_char (zero_fill w s) = true.
Proof.
  intros Hs. unfold zero_fill. rewrite all_chars_app, Hs, all_chars_zeros; done.
Qed.

Lemma all_chars_sign (s : bool) : all_chars is_number_char (sign_str s) = true.
Proof. by destruct s. Qed.

(** A tactic for the character class of a concatenation. *)
Ltac chars :=
  repeat first
    [ done
    | rewrite all_chars_app
    | apply andb_true_intro; split
    | apply all_chars_str_of_int
    | apply all_chars_zero_fill
    | apply all_chars_sign
    | apply all_chars_substring
    | apply all_chars_strip
    | apply all_chars_spaces
    | apply all_chars_zeros ].

Lemma all_chars_fixed_digits (places : nat) (n : Z) :
  all_chars is_number_char (fixed_digits places n) = true.
Proof. unfold fixed_digits. destruct places; chars. Qed.

Lemma all_chars_format_float_f (width places : nat) (x : float) :
  all_chars is_number_char (format_float_f width places x) = true.
Proof.
  unfold format_float_f, pad_left. rewrite all_chars_app.
  apply andb_true_intro; split; [by apply all_chars_spaces|].
  destruct x as [s|s| |s m e]; chars; apply all_chars_fixed_digits.
Qed.

Lemma all_chars_repr_digits (digits : string) (decpt : Z) :
  all_chars is_number_char digits = true →
  all_chars is_number_char (repr_digits digits decpt) = true.
Proof.
  intros Hd. unfold repr_digits, str_take, str_drop.
  repeat case_match; chars.
Qed.

Lemma all_chars_float_repr (x : float) : all_chars is_number_char (float_repr x) = true.
Proof.
  destruct x as [s|s| |s m e]; simpl; chars.
  destruct (shortest_decimal m e) as [d k]. chars.
  apply all_chars_repr_digits. chars.
Qed.

Lemma all_chars_has_char (P : ascii → bool) (c : ascii) (s : string) :
  all_chars P s = true → P c = false → has_char c s = false.
Proof.
  intros Hs Hc. induction s as [|d s IH]; simpl in *; [done|].
  apply andb_true_iff in Hs as [Hd Hs]. rewrite (IH Hs), orb_false_r.
  destruct (Ascii.eqb_spec d c) as [->|]; congruence.
Qed.

Lemma has_char_app (c : ascii) (a b : string) :
  has_char c (a +:+ b) = has_char c a || has_char c b.
Proof. induction a as [|d a IH]; simpl; [done|]. by rewrite IH, orb_assoc. Qed.

(** Splitting at a separator that the first field does not contain. *)
Lemma split_on_no_sep (sep : ascii) (a : string) :
  has_char sep a = false → split_on sep a = [a].
Proof.
  induction a as [|c a IH]; simpl; [done|].
  intros [Hc Ha]%orb_false_iff. rewrite Hc, (IH Ha). done.
Qed.

Lemma split_on_app (sep : ascii) (a b : string) :
  has_char sep a = false →
  split_on sep (a +:+ String sep "" +:+ b) = a :: split_on sep b.
Proof.
  induction a as [|c a IH]; simpl.
  - by rewrite Ascii.eqb_refl.
  - intros [Hc Ha]%orb_false_iff. rewrite Hc, (IH Ha). done.
Qed.

(** ** The order on floats *)

Lemma SFcompare_rank (x y : float) :
  is_nan x = false → is_nan y = false →
  SFcompare x y = Some (lex_compare (rank x) (rank y)).
Proof.
  destruct x as [sx|sx| |sx mx ex], y as [sy|sy| |sy my ey];
    try done; intros _ _; simpl;
    try (by destruct sx); try (by destruct sy); try (by destruct sx, sy).
  destruct sx, sy; simpl; try done.
  rewrite Z.compare_opp, (Z.compare_antisym ex ey).
  by destruct (ex ?= ey).
Qed.

Lemma lex_compare_antisym (a b : Z * Z * Z) :
  lex_compare b a = CompOpp (lex_compare a b).
Proof.
  destruct a as [[a1 a2] a3], b as [[b1 b2] b3]. simpl.
  rewrite (Z.compare_antisym a1 b1), (Z.compare_antisym a2 b2), (Z.compare_antisym a3 b3).
  destruct (a1 ?= b1), (a2 ?= b2), (a3 ?= b3); done.
Qed.

Lemma lex_compare_trans_le (a b c : Z * Z * Z) :
  lex_compare a b ≠ Gt → lex_compare b c ≠ Gt → lex_compare a c ≠ Gt.
Proof.
  destruct a as [[a1 a2] a3], b as [[b1 b2] b3], c as [[c1 c2] c3]. simpl.
  destruct (Z.compare_spec a1 b1), (Z.compare_spec b1 c1), (Z.compare_spec a1 c1);
    try done; try lia;
    destruct (Z.compare_spec a2 b2), (Z.compare_spec b2 c2), (Z.compare_spec a2 c2);
    try done; try lia;
    rewrite !Z.compare_le_iff; lia.
Qed.

Lemma float_lt_false_le (x y : float) :
  is_nan x = false → is_nan y = false → float_lt x y = false → float_le y x = true.
Proof.
  intros Hx Hy. unfold float_lt, float_le, SFltb, SFleb.
  rewrite (SFcompare_rank x y), (SFcompare_rank y x) by done.
  rewrite (lex_compare_antisym (rank x) (rank y)).
  by destruct (lex_compare (rank x) (rank y)).
Qed.

Lemma float_lt_le (x y : float) : float_lt x y = true → float_le x y = true.
Proof. unfold float_lt, float_le, SFltb, SFleb. by repeat case_match. Qed.

Lemma float_le_trans (x y z : float) :
  float_le x y = true → float_le y z = true → float_le x z = true.
Proof.
  unfold float_le, SFleb. intros Hxy Hyz.
  assert (is_nan x = false ∧ is_nan y = false ∧ is_nan z = false) as (Hx & Hy & Hz).
  { destruct x, y, z; done. }
  rewrite SFcompare_rank in * by done.
  pose proof (lex_compare_trans_le (rank x) (rank y) (rank z)) as H.
  destruct (lex_compare (rank x) (rank y)); try done;
    destruct (lex_compare (rank y) (rank z)); try done;
    destruct (lex_compare (rank x) (rank z)); try done; by exfalso; apply H.
Qed.

(** Two keys equal to the same float are not strictly ordered. *)
Lemma float_eq_not_lt (x y d : float) :
  float_eq x d = true → float_eq y d = true → float_lt x y = false.
Proof.
  unfold float_eq, float_lt, SFeqb, SFltb. intros Hx Hy.
  assert (is_nan x = false ∧ is_nan y = false ∧ is_nan d = false) as (Nx & Ny & Nd).
  { destruct x, y, d; done. }
  rewrite SFcompare_rank in * by done.
  destruct (lex_compare (rank x) (rank d)) eqn:E1; try done.
  destruct (lex_compare (rank y) (rank d)) eqn:E2; try done.
  destruct (lex_compare (rank x) (rank y)) eqn:E3; try done.
  assert (lex_compare (rank d) (rank y) = Eq) as E4
    by (rewrite lex_compare_antisym, E2; done).
  exfalso. apply (lex_compare_trans_le (rank y) (rank d) (rank x)).
  - by rewrite E2.
  - by rewrite lex_compare_antisym, E1.
  - by rewrite lex_compare_antisym, E3.
Qed.

Lemma float_eq_refl (x : float) : is_nan x = false → float_eq x x = true.
Proof.
  intros Hx. unfold float_eq, SFeqb. rewrite SFcompare_rank by done.
  destruct (rank x) as [[a b] c]. simpl. by rewrite !Z.compare_refl.
Qed.

Lemma float_le_antisym (x y : float) :
  float_le x y = true → float_le y x = true → float_eq x y = true.
Proof.
  unfold float_le, float_eq, SFleb, SFeqb. intros Hxy Hyx.
  assert (is_nan x = false ∧ is_nan y = false) as [Hx Hy] by (by destruct x, y).
  rewrite SFcompare_rank in * by done.
  rewrite (lex_compare_antisym (rank x) (rank y)) in Hyx.
  by destruct (lex_compare (rank x) (rank y)).
Qed.

Lemma float_le_refl (x : float) : is_nan x = false → float_le x x = true.
Proof.
  intros Hx. pose proof (float_eq_refl x Hx) as H.
  unfold float_eq, float_le, SFeqb, SFleb in *. by destruct (SFcompare x x) as [[]|].
Qed.

(** ** [list.sort]: permutation, order, stability *)

Section SortProperties.
Context {A : Type} (key : A → float).

Lemma sort_insert_perm (x : A) (l : list A) : sort_insert key x l ≡ₚ x :: l.
Proof.
  induction l as [|y t IH]; simpl; [done|].
  destruct (float_lt (key y) (key x)); [|done].
  rewrite IH. apply Permutation_swap.
Qed.

Lemma list_sort_perm (l : list A) : list_sort key l ≡ₚ l.
Proof.
  induction l as [|x l IH]; simpl; [done|].
  fold (list_sort key l). by rewrite sort_insert_perm, IH.
Qed.

Lemma length_list_sort (l : list A) : length (list_sort key l) = length l.
Proof. apply Permutation_length, list_sort_perm. Qed.

Lemma list_sort_nil_inv (l : list A) : list_sort key l = [] → l = [].
Proof.
  intros H. apply Permutation_nil_r. rewrite <- H. symmetry. apply list_sort_perm.
Qed.

Lemma sort_insert_sorted (x : A) (l : list A) :
  is_nan (key x) = false →
  Forall (λ a, is_nan (key a) = false) l →
  StronglySorted (λ a b, float_le (key a) (key b) = true) l →
  StronglySorted (λ a b, float_le (key a) (key b) = true) (sort_insert key x l).
Proof.
  intros Hx Hl Hs. induction Hs as [|y t Ht IH Hy]; simpl.
  - by repeat constructor.
  - apply Forall_cons in Hl as [Ny Nt].
    destruct (float_lt (key y) (key x)) eqn:Hlt.
    + constructor; [by apply IH|].
      rewrite sort_insert_perm. constructor; [by apply float_lt_le|done].
    + assert (float_le (key x) (key y) = true) as Hxy by by apply float_lt_false_le.
      constructor; [by constructor|].
      constructor; [done|].
      eapply Forall_impl; [exact Hy|]. intros z Hz. simpl in Hz.
      by eapply float_le_trans.
Qed.

Lemma list_sort_sorted (l : list A) :
  Forall (λ a, is_nan (key a) = false) l →
  StronglySorted (λ a b, float_le (key a) (key b) = true) (list_sort key l).
Proof.
  induction 1 as [|x l Hx Hl IH]; simpl; [constructor|].
  fold (list_sort key l). apply sort_insert_sorted; [done| |done].
  by rewrite list_sort_perm.
Qed.

Lemma sort_insert_stable (d : float) (x : A) (l : list A) :
  filter (λ a, float_eq (key a) d) (sort_insert key x l)
  = filter (λ a, float_eq (key a) d) (x :: l).
Proof.
  induction l as [|y t IH]; simpl; [done|].
  destruct (float_lt (key y) (key x)) eqn:Hlt; [|done].
  rewrite (filter_cons _ y), IH, !filter_cons.
  destruct (decide (float_eq (key y) d)) as [Hy|Hy];
    destruct (decide (float_eq (key x) d)) as [Hx|Hx]; try done.
  apply Is_true_true in Hx, Hy.
  by rewrite (float_eq_not_lt _ _ _ Hy Hx) in Hlt.
Qed.

Lemma list_sort_stable (d : float) (l : list A) :
  filter (λ a, float_eq (key a) d) (list_sort key l)
  = filter (λ a, float_eq (key a) d) l.
Proof.
  induction l as [|x l IH]; simpl; [done|].
  fold (list_sort key l). by rewrite sort_insert_stable, !filter_cons, IH.
Qed.

(** On keys without NaN a sorted list that keeps, for every key value, the
    order of another sorted list is that list: the result of a stable sort
    is determined by its input. *)
Lemma stable_sorted_unique (l1 l2 : list A) :
  Forall (λ a, is_nan (key a) = false) l1 →
  Forall (λ a, is_nan (key a) = false) l2 →
  StronglySorted (λ a b, float_le (key a) (key b) = true) l1 →
  StronglySorted (λ a b, float_le (key a) (key b) = true) l2 →
  (∀ d, filter (λ a, float_eq (key a) d) l1 = filter (λ a, float_eq (key a) d) l2) →
  l1 = l2.
Proof.
  revert l2. induction l1 as [|x t1 IH]; intros l2 N1 N2 S1 S2 Hf.
  - destruct l2 as [|y t2]; [done|]. apply Forall_cons in N2 as [Ny _].
    specialize (Hf (key y)). rewrite filter_nil, filter_cons in Hf.
    rewrite decide_True in Hf; [done|]. by rewrite float_eq_refl.
  - apply Forall_cons in N1 as [Nx N1]. apply StronglySorted_inv in S1 as [S1 Hx].
    destruct l2 as [|y t2].
    { specialize (Hf (key x)). rewrite filter_nil, filter_cons in Hf.
      rewrite decide_True in Hf; [done|]. by rewrite float_eq_refl. }
    apply Forall_cons in N2 as [Ny N2]. apply StronglySorted_inv in S2 as [S2 Hy].
    assert (float_le (key x) (key y) = true) as Hxy.
    { assert (y ∈ x :: t1) as Hin.
      { assert (y ∈ filter (λ a, float_eq (key a) (key y)) (x :: t1)) as Hin.
        { rewrite Hf, filter_cons, decide_True by (by rewrite float_eq_refl). by left. }
        by apply list_elem_of_filter in Hin as [_ ?]. }
      apply elem_of_cons in Hin as [->|Hin]; [by apply float_le_refl|].
      rewrite Forall_forall in Hx. by apply Hx. }
    assert (float_le (key y) (key x) = true) as Hyx.
    { assert (x ∈ y :: t2) as Hin.
      { assert (x ∈ filter (λ a, float_eq (key a) (key x)) (y :: t2)) as Hin.
        { rewrite <- Hf, filter_cons, decide_True by (by rewrite float_eq_refl). by left. }
        by apply list_elem_of_filter in Hin as [_ ?]. }
      apply elem_of_cons in Hin as [->|Hin]; [by apply float_le_refl|].
      rewrite Forall_forall in Hy. by apply Hy. }
    assert (x = y) as ->.
    { pose proof (Hf (key x)) as Hk. rewrite !filter_cons in Hk.
      rewrite decide_True in Hk by (by rewrite float_eq_refl).
      rewrite decide_True in Hk by (by rewrite (float_le_antisym _ _ Hyx Hxy)).
      by injection Hk. }
    f_equal. apply IH; try done.
    intros d. specialize (Hf d). rewrite !filter_cons in Hf.
    destruct (decide (float_eq (key y) d)); [by injection Hf|done].
Qed.

(** Hence any sorted list that is stable with respect to [l] is the list
    [list_sort] computes. *)
Lemma list_sort_unique (l sorted : list A) :
  Forall (λ a, is_nan (key a) = false) l →
  sorted ≡ₚ l →
  StronglySorted (λ a b, float_le (key a) (key b) = true) sorted →
  (∀ d, filter (λ a, float_eq (key a) d) sorted = filter (λ a, float_eq (key a) d) l) →
  sorted = list_sort key l.
Proof.
  intros Hl Hperm Hsorted Hstable. apply stable_sorted_unique; try done.
  - by rewrite Hperm.
  - by rewrite list_sort_perm.
  - by apply list_sort_sorted.
  - intros d. by rewrite Hstable, list_sort_stable.
Qed.

End SortProperties.

(** Sorting related lists by equal keys gives related lists. *)
Lemma list_sort_Forall2 {A B : Type} (ka : A → float) (kb : B → float)
    (R : A → B → Prop) (la : list A) (lb : list B) :
  (∀ a b, R a b → ka a = kb b) →
  Forall2 R la lb → Forall2 R (list_sort ka la) (list_sort kb lb).
Proof.
  intros Hk. induction 1 as [|a b la lb Hab Hl IH]; simpl; [constructor|].
  fold (list_sort ka la) (list_sort kb lb).
  induction IH as [|a' b' la' lb' Hab' Hl' IH']; simpl; [by repeat constructor|].
  rewrite (Hk _ _ Hab), (Hk _ _ Hab').
  destruct (float_lt (kb b') (kb b)); by repeat constructor.
Qed.

(** ** Formatting of numbers: sample evaluations *)

Example format_float_f_samples :
  format_float_f 4 2 (float_literal 580 2) = "5.80"
  ∧ format_float_f 5 2 (float_literal 350 1) = "35.00"
  ∧ format_float_f 4 2 (float_literal 125 3) = "0.12"
  ∧ format_float_f 4 2 (float_literal 2675 3) = "2.67"
  ∧ format_float_f 4 2 (float_literal 9996 3) = "10.00"
  ∧ format_float_f 5 2 (float_literal (-1) 3) = "-0.00"
  ∧ format_float_f 5 2 (float_literal (-1250) 2) = "-12.50"
  ∧ format_float_f 5 2 (float_literal 5 1) = " 0.50"
  ∧ format_float_f 5 2 S754_nan = "  nan"
  ∧ format_float_f 4 2 (S754_infinity true) = "-inf".
Proof. by vm_compute. Qed.

Example float_repr_samples :
  float_repr (float_literal 10 1) = "1.0"
  ∧ float_repr (float_literal 1 1) = "0.1"
  ∧ float_repr (float_literal 3801 2) = "38.01"
  ∧ float_repr (float_of_int 35) = "35.0"
  ∧ float_repr (float_neg (float_of_int 0)) = "-0.0"
  ∧ float_repr (float_literal 1 4) = "0.0001"
  ∧ float_repr (float_literal 1 5) = "1e-05"
  ∧ float_repr (float_of_int (10 ^ 15)) = "1000000000000000.0"
  ∧ float_repr (float_of_int (10 ^ 16)) = "1e+16"
  ∧ float_repr (SFadd prec emax (float_literal 1 1) (float_literal 2 1))
    = "0.30000000000000004"
  ∧ float_repr (S754_finite false 1 (-1074)) = "5e-324"
  ∧ float_repr (S754_finite false (2 ^ 53 - 1) 971) = "1.7976931348623157e+308"
  ∧ float_repr (S754_finite false (2 ^ 52 + 6) (-3)) = "562949953421312.8"
  ∧ float_repr (S754_finite false (2 ^ 52 + 2) (-3)) = "562949953421312.2".
Proof. by vm_compute. Qed.

Example str_of_int_samples :
  str_of_int 0 = "0" ∧ str_of_int 42 = "42" ∧ str_of_int (-7) = "-7"
  ∧ str_of_int (10 ^ 20) = "100000000000000000000".
Proof. by vm_compute. Qed.

(** ** The profile formatter *)

Lemma create_text_response_1d_joins (models : list VelocityModel1D.t) (bibref : string)
    (total_count offset limit : Z) :
  models ≠ [] →
  create_text_response_1d models bibref total_count offset limit
  = str_join newline (lines_1d models bibref total_count offset limit).
Proof. by destruct models. Qed.

(** Two P-wave layers at depths 0 and 35 km, and the mixed sample with a
    pagination annotation. *)
Example profile_outputs :
  lines_1d [row_p_top; row_p_moho] "" 0 0 0
  = ["1D CRUST1";
     " 2        vel,depth,vdamp,phase (f5.2,5x,f7.2,2x,f7.3,3x,a1)";
     " 5.80        0.00   001.000           P-VELOCITY MODEL";
     " 8.00       35.00   001.000"]
  ∧ lines_1d sample_profile "Herrin (1968)" 12 4 5
    = ["1D CRUST1 Herrin (1968)";
       "# Showing 5-9 of 12 records (limit=5, offset=4)";
       " 2        vel,depth,vdamp,phase (f5.2,5x,f7.2,2x,f7.3,3x,a1)";
       " 5.80        0.00   001.000           P-VELOCITY MODEL";
       " 8.00       35.00   001.000";
       " 3";
       " 3.36        0.00   001.000           S-VELOCITY MODEL";
       " 3.40        0.00   001.000";
       " 4.47       35.00   001.000"]
  ∧ create_text_response_1d [row_p_top] "" 0 0 0
    = "1D CRUST1" +:+ newline
      +:+ " 1        vel,depth,vdamp,phase (f5.2,5x,f7.2,2x,f7.3,3x,a1)" +:+ newline
      +:+ " 5.80        0.00   001.000           P-VELOCITY MODEL".
Proof. by vm_compute. Qed.

Lemma float_lt_not_ge (x y : float) : float_lt x y = true → float_le y x = false.
Proof.
  unfold float_lt, float_le, SFltb, SFleb.
  destruct (is_nan x) eqn:Nx; [by destruct x|].
  destruct (is_nan y) eqn:Ny; [by destruct x, y|].
  rewrite (SFcompare_rank x y), (SFcompare_rank y x) by done.
  rewrite (lex_compare_antisym (rank x) (rank y)).
  by destruct (lex_compare (rank x) (rank y)).
Qed.

(** The choice made at lines 78-89 obeys the width rule. *)
Lemma depth_field_rule (d : float) :
  ∃ lead width,
    depth_rule d lead width
    ∧ depth_field d = (spaces lead, format_float_f width 2 d).
Proof.
  unfold depth_field, depth_rule, float_ge.
  destruct (float_lt d (float_of_int 0)) eqn:Hneg.
  - exists 7%nat, 5%nat. split; [|done].
    split; [done|]. split; [done|].
    intros Hz _. by rewrite (float_lt_not_ge _ _ Hneg) in Hz.
  - destruct (float_le (float_of_int 10) d) eqn:Hge.
    + exists 7%nat, 5%nat. split; [|done].
      split; [done|]. split; [done|].
      intros _ Hlt. by rewrite (float_lt_not_ge _ _ Hlt) in Hge.
    + exists 8%nat, 4%nat. split; [|done].
      split; [done|]. split; done.
Qed.

Lemma length_header_lines (kind nfo bibref : string) (count total_count offset limit : Z) :
  length (header_lines kind nfo bibref count total_count offset limit)
  = if count <? total_count then 2%nat else 1%nat.
Proof. unfold header_lines. by destruct (count <? total_count). Qed.

Lemma vp_section_lookup (vp : list VelocityModel1D.t) (i : nat) (m : VelocityModel1D.t) :
  vp !! i = Some m →
  vp_section vp !! S i = Some (velest_line "P-VELOCITY MODEL" i m).
Proof.
  intros Hi. destruct vp as [|x vp]; [done|]. unfold vp_section.
  rewrite lookup_cons. by rewrite list_lookup_imap, Hi.
Qed.

Lemma vs_section_lookup (vs : list VelocityModel1D.t) (i : nat) (m : VelocityModel1D.t) :
  vs !! i = Some m →
  vs_section vs !! S i = Some (velest_line "S-VELOCITY MODEL" i m).
Proof.
  intros Hi. destruct vs as [|x vs]; [done|]. unfold vs_section.
  rewrite lookup_cons. by rewrite list_lookup_imap, Hi.
Qed.

Lemma length_vp_section (vp : list VelocityModel1D.t) :
  length (vp_section vp) = match vp with [] => 0%nat | _ => S (length vp) end.
Proof. destruct vp; [done|]. unfold vp_section. simpl. by rewrite length_imap. Qed.

Lemma length_vs_section (vs : list VelocityModel1D.t) :
  length (vs_section vs) = match vs with [] => 0%nat | _ => S (length vs) end.
Proof. destruct vs; [done|]. unfold vs_section. simpl. by rewrite length_imap. Qed.

(** Where the body line of the [i]-th sorted P-wave (S-wave) record stands
    in [lines]. *)
Lemma lines_1d_vp_body models bibref total_count offset limit i m :
  vp_models models !! i = Some m →
  lines_1d models bibref total_count offset limit
    !! (length (header_lines "1D" (first_nfo models) bibref (len models)
                  total_count offset limit) + S i)%nat
  = Some (velest_line "P-VELOCITY MODEL" i m).
Proof.
  intros Hi. unfold lines_1d. cbv zeta.
  rewrite lookup_app_r by lia.
  replace (_ + S i - _)%nat with (S i) by lia.
  rewrite lookup_app_l_Some with (x := velest_line "P-VELOCITY MODEL" i m); [done|].
  by apply vp_section_lookup.
Qed.

Lemma lines_1d_vs_body models bibref total_count offset limit i m :
  vs_models models !! i = Some m →
  lines_1d models bibref total_count offset limit
    !! (length (header_lines "1D" (first_nfo models) bibref (len models)
                  total_count offset limit)
        + length (vp_section (vp_models models)) + S i)%nat
  = Some (velest_line "S-VELOCITY MODEL" i m).
Proof.
  intros Hi. unfold lines_1d. cbv zeta.
  rewrite lookup_app_r by lia.
  rewrite lookup_app_r by lia.
  match goal with |- _ !! ?n = _ => replace n with (S i) by lia end.
  by apply vs_section_lookup.
Qed.

Lemma has_char_number (c : ascii) (s : string) :
  all_chars is_number_char s = true → is_number_char c = false → has_char c s = false.
Proof. apply all_chars_has_char. Qed.

Lemma has_char_spaces (c : ascii) (n : nat) :
  is_number_char c = false → has_char c (spaces n) = false.
Proof. intros Hc. apply has_char_number; [by apply all_chars_spaces|done]. Qed.

Lemma has_char_depth_field (c : ascii) (d : float) :
  is_number_char c = false →
  has_char c (depth_field d).1 = false ∧ has_char c (depth_field d).2 = false.
Proof.
  intros Hc. destruct (depth_field_rule d) as (lead & width & _ & ->). simpl.
  split; [by apply has_char_spaces|].
  apply has_char_number; [apply all_chars_format_float_f|done].
Qed.

Lemma has_char_velest_line (c : ascii) (phase : string) (i : nat) (m : VelocityModel1D.t) :
  is_number_char c = false → has_char c phase = false →
  has_char c (velest_line phase i m) = false.
Proof.
  intros Hc Hp. unfold velest_line.
  destruct (has_char_depth_field c (VelocityModel1D.depth m) Hc) as [H1 H2].
  destruct (depth_field (VelocityModel1D.depth m)) as [spacing depth_str]. simpl in H1, H2.
  assert (has_char c (format_float_f 4 2 (VelocityModel1D.velocity m)) = false) as Hv.
  { apply has_char_number; [apply all_chars_format_float_f|done]. }
  assert (has_char c " " = false ∧ has_char c "   001.000" = false
          ∧ has_char c "   001.000           " = false) as (Ha & Hb & Hd).
  { assert (has_char c " " = false) as Hsp.
    { apply has_char_number; [done|done]. }
    assert (has_char c "   001.000" = false) as H001.
    { apply has_char_number; [done|done]. }
    repeat split; try done.
    change "   001.000           " with ("   001.000" +:+ spaces 11).
    by rewrite has_char_app, H001, has_char_spaces. }
  destruct (Nat.eqb i 0); rewrite !has_char_app, ?Ha, ?Hv, ?H1, ?H2, ?Hb, ?Hd, ?Hp; done.
Qed.

Lemma pagination_line_no_v (count total_count offset limit : Z) :
  has_char "v" (pagination_line count total_count offset limit) = false.
Proof.
  unfold pagination_line.
  assert (∀ n, has_char "v" (str_of_int n) = false) as Hn.
  { intros n. apply has_char_number; [apply all_chars_str_of_int|done]. }
  rewrite !has_char_app, !Hn. by vm_compute.
Qed.

(** C9. Empty input gives the empty string, from both formatters, whatever
    the reference string, the wave type, the R flag and the pagination
    counters are; the grid formatter returns normally. *)
Theorem empty_input_empty_string (bibref wave_type : string) (include_r : bool)
    (total_count offset limit : Z) :
  create_text_response_1d [] bibref total_count offset limit = ""
  ∧ create_text_response_3d [] wave_type include_r bibref total_count offset limit = Ok "".
Proof. done. Qed.

(** C2. Every body line of either section is one space, the velocity in a
    field of width 4 with two decimals, [lead] spaces, the depth in a field
    of width [width] with two decimals, and the literal ["   001.000"]
    (followed, on the first line of a section, by the phase label), where
    [lead] and [width] obey the three-way rule: 7 and 5 for a depth below 0,
    7 and 5 for a depth of at least 10, 8 and 4 for a depth from 0 up to 10.
    A field of width [w] is the text of [format(depth, "w.2f")].  Depth 5.00
    gives 8 spaces and ["5.00"], 12.50 gives 7 spaces and ["12.50"], -3.25
    gives 7 spaces and ["-3.25"], and 10.00 takes the second branch.  The
    output is the lines joined by newlines. *)
Theorem profile_depth_width_rule (models : list VelocityModel1D.t) (bibref : string)
    (total_count offset limit : Z) :
  ∃ rule : float → nat * nat,
    (∀ d, depth_rule d (rule d).1 (rule d).2)
    ∧ create_text_response_1d models bibref total_count offset limit
      = match models with
        | [] => ""
        | _ => str_join newline (lines_1d models bibref total_count offset limit)
        end
    ∧ (let body (phase : string) :=
         imap (λ i m,
           " " +:+ format_float_f 4 2 (VelocityModel1D.velocity m)
           +:+ spaces (rule (VelocityModel1D.depth m)).1
           +:+ format_float_f (rule (VelocityModel1D.depth m)).2 2 (VelocityModel1D.depth m)
           +:+ "   001.000"
           +:+ (if Nat.eqb i 0 then "           " +:+ phase else "")) in
       lines_1d models bibref total_count offset limit
       = header_lines "1D" (first_nfo models) bibref (len models) total_count offset limit
         ++ match vp_models models with
            | [] => []
            | vp => (" " +:+ str_of_int (len vp) +:+ vp_descriptor)
                    :: body "P-VELOCITY MODEL" vp
            end
         ++ match vs_models models with
            | [] => []
            | vs => (" " +:+ str_of_int (len vs)) :: body "S-VELOCITY MODEL" vs
            end)
    ∧ (rule (float_literal 500 2) = (8%nat, 4%nat)
       ∧ format_float_f 4 2 (float_literal 500 2) = "5.00")
    ∧ (rule (float_literal 1250 2) = (7%nat, 5%nat)
       ∧ format_float_f 5 2 (float_literal 1250 2) = "12.50")
    ∧ (rule (float_literal (-325) 2) = (7%nat, 5%nat)
       ∧ format_float_f 5 2 (float_literal (-325) 2) = "-3.25")
    ∧ (rule (float_literal 1000 2) = (7%nat, 5%nat)
       ∧ format_float_f 5 2 (float_literal 1000 2) = "10.00").
Proof.
  exists (λ d, if float_lt d (float_of_int 0) then (7%nat, 5%nat)
               else if float_ge d (float_of_int 10) then (7%nat, 5%nat)
               else (8%nat, 4%nat)).
  assert (∀ d, depth_field d
               = (spaces (if float_lt d (float_of_int 0) then (7%nat, 5%nat)
                          else if float_ge d (float_of_int 10) then (7%nat, 5%nat)
                          else (8%nat, 4%nat)).1,
                  format_float_f (if float_lt d (float_of_int 0) then (7%nat, 5%nat)
                          else if float_ge d (float_of_int 10) then (7%nat, 5%nat)
                          else (8%nat, 4%nat)).2 2 d)) as Hfield.
  { intros d. unfold depth_field. by repeat case_match. }
  split; [|split; [done|split; [|by vm_compute]]].
  - intros d. clear Hfield. unfold depth_rule, float_ge.
    destruct (float_lt d (float_of_int 0)) eqn:Hneg.
    + split; [done|]. split; [done|]. intros Hz _.
      by rewrite (float_lt_not_ge _ _ Hneg) in Hz.
    + destruct (float_le (float_of_int 10) d) eqn:Hge.
      * split; [done|]. split; [done|]. intros _ Hlt.
        by rewrite (float_lt_not_ge _ _ Hlt) in Hge.
      * done.
  - cbv zeta. unfold lines_1d. cbv zeta. f_equal.
    assert (∀ phase vp,
      imap (velest_line phase) vp
      = imap (λ i m,
           " " +:+ format_float_f 4 2 (VelocityModel1D.velocity m)
           +:+ spaces (if float_lt (VelocityModel1D.depth m) (float_of_int 0)
                       then (7%nat, 5%nat)
                       else if float_ge (VelocityModel1D.depth m) (float_of_int 10)
                            then (7%nat, 5%nat) else (8%nat, 4%nat)).1
           +:+ format_float_f (if float_lt (VelocityModel1D.depth m) (float_of_int 0)
                       then (7%nat, 5%nat)
                       else if float_ge (VelocityModel1D.depth m) (float_of_int 10)
                            then (7%nat, 5%nat) else (8%nat, 4%nat)).2 2
                 (VelocityModel1D.depth m)
           +:+ "   001.000"
           +:+ (if Nat.eqb i 0 then "           " +:+ phase else "")) vp) as Hbody.
    { intros phase vp. apply imap_ext. intros i m _. unfold velest_line.
      rewrite Hfield. by destruct (Nat.eqb i 0). }
    f_equal.
    + unfold vp_section. destruct (vp_models models); [done|]. by rewrite Hbody.
    + unfold vs_section. destruct (vs_models models); [done|]. by rewrite Hbody.
Qed.

(** C5 (as stated, refuted). A row whose [wave_type] is neither ["VP"] nor
    ["VS"] lands in neither sublist: the sizes do not add up. *)
Lemma select_wave_drops_other_types :
  (length (select_wave "VP" [row_other]) + length (select_wave "VS" [row_other]))%nat
  ≠ length [row_other].
Proof. by vm_compute. Qed.

(** C5 (amended). When every row's [wave_type] is ["VP"] or ["VS"], the two
    sublists partition the input: each row is in exactly one of them, the
    input is a permutation of their concatenation, and their sizes add up to
    the length of the input. *)
Theorem select_wave_partition (models : list VelocityModel1D.t) :
  Forall (λ m, VelocityModel1D.wave_type m = "VP" ∨ VelocityModel1D.wave_type m = "VS")
    models →
  (length (select_wave "VP" models) + length (select_wave "VS" models))%nat = length models
  ∧ models ≡ₚ select_wave "VP" models ++ select_wave "VS" models
  ∧ ∀ m, m ∈ models →
      (m ∈ select_wave "VP" models ∧ m ∉ select_wave "VS" models)
      ∨ (m ∈ select_wave "VS" models ∧ m ∉ select_wave "VP" models).
Proof.
  intros Hall. unfold select_wave.
  assert (models ≡ₚ filter (λ m, VelocityModel1D.wave_type m = "VP") models
                    ++ filter (λ m, VelocityModel1D.wave_type m = "VS") models) as Hperm.
  { induction Hall as [|m l Hm Hl IH]; [done|].
    rewrite !filter_cons. destruct Hm as [Hm|Hm]; rewrite Hm.
    - rewrite decide_True by done. rewrite decide_False by done. simpl. by f_equiv.
    - rewrite decide_False by done. rewrite decide_True by done.
      rewrite <- Permutation_middle. by f_equiv. }
  split; [|split; [done|]].
  - rewrite <- length_app. symmetry. by apply Permutation_length.
  - intros m Hm. rewrite !list_elem_of_filter.
    rewrite Forall_forall in Hall. destruct (Hall m Hm) as [Hw|Hw]; [left|right];
      (split; [done|]); rewrite Hw; by intros [? _].
Qed.

Lemma select_wave_partition_witness :
  Forall (λ m, VelocityModel1D.wave_type m = "VP" ∨ VelocityModel1D.wave_type m = "VS")
    sample_profile
  ∧ (length (select_wave "VP" sample_profile)
     + length (select_wave "VS" sample_profile))%nat = 5%nat.
Proof.
  assert (Forall (λ m, VelocityModel1D.wave_type m = "VP"
                       ∨ VelocityModel1D.wave_type m = "VS") sample_profile) as H.
  { unfold sample_profile.
    repeat (apply Forall_cons; split; [vm_compute; auto|]). constructor. }
  split; [exact H|].
  exact (proj1 (select_wave_partition sample_profile H)).
Defined.

(** C7. When no depth is NaN, the rows of each section are the rows of that
    wave type sorted by depth ascending, rows of equal depth in their input
    order, and the body lines of the section follow that order in the
    output. *)
Theorem profile_sections_sorted_stable (models : list VelocityModel1D.t)
    (bibref : string) (total_count offset limit : Z) :
  Forall (λ m, is_nan (VelocityModel1D.depth m) = false) models →
  let lines := lines_1d models bibref total_count offset limit in
  let head := length (header_lines "1D" (first_nfo models) bibref (len models)
                        total_count offset limit) in
  (vp_models models ≡ₚ select_wave "VP" models
   ∧ StronglySorted
       (λ a b, float_le (VelocityModel1D.depth a) (VelocityModel1D.depth b) = true)
       (vp_models models)
   ∧ (∀ d, filter (λ m, float_eq (VelocityModel1D.depth m) d) (vp_models models)
           = filter (λ m, float_eq (VelocityModel1D.depth m) d
                          ∧ VelocityModel1D.wave_type m = "VP") models)
   ∧ (∀ i m, vp_models models !! i = Some m →
             lines !! (head + S i)%nat = Some (velest_line "P-VELOCITY MODEL" i m)))
  ∧ (vs_models models ≡ₚ select_wave "VS" models
     ∧ StronglySorted
         (λ a b, float_le (VelocityModel1D.depth a) (VelocityModel1D.depth b) = true)
         (vs_models models)
     ∧ (∀ d, filter (λ m, float_eq (VelocityModel1D.depth m) d) (vs_models models)
             = filter (λ m, float_eq (VelocityModel1D.depth m) d
                            ∧ VelocityModel1D.wave_type m = "VS") models)
     ∧ (∀ i m, vs_models models !! i = Some m →
               lines !! (head + length (vp_section (vp_models models)) + S i)%nat
               = Some (velest_line "S-VELOCITY MODEL" i m))).
Proof.
  intros Hnan lines head.
  assert (∀ wt, Forall (λ m, is_nan (VelocityModel1D.depth m) = false)
                  (select_wave wt models)) as Hsel.
  { intros wt. unfold select_wave. rewrite Forall_forall in Hnan |- *.
    intros m [_ Hm]%list_elem_of_filter. by apply Hnan. }
  split; (split; [apply list_sort_perm|]);
    (split; [apply list_sort_sorted, Hsel|]);
    (split; [intros d; unfold vp_models, vs_models;
             rewrite list_sort_stable; unfold select_wave;
             by rewrite list_filter_filter|]).
  - intros i m Hi. by apply lines_1d_vp_body.
  - intros i m Hi. by apply lines_1d_vs_body.
Qed.

Lemma profile_sections_sorted_stable_witness :
  Forall (λ m, is_nan (VelocityModel1D.depth m) = false) sample_profile
  ∧ vs_models sample_profile = [row_s_top; row_s_top'; row_s_moho]
  ∧ StronglySorted
      (λ a b, float_le (VelocityModel1D.depth a) (VelocityModel1D.depth b) = true)
      (vs_models sample_profile).
Proof.
  assert (Forall (λ m, is_nan (VelocityModel1D.depth m) = false) sample_profile) as H.
  { repeat constructor. }
  split; [exact H|]. split; [by vm_compute|].
  exact (proj1 (proj2 (proj2 (profile_sections_sorted_stable sample_profile "" 0 0 0 H)))).
Defined.

Lemma Forall_imap_velest (c : ascii) (phase : string) (l : list VelocityModel1D.t) :
  is_number_char c = false → has_char c phase = false →
  Forall (λ line, has_char c line = false) (imap (velest_line phase) l).
Proof.
  intros Hc Hp. apply Forall_forall. intros line (i & m & -> & _)%elem_of_lookup_imap_1.
  by apply has_char_velest_line.
Qed.

(** C8. A section is emitted only for a non-empty sublist.  The output is
    [lines] joined by newlines.  When no row is a
    P-wave row, [lines] is the title, the optional pagination annotation and
    the S-wave section; none of the lines after the title contains the
    letter [v], which every count/format-descriptor line contains.
    Symmetrically, when no row is an S-wave row, [lines] ends with the P-wave
    section, no line of which contains the letter [S] of the S-wave label. *)
Theorem profile_block_omitted_when_empty (models : list VelocityModel1D.t)
    (bibref : string) (total_count offset limit : Z) :
  let lines := lines_1d models bibref total_count offset limit in
  let head := header_lines "1D" (first_nfo models) bibref (len models)
                total_count offset limit in
  create_text_response_1d models bibref total_count offset limit
  = match models with [] => "" | _ => str_join newline lines end
  ∧ (select_wave "VP" models = [] →
     lines = head ++ vs_section (vs_models models)
     ∧ Forall (λ line, has_char "v" line = false) (drop 1 lines))
  ∧ (select_wave "VS" models = [] →
     lines = head ++ vp_section (vp_models models)
     ∧ Forall (λ line, has_char "S" line = false) (vp_section (vp_models models)))
  ∧ (∀ n, has_char "v" (" " +:+ str_of_int n +:+ vp_descriptor) = true)
  ∧ (vp_section (vp_models models) = [] ↔ select_wave "VP" models = [])
  ∧ (vs_section (vs_models models) = [] ↔ select_wave "VS" models = []).
Proof.
  intros lines head.
  assert (∀ n, has_char "v" (str_of_int n) = false) as Hn.
  { intros n. apply has_char_number; [apply all_chars_str_of_int|done]. }
  split; [done|]. split; [|split; [|split; [|split]]].
  - intros Hvp. subst lines head. unfold lines_1d. cbv zeta.
    unfold vp_models. rewrite Hvp. simpl vp_section. rewrite app_nil_l.
    split; [done|].
    unfold header_lines. destruct (len models <? total_count); simpl drop.
    + apply Forall_cons. split; [apply pagination_line_no_v|].
      unfold vs_section. destruct (vs_models models) eqn:E; [done|]. rewrite <- E.
      apply Forall_cons. split; [by rewrite has_char_app, Hn|].
      by apply Forall_imap_velest.
    + unfold vs_section. destruct (vs_models models) eqn:E; [done|]. rewrite <- E.
      apply Forall_cons. split; [by rewrite has_char_app, Hn|].
      by apply Forall_imap_velest.
  - intros Hvs. subst lines head. unfold lines_1d. cbv zeta.
    unfold vs_models. rewrite Hvs. simpl vs_section. rewrite app_nil_r.
    split; [done|].
    unfold vp_section. destruct (vp_models models) eqn:E; [done|]. rewrite <- E.
    apply Forall_cons. split.
    + rewrite !has_char_app.
      rewrite (has_char_number "S" (str_of_int _)); [done|apply all_chars_str_of_int|done].
    + by apply Forall_imap_velest.
  - intros n. rewrite !has_char_app. by rewrite orb_true_r.
  - unfold vp_section, vp_models. split.
    + destruct (list_sort VelocityModel1D.depth _) eqn:E; [|done].
      intros _. by apply list_sort_nil_inv in E.
    + by intros ->.
  - unfold vs_section, vs_models. split.
    + destruct (list_sort VelocityModel1D.depth _) eqn:E; [|done].
      intros _. by apply list_sort_nil_inv in E.
    + by intros ->.
Qed.

Lemma profile_block_omitted_when_empty_witness :
  select_wave "VP" sample_s_only = []
  ∧ lines_1d sample_s_only "" 0 0 0
    = header_lines "1D" (first_nfo sample_s_only) "" (len sample_s_only) 0 0 0
      ++ vs_section (vs_models sample_s_only)
  ∧ lines_1d sample_s_only "" 0 0 0
    = ["1D CRUST1"; " 2";
       " 3.36        0.00   001.000           S-VELOCITY MODEL";
       " 4.47       35.00   001.000"].
Proof.
  assert (select_wave "VP" sample_s_only = []) as H by by vm_compute.
  split; [exact H|]. split; [|by vm_compute].
  exact (proj1 (proj1 (proj2 (profile_block_omitted_when_empty sample_s_only "" 0 0 0)) H)).
Defined.

(** C4 (what the code does). A depth of negative zero is not below 0, so it
    takes the last branch: 8 spaces and the width-4 field, which prints
    ["-0.00"]; the depth column is then 13 characters wide instead of the 12
    of every other line.  A small negative depth prints the same text
    ["-0.00"] after 7 spaces. *)
Theorem negative_zero_depth_field :
  is_float (float_neg (float_of_int 0)) = true
  ∧ float_lt (float_neg (float_of_int 0)) (float_of_int 0) = false
  ∧ depth_field (float_neg (float_of_int 0)) = (spaces 8, "-0.00")
  ∧ depth_field (float_literal (-1) 3) = (spaces 7, "-0.00")
  ∧ lines_1d [row_neg_zero] "" 0 0 0
    = ["1D CRUST1";
       " 1        vel,depth,vdamp,phase (f5.2,5x,f7.2,2x,f7.3,3x,a1)";
       " 5.80        -0.00   001.000           P-VELOCITY MODEL"].
Proof. by vm_compute. Qed.

(** ** The grid formatter *)

Lemma float_repr_no_pipe (x : float) : has_char "|" (float_repr x) = false.
Proof. apply has_char_number; [apply all_chars_float_repr|done]. Qed.

Lemma grid_row_fields (wave_type : string) (show : bool) (model : model3d) (v : float) :
  velocity_of wave_type model = Ok v →
  ∃ row, grid_row wave_type show model = Ok row ∧ row_fields wave_type show model row.
Proof.
  intros Hv. unfold grid_row. rewrite Hv. simpl.
  destruct show; eexists; (split; [done|]); exists v; (split; [done|]).
  - rewrite !split_on_app by apply float_repr_no_pipe.
    by rewrite split_on_no_sep by apply float_repr_no_pipe.
  - rewrite !split_on_app by apply float_repr_no_pipe.
    by rewrite split_on_no_sep by apply float_repr_no_pipe.
Qed.

Lemma mapM_grid_row (wave_type : string) (show : bool) (models : list model3d) :
  Forall (has_velocity wave_type) models →
  ∃ rows, mapM (grid_row wave_type show) models = Ok rows
          ∧ Forall2 (row_fields wave_type show) models rows.
Proof.
  induction 1 as [|m l [v Hv] Hl (rows & Hrows & IH)]; simpl.
  - exists []. by split.
  - destruct (grid_row_fields wave_type show m v Hv) as (row & Hrow & Hf).
    exists (row :: rows). split; [|by constructor].
    rewrite Hrow. cbn. by rewrite Hrows.
Qed.

Lemma show_r_true (include_r : bool) (models : list model3d) :
  show_r include_r models = true
  ↔ include_r = true ∧ Exists differs_from_default models.
Proof.
  unfold show_r, has_non_default_r. rewrite andb_true_iff.
  assert (existsb (λ model, opt_float_ne (Row3D.r model) (float_literal 10 1)) models = true
          ↔ Exists differs_from_default models) as ->; [|done].
  induction models as [|m l IH]; simpl.
  - split; [done|]. by intros ?%Exists_nil.
  - rewrite orb_true_iff, Exists_cons, IH. done.
Qed.

Lemma header_show (wave_type : string) (show : bool) :
  header wave_type show = if show then r_header wave_type else plain_header wave_type.
Proof.
  unfold header, r_header, plain_header.
  destruct show; [|done]. by destruct (String.eqb wave_type "VP").
Qed.

(** The list [lines] of the grid formatter, for rows of the right class. *)
Lemma lines_3d_layout (models : list model3d) (wave_type : string) (include_r : bool)
    (bibref : string) (total_count offset limit : Z) :
  Forall (has_velocity wave_type) models →
  ∃ rows,
    lines_3d models wave_type include_r bibref total_count offset limit
    = Ok (header_lines "3D" (first_nfo_3d models) bibref (len models)
            total_count offset limit
          ++ header wave_type (show_r include_r models) :: rows)
    ∧ Forall2 (row_fields wave_type (show_r include_r models)) models rows.
Proof.
  intros Hv.
  destruct (mapM_grid_row wave_type (show_r include_r models) models Hv)
    as (rows & Hrows & Hf).
  exists rows. split; [|done]. unfold lines_3d. cbv zeta. rewrite Hrows. simpl.
  by rewrite <- app_assoc.
Qed.

(** C1. For a non-empty list of rows of the class [wave_type] selects, the
    output has the scale-factor column exactly when [include_r] is true and
    some row's stored scale factor compares different from 1.0 (an absent
    one does, see C6): then the header ends in ["|R"] and every body row
    splits into five pipe-delimited values; otherwise the header has no
    ["|R"] and every body row splits into four.  In particular, with
    [include_r] true and every stored scale factor equal to 1.0 there is no
    R column. *)
Theorem grid_scale_factor_column (models : list model3d) (wave_type : string)
    (include_r : bool) (bibref : string) (total_count offset limit : Z) :
  models ≠ [] →
  Forall (has_velocity wave_type) models →
  ∃ header_line rows,
    let lines := header_lines "3D" (first_nfo_3d models) bibref (len models)
                   total_count offset limit ++ header_line :: rows in
    create_text_response_3d models wave_type include_r bibref total_count offset limit
    = Ok (str_join newline lines)
    ∧ (include_r = true ∧ Exists differs_from_default models →
       header_line = r_header wave_type
       ∧ Forall2 (row_fields wave_type true) models rows)
    ∧ (¬ (include_r = true ∧ Exists differs_from_default models) →
       header_line = plain_header wave_type
       ∧ Forall2 (row_fields wave_type false) models rows)
    ∧ (include_r = true →
       Forall (λ m, ∃ x, Row3D.r m = Some x ∧ float_eq x (float_literal 10 1) = true)
         models →
       header_line = plain_header wave_type
       ∧ Forall2 (row_fields wave_type false) models rows).
Proof.
  intros Hne Hv.
  destruct (lines_3d_layout models wave_type include_r bibref total_count offset limit Hv)
    as (rows & Hlines & Hf).
  exists (header wave_type (show_r include_r models)), rows. cbv zeta.
  assert (¬ (include_r = true ∧ Exists differs_from_default models) →
          header wave_type (show_r include_r models) = plain_header wave_type
          ∧ Forall2 (row_fields wave_type false) models rows) as Hplain.
  { intros Hno. rewrite <- show_r_true in Hno. apply not_true_is_false in Hno.
    rewrite Hno in Hf. by rewrite header_show, Hno. }
  split; [|split; [|split; [done|]]].
  - unfold create_text_response_3d. destruct models; [done|]. by rewrite Hlines.
  - intros Hyes. rewrite <- show_r_true in Hyes.
    rewrite Hyes in Hf. by rewrite header_show, Hyes.
  - intros _ Hall. apply Hplain. intros [_ Hex].
    apply Exists_exists in Hex as (m & Hm & Hd).
    rewrite Forall_forall in Hall. destruct (Hall m Hm) as (x & Hr & Hx).
    unfold differs_from_default in Hd. rewrite Hr in Hd. simpl in Hd.
    by rewrite Hx in Hd.
Qed.

Lemma sample_grids_have_vp :
  Forall (has_velocity "VP") sample_grid_default
  ∧ Forall (has_velocity "VP") sample_grid_scaled
  ∧ Forall (has_velocity "VP") sample_grid_absent.
Proof. repeat split; repeat constructor; by eexists. Qed.

Lemma grid_scale_factor_column_witness :
  sample_grid_default ≠ []
  ∧ Forall (has_velocity "VP") sample_grid_default
  ∧ ∃ header_line rows,
      create_text_response_3d sample_grid_default "VP" true "" 0 0 0
      = Ok (str_join newline (["3D GRID"] ++ header_line :: rows))
      ∧ header_line = "Longitude|Latitude|Depth|Vp"
      ∧ Forall2 (row_fields "VP" false) sample_grid_default rows.
Proof.
  assert (sample_grid_default ≠ []) as Hne by done.
  pose proof (proj1 sample_grids_have_vp) as Hv.
  split; [exact Hne|]. split; [exact Hv|].
  destruct (grid_scale_factor_column sample_grid_default "VP" true "" 0 0 0 Hne Hv)
    as (header_line & rows & Hout & _ & _ & Hdefault).
  exists header_line, rows. split; [exact Hout|].
  apply Hdefault; [done|].
  repeat constructor; by eexists.
Defined.

(** The three sample grids, end to end. *)
Example grid_outputs :
  create_text_response_3d sample_grid_default "VP" true "" 0 0 0
  = Ok ("3D GRID" +:+ newline +:+ "Longitude|Latitude|Depth|Vp" +:+ newline
        +:+ "23.5|38.01|5.0|6.12" +:+ newline +:+ "23.5|38.01|10.0|6.5")
  ∧ create_text_response_3d sample_grid_scaled "VP" true "" 0 0 0
    = Ok ("3D GRID" +:+ newline +:+ "Longitude|Latitude|Depth|Vp|R" +:+ newline
          +:+ "23.5|38.01|5.0|6.12|1.0" +:+ newline +:+ "23.5|38.01|10.0|6.5|0.95")
  ∧ create_text_response_3d sample_grid_scaled "VP" false "" 0 0 0
    = Ok ("3D GRID" +:+ newline +:+ "Longitude|Latitude|Depth|Vp" +:+ newline
          +:+ "23.5|38.01|5.0|6.12" +:+ newline +:+ "23.5|38.01|10.0|6.5")
  ∧ create_text_response_3d sample_grid_absent "VP" true "" 0 0 0
    = Ok ("3D GRID" +:+ newline +:+ "Longitude|Latitude|Depth|Vp|R" +:+ newline
          +:+ "23.5|38.01|5.0|6.12|1.0" +:+ newline +:+ "23.5|38.01|10.0|6.5|1.0")
  ∧ create_text_response_3d sample_grid_default "VS" true "" 0 0 0
    = Raise (AttributeError "vs").
Proof. by vm_compute. Qed.

(** C6. With [include_r] true, one row whose scale factor is absent is
    enough for the R column, whatever the present scale factors are (so also
    when all of them equal 1.0): the header ends in ["|R"], every body row
    has five values, and the fifth value of a row with an absent scale
    factor is ["1.0"]. *)
Theorem grid_absent_scale_factor (models : list model3d) (wave_type : string)
    (bibref : string) (total_count offset limit : Z) :
  Forall (has_velocity wave_type) models →
  Exists (λ m, Row3D.r m = None) models →
  ∃ rows,
    create_text_response_3d models wave_type true bibref total_count offset limit
    = Ok (str_join newline
            (header_lines "3D" (first_nfo_3d models) bibref (len models)
               total_count offset limit
             ++ r_header wave_type :: rows))
    ∧ Forall2 (λ m row, row_fields wave_type true m row
                        ∧ (Row3D.r m = None → split_on "|" row !! 4%nat = Some "1.0"))
        models rows.
Proof.
  intros Hv Habsent.
  assert (models ≠ []) as Hne by (by destruct Habsent).
  assert (show_r true models = true) as Hshow.
  { apply show_r_true. split; [done|].
    eapply Exists_impl; [exact Habsent|]. intros m Hm.
    unfold differs_from_default. by rewrite Hm. }
  destruct (lines_3d_layout models wave_type true bibref total_count offset limit Hv)
    as (rows & Hlines & Hf).
  rewrite Hshow, header_show in *.
  exists rows. split.
  - unfold create_text_response_3d. destruct models; [done|]. by rewrite Hlines.
  - eapply Forall2_impl; [exact Hf|]. intros m row Hrow. split; [done|].
    intros Hnone. destruct Hrow as (v & _ & ->).
    unfold r_value. rewrite Hnone. by vm_compute.
Qed.

Lemma grid_absent_scale_factor_witness :
  Forall (has_velocity "VP") sample_grid_absent
  ∧ Exists (λ m, Row3D.r m = None) sample_grid_absent
  ∧ ∃ rows,
      create_text_response_3d sample_grid_absent "VP" true "" 0 0 0
      = Ok (str_join newline (["3D GRID"; "Longitude|Latitude|Depth|Vp|R"] ++ rows)).
Proof.
  pose proof (proj2 (proj2 sample_grids_have_vp)) as Hv.
  assert (Exists (λ m, Row3D.r m = None) sample_grid_absent) as Hex
    by (by apply Exists_cons_hd).
  split; [exact Hv|]. split; [exact Hex|].
  destruct (grid_absent_scale_factor sample_grid_absent "VP" "" 0 0 0 Hv Hex)
    as (rows & Hout & _).
  exists rows. exact Hout.
Defined.

(** ** The pagination annotation *)

Lemma filter_none {A : Type} (P : A → bool) (l : list A) :
  Forall (λ a, P a = false) l → filter (λ a, P a) l = [].
Proof.
  induction 1 as [|a l Ha Hl IH]; [done|].
  rewrite filter_cons, IH. rewrite decide_False; [done|]. by apply Is_true_false.
Qed.

Lemma header_lines_annotation (kind nfo bibref : string)
    (count total_count offset limit : Z) :
  is_annotation kind = false → kind ≠ "" →
  filter (λ line, is_annotation line)
    (header_lines kind nfo bibref count total_count offset limit)
  = if count <? total_count
    then [pagination_line count total_count offset limit]
    else [].
Proof.
  intros Hk Hne. unfold header_lines.
  assert (is_annotation (title_line kind nfo bibref) = false) as Ht.
  { unfold title_line. destruct kind; [done|]. by destruct (str_nonempty bibref). }
  destruct (count <? total_count); simpl.
  - rewrite filter_cons, decide_False by (by apply Is_true_false).
    by rewrite filter_cons, decide_True.
  - by rewrite filter_cons, decide_False by (by apply Is_true_false).
Qed.

Lemma velest_line_not_annotation (phase : string) (i : nat) (m : VelocityModel1D.t) :
  is_annotation (velest_line phase i m) = false.
Proof.
  unfold velest_line. destruct (depth_field _). by destruct (Nat.eqb i 0).
Qed.

Lemma sections_not_annotation (vp vs : list VelocityModel1D.t) :
  Forall (λ line, is_annotation line = false) (vp_section vp ++ vs_section vs).
Proof.
  apply Forall_app. split.
  - unfold vp_section. destruct vp as [|x vp]; [done|]. constructor; [done|].
    apply Forall_forall. intros line (i & m & -> & _)%elem_of_lookup_imap_1.
    apply velest_line_not_annotation.
  - unfold vs_section. destruct vs as [|x vs]; [done|]. constructor; [done|].
    apply Forall_forall. intros line (i & m & -> & _)%elem_of_lookup_imap_1.
    apply velest_line_not_annotation.
Qed.

Lemma number_not_annotation (a b : string) :
  all_chars is_number_char a = true → is_annotation (a +:+ "|" +:+ b) = false.
Proof.
  destruct a as [|c a]; [done|]. simpl. intros [Hc _]%andb_true_iff.
  destruct (Ascii.eqb_spec c "#") as [->|]; done.
Qed.

Lemma row_fields_not_annotation (wave_type : string) (show : bool) (m : model3d)
    (row : string) :
  grid_row wave_type show m = Ok row → is_annotation row = false.
Proof.
  unfold grid_row. destruct (velocity_of wave_type m) as [v|]; [|done]. simpl.
  destruct show; intros [= <-]; apply number_not_annotation, all_chars_float_repr.
Qed.

Lemma mapM_grid_row_not_annotation (wave_type : string) (show : bool)
    (models : list model3d) (rows : list string) :
  mapM (grid_row wave_type show) models = Ok rows →
  Forall (λ line, is_annotation line = false) rows.
Proof.
  revert rows. induction models as [|m l IH]; intros rows; cbn.
  - by intros [= <-].
  - destruct (grid_row wave_type show m) as [row|] eqn:Hrow; [|done]. cbn.
    destruct (mapM (grid_row wave_type show) l) as [rest|]; [|done]. cbn.
    intros [= <-]. constructor; [by eapply row_fields_not_annotation|by apply IH].
Qed.

(** C3 (as stated, refuted). For an empty list the count of records is
    below [total_count = 5], yet both formatters return the empty string,
    which holds no annotation line. *)
Lemma empty_input_no_annotation :
  (len (@nil VelocityModel1D.t) <? 5) = true
  ∧ create_text_response_1d [] "" 5 0 10 = ""
  ∧ create_text_response_3d [] "VP" true "" 5 0 10 = Ok ""
  ∧ filter (λ line, is_annotation line) (split_on "010" "") = [].
Proof. by vm_compute. Qed.

(** C3 (amended). For a non-empty list of records (for the grid formatter,
    rows of the class [wave_type] selects), the output is the list [lines]
    of the formatter joined by newlines, and the lines of this list that
    start with [#] are: the one annotation
    ["# Showing {offset+1}-{offset+count} of {total_count} records
    (limit={limit}, offset={offset})"] when [total_count] exceeds the number
    of records, and none otherwise; the annotation is the second line. *)
Theorem pagination_annotation (profile : list VelocityModel1D.t) (grid : list model3d)
    (wave_type : string) (include_r : bool) (bibref : string)
    (total_count offset limit : Z) :
  profile ≠ [] → grid ≠ [] → Forall (has_velocity wave_type) grid →
  let annotation (count : Z) : string :=
    "# Showing " +:+ str_of_int (offset + 1) +:+ "-" +:+ str_of_int (offset + count)
    +:+ " of " +:+ str_of_int total_count +:+ " records (limit=" +:+ str_of_int limit
    +:+ ", offset=" +:+ str_of_int offset +:+ ")" in
  (create_text_response_1d profile bibref total_count offset limit
   = str_join newline (lines_1d profile bibref total_count offset limit)
   ∧ filter (λ line, is_annotation line)
       (lines_1d profile bibref total_count offset limit)
     = (if len profile <? total_count then [annotation (len profile)] else [])
   ∧ (len profile < total_count →
      lines_1d profile bibref total_count offset limit !! 1%nat
      = Some (annotation (len profile))))
  ∧ (∃ lines,
       lines_3d grid wave_type include_r bibref total_count offset limit = Ok lines
       ∧ create_text_response_3d grid wave_type include_r bibref total_count offset limit
         = Ok (str_join newline lines)
       ∧ filter (λ line, is_annotation line) lines
         = (if len grid <? total_count then [annotation (len grid)] else [])
       ∧ (len grid < total_count → lines !! 1%nat = Some (annotation (len grid)))).
Proof.
  intros Hp Hg Hv annotation. split.
  - split; [by destruct profile|]. unfold lines_1d. cbv zeta.
    split.
    + rewrite filter_app, header_lines_annotation by done.
      rewrite (filter_none _ _ (sections_not_annotation _ _)). by rewrite app_nil_r.
    + intros Hlt. apply Z.ltb_lt in Hlt. unfold header_lines. by rewrite Hlt.
  - destruct (mapM (grid_row wave_type (show_r include_r grid)) grid) as [rows|e] eqn:Hrows.
    2:{ destruct (mapM_grid_row wave_type (show_r include_r grid) grid Hv) as (? & Heq & _).
        by rewrite Heq in Hrows. }
    exists (header_lines "3D" (first_nfo_3d grid) bibref (len grid) total_count offset limit
            ++ header wave_type (show_r include_r grid) :: rows).
    assert (lines_3d grid wave_type include_r bibref total_count offset limit
            = Ok (header_lines "3D" (first_nfo_3d grid) bibref (len grid)
                    total_count offset limit
                  ++ header wave_type (show_r include_r grid) :: rows)) as Hlines.
    { unfold lines_3d. cbv zeta. rewrite Hrows. cbn. by rewrite <- app_assoc. }
    split; [exact Hlines|]. split; [|split].
    + unfold create_text_response_3d. destruct grid; [done|]. by rewrite Hlines.
    + rewrite filter_app, header_lines_annotation by done.
      rewrite filter_cons, decide_False.
      2:{ apply Is_true_false. unfold header. by destruct (show_r include_r grid). }
      rewrite filter_none; [by rewrite app_nil_r|].
      by eapply mapM_grid_row_not_annotation.
    + intros Hlt. apply Z.ltb_lt in Hlt. unfold header_lines. by rewrite Hlt.
Qed.

Lemma pagination_annotation_witness :
  sample_profile ≠ [] ∧ sample_grid_scaled ≠ []
  ∧ Forall (has_velocity "VP") sample_grid_scaled
  ∧ (create_text_response_1d sample_profile "" 12 4 5
     = str_join newline (lines_1d sample_profile "" 12 4 5)
     ∧ filter (λ line, is_annotation line) (lines_1d sample_profile "" 12 4 5)
       = ["# Showing 5-9 of 12 records (limit=5, offset=4)"])
  ∧ (∃ lines,
       lines_3d sample_grid_scaled "VP" true "" 2 0 10 = Ok lines
       ∧ create_text_response_3d sample_grid_scaled "VP" true "" 2 0 10
         = Ok (str_join newline lines)
       ∧ filter (λ line, is_annotation line) lines = []).
Proof.
  assert (sample_profile ≠ []) as Hp by done.
  assert (sample_grid_scaled ≠ []) as Hg by done.
  pose proof (proj1 (proj2 sample_grids_have_vp)) as Hv.
  split; [exact Hp|]. split; [exact Hg|]. split; [exact Hv|]. split.
  - destruct (pagination_annotation sample_profile sample_grid_scaled "VP" true ""
                12 4 5 Hp Hg Hv) as [(Hout & Hfilter & _) _].
    split; [exact Hout|]. exact Hfilter.
  - destruct (pagination_annotation sample_profile sample_grid_scaled "VP" true ""
                2 0 10 Hp Hg Hv) as [_ (lines & Hlines & Hout & Hfilter & _)].
    exists lines. split; [exact Hlines|]. split; [exact Hout|]. exact Hfilter.
Defined.

(** ** The formatters on the object store *)

Section HeapProperties.
Implicit Types (h : gmap Heap.loc Heap.object) (l : Heap.loc) (items : list Heap.loc).

Lemma M_bind_ok {A B : Type} (x : Heap.M A) (f : A → Heap.M B) h (a : A) h' :
  x h = Ok (a, h') → (x ≫= f) h = f a h'.
Proof. intros H. unfold mbind, Heap.M_bind. by rewrite H. Qed.

Lemma M_bind_raise {A B : Type} (x : Heap.M A) (f : A → Heap.M B) h (e : exn) :
  x h = Raise e → (x ≫= f) h = Raise e.
Proof. intros H. unfold mbind, Heap.M_bind. by rewrite H. Qed.

Lemma read_list_ok h l items : h !! l = Some (Heap.PyList items) → Heap.read_list l h = Ok (items, h).
Proof. intros H. unfold Heap.read_list. by rewrite H. Qed.

Lemma read_model1d_ok h l row :
  h !! l = Some (Heap.PyModel1D row) → Heap.read_model1d l h = Ok (row, h).
Proof. intros H. unfold Heap.read_model1d. by rewrite H. Qed.

Lemma read_model3d_ok h l row :
  h !! l = Some (Heap.PyModel3D row) → Heap.read_model3d l h = Ok (row, h).
Proof. intros H. unfold Heap.read_model3d. by rewrite H. Qed.

Lemma mapM_cons_M {A B : Type} (f : A → Heap.M B) (a : A) (t : list A) :
  mapM f (a :: t) = (f a ≫= λ b, mapM f t ≫= λ bs, mret (b :: bs)).
Proof. done. Qed.

(** Reading through the references of a list, in a store that extends the
    one where the rows live. *)
Lemma mapM_read_rows {B : Type} (g : Heap.loc → VelocityModel1D.t → B) h h' items rows :
  h ⊆ h' → rows_at h items rows →
  mapM (λ m, Heap.read_model1d m ≫= λ row, mret (g m row)) items h'
  = Ok (zip_with g items rows, h').
Proof.
  intros Hsub. induction 1 as [|l row items rows Hl _ IH]; [done|].
  rewrite mapM_cons_M.
  erewrite M_bind_ok; [|erewrite M_bind_ok; [done|]].
  2:{ apply read_model1d_ok. by eapply lookup_weaken. }
  by erewrite M_bind_ok by exact IH.
Qed.

Lemma mapM_read_model1d h h' items rows :
  h ⊆ h' → rows_at h items rows → mapM Heap.read_model1d items h' = Ok (rows, h').
Proof.
  intros Hsub. induction 1 as [|l row items rows Hl _ IH]; [done|].
  rewrite mapM_cons_M.
  erewrite M_bind_ok; [|apply read_model1d_ok; by eapply lookup_weaken].
  by erewrite M_bind_ok by exact IH.
Qed.

Lemma filterM_select (wt : string) h h' items rows :
  h ⊆ h' → rows_at h items rows →
  ∃ kept,
    Heap.filterM (λ m, Heap.read_model1d m ≫= λ row,
                  mret (bool_decide (VelocityModel1D.wave_type row = wt))) items h'
    = Ok (kept, h')
    ∧ rows_at h kept (select_wave wt rows).
Proof.
  intros Hsub. induction 1 as [|l row items rows Hl _ (kept & Hkept & IH)].
  - exists []. split; [done|constructor].
  - exists (if bool_decide (VelocityModel1D.wave_type row = wt) then l :: kept else kept).
    split.
    + cbn [Heap.filterM].
      erewrite M_bind_ok; [|erewrite M_bind_ok; [done|]].
      2:{ apply read_model1d_ok. by eapply lookup_weaken. }
      by erewrite M_bind_ok by exact Hkept.
    + unfold select_wave. rewrite filter_cons. case_bool_decide.
      * rewrite decide_True by done. by constructor.
      * by rewrite decide_False by done.
Qed.

Lemma select_wave_ok (wt : string) h h' models items rows :
  h ⊆ h' → h' !! models = Some (Heap.PyList items) → rows_at h items rows →
  ∃ l kept,
    Heap.select_wave models wt h' = Ok (l, <[l := Heap.PyList kept]> h')
    ∧ h' !! l = None
    ∧ rows_at h kept (select_wave wt rows).
Proof.
  intros Hsub Hm Hrows.
  destruct (filterM_select wt h h' items rows Hsub Hrows) as (kept & Hkept & Hat).
  exists (fresh (dom h')), kept. split; [|split; [|done]].
  - unfold Heap.select_wave.
    erewrite M_bind_ok by (by apply read_list_ok).
    by erewrite M_bind_ok by exact Hkept.
  - apply not_elem_of_dom, is_fresh.
Qed.

Lemma sort_by_depth_ok h h' l items rows :
  h ⊆ h' → h' !! l = Some (Heap.PyList items) → rows_at h items rows →
  ∃ sorted,
    Heap.sort_by_depth l h' = Ok ((), <[l := Heap.PyList sorted]> h')
    ∧ rows_at h sorted (list_sort VelocityModel1D.depth rows).
Proof.
  intros Hsub Hl Hrows.
  exists (snd <$> list_sort fst
            (zip_with (λ m row, (VelocityModel1D.depth row, m)) items rows)).
  split.
  - unfold Heap.sort_by_depth.
    erewrite M_bind_ok by (by apply read_list_ok).
    by erewrite M_bind_ok by (by apply (mapM_read_rows _ h)).
  - unfold rows_at. apply Forall2_fmap_l.
    apply (Forall2_impl (λ kl row, kl.1 = VelocityModel1D.depth row
                                   ∧ h !! kl.2 = Some (Heap.PyModel1D row)));
      [|by intros kl row [_ H]].
    apply list_sort_Forall2.
    + by intros a b [? _].
    + clear Hl. induction Hrows as [|m row items rows Hm _ IH]; [constructor|].
      by constructor.
Qed.

Lemma mapM_read_r h items rows :
  rows3d_at h items rows →
  mapM (λ m, Heap.read_model3d m ≫= λ row, mret (Row3D.r row)) items h
  = Ok (Row3D.r <$> rows, h).
Proof.
  induction 1 as [|l row items rows Hl _ IH]; [done|].
  rewrite mapM_cons_M.
  erewrite M_bind_ok; [|erewrite M_bind_ok; [done|by apply read_model3d_ok]].
  by erewrite M_bind_ok by exact IH.
Qed.

Lemma mapM_read_grid (wave_type : string) (show : bool) h items rows :
  rows3d_at h items rows →
  mapM (λ m, Heap.read_model3d m ≫= λ row, Heap.lift (grid_row wave_type show row)) items h
  = match mapM (grid_row wave_type show) rows with
    | Ok lines => Ok (lines, h)
    | Raise e => Raise e
    end.
Proof.
  induction 1 as [|l row items rows Hl _ IH]; [done|].
  rewrite mapM_cons_M. cbn [mapM].
  destruct (grid_row wave_type show row) as [line|e] eqn:Hrow.
  - erewrite M_bind_ok; [|erewrite M_bind_ok; [|by apply read_model3d_ok]].
    2:{ unfold Heap.lift. by rewrite Hrow. }
    cbn. destruct (mapM (grid_row wave_type show) rows) as [lines|e].
    + by erewrite M_bind_ok by exact IH.
    + by erewrite M_bind_raise by exact IH.
  - cbn. erewrite M_bind_raise; [done|].
    erewrite M_bind_ok by (by apply read_model3d_ok).
    unfold Heap.lift. by rewrite Hrow.
Qed.

Lemma existsb_fmap {A B : Type} (f : A → B) (p : B → bool) (l : list A) :
  existsb p (f <$> l) = existsb (λ a, p (f a)) l.
Proof. induction l as [|a l IH]; [done|]. cbn. by f_equal. Qed.

(** C10. Neither formatter changes an object that exists when it is called.
    Started in a store [h] where [models] is a list object whose items are
    row objects, the profile formatter returns the text computed from the
    rows and a store in which every object of [h] is found unchanged at its
    address (the input list with its order, and every row): the two sorted
    sublists are new objects.  The grid formatter returns its text (or
    raises) and leaves the store as it was. *)
Theorem formatters_do_not_mutate (h : gmap Heap.loc Heap.object)
    (profile grid : Heap.loc) (profile_items grid_items : list Heap.loc)
    (profile_rows : list VelocityModel1D.t) (grid_rows : list model3d)
    (wave_type : string) (include_r : bool) (bibref : string)
    (total_count offset limit : Z) :
  h !! profile = Some (Heap.PyList profile_items) →
  rows_at h profile_items profile_rows →
  h !! grid = Some (Heap.PyList grid_items) →
  rows3d_at h grid_items grid_rows →
  (∃ h',
     Heap.create_text_response_1d profile bibref total_count offset limit h
     = Ok (create_text_response_1d profile_rows bibref total_count offset limit, h')
     ∧ ∀ l o, h !! l = Some o → h' !! l = Some o)
  ∧ Heap.create_text_response_3d grid wave_type include_r bibref total_count offset limit h
    = match create_text_response_3d grid_rows wave_type include_r bibref
              total_count offset limit with
      | Ok text => Ok (text, h)
      | Raise e => Raise e
      end.
Proof.
  intros Hp Hprows Hg Hgrows. split.
  - unfold Heap.create_text_response_1d.
    erewrite M_bind_ok by (by apply read_list_ok).
    destruct Hprows as [|first row0 items rows Hfirst Hrest]; [by exists h|].
    assert (rows_at h (first :: items) (row0 :: rows)) as Hrows by by constructor.
    destruct (select_wave_ok "VP" h h profile _ _ (reflexivity h) Hp Hrows)
      as (l1 & kept1 & E1 & F1 & R1).
    assert (h ⊆ <[l1:=Heap.PyList kept1]> h) as Hsub1 by by apply insert_subseteq.
    destruct (select_wave_ok "VS" h _ profile (first :: items) _ Hsub1
                (lookup_weaken _ _ _ _ Hp Hsub1) Hrows)
      as (l2 & kept2 & E2 & F2 & R2).
    assert (h !! l2 = None) as F2' by by eapply lookup_weaken_None.
    assert (l1 ≠ l2) as Hne by (intros ->; by rewrite lookup_insert_eq in F2).
    set (h2 := <[l2:=Heap.PyList kept2]> (<[l1:=Heap.PyList kept1]> h)) in *.
    assert (h ⊆ h2) as Hsub2 by by apply insert_subseteq_r.
    assert (h2 !! l1 = Some (Heap.PyList kept1)) as Hl1.
    { unfold h2. by rewrite lookup_insert_ne, lookup_insert_eq. }
    destruct (sort_by_depth_ok h h2 l1 kept1 _ Hsub2 Hl1 R1) as (sorted1 & E3 & R3).
    set (h3 := <[l1:=Heap.PyList sorted1]> h2) in *.
    assert (h ⊆ h3) as Hsub3 by by apply insert_subseteq_r.
    assert (h3 !! l2 = Some (Heap.PyList kept2)) as Hl2.
    { unfold h3, h2. by rewrite lookup_insert_ne, lookup_insert_eq. }
    destruct (sort_by_depth_ok h h3 l2 kept2 _ Hsub3 Hl2 R2) as (sorted2 & E4 & R4).
    set (h4 := <[l2:=Heap.PyList sorted2]> h3) in *.
    assert (h ⊆ h4) as Hsub4 by by apply insert_subseteq_r.
    exists h4. split; [|intros l o Hl; by eapply lookup_weaken].
    erewrite M_bind_ok by exact E1.
    erewrite M_bind_ok by exact E2.
    erewrite M_bind_ok by exact E3.
    erewrite M_bind_ok by exact E4.
    erewrite M_bind_ok by (apply read_model1d_ok; by eapply lookup_weaken).
    erewrite M_bind_ok.
    2:{ apply read_list_ok. unfold h4, h3.
        by rewrite lookup_insert_ne, lookup_insert_eq. }
    erewrite M_bind_ok by (by apply (mapM_read_model1d h)).
    erewrite M_bind_ok.
    2:{ apply read_list_ok. unfold h4. by rewrite lookup_insert_eq. }
    erewrite M_bind_ok by (by apply (mapM_read_model1d h)).
    unfold mret, Heap.M_ret. do 2 f_equal.
    unfold create_text_response_1d, lines_1d. cbv zeta.
    unfold len. rewrite (Forall2_length _ _ _ Hrows).
    by rewrite <- app_assoc.
  - unfold Heap.create_text_response_3d.
    erewrite M_bind_ok by (by apply read_list_ok).
    destruct Hgrows as [|first row0 items rows Hfirst Hrest]; [done|].
    assert (rows3d_at h (first :: items) (row0 :: rows)) as Hrows by by constructor.
    erewrite M_bind_ok by (by apply mapM_read_r).
    erewrite M_bind_ok by (by apply read_model3d_ok).
    unfold create_text_response_3d, lines_3d. cbv zeta.
    rewrite existsb_fmap.
    change (existsb _ (row0 :: rows)) with (has_non_default_r (row0 :: rows)).
    fold (show_r include_r (row0 :: rows)).
    unfold len. rewrite (Forall2_length _ _ _ Hrows).
    destruct (mapM (grid_row wave_type (show_r include_r (row0 :: rows))) (row0 :: rows))
      as [lines|e] eqn:Hmap.
    + erewrite M_bind_ok.
      2:{ rewrite (mapM_read_grid _ _ _ _ _ Hrows). by rewrite Hmap. }
      cbn. by rewrite <- app_assoc.
    + erewrite M_bind_raise; [done|].
      rewrite (mapM_read_grid _ _ _ _ _ Hrows). by rewrite Hmap.
Qed.

End HeapProperties.

Lemma formatters_do_not_mutate_witness :
  sample_heap !! 1%positive = Some (Heap.PyList [2; 3; 4]%positive)
  ∧ rows_at sample_heap [2; 3; 4]%positive [row_p_moho; row_s_top; row_p_top]
  ∧ sample_heap !! 10%positive = Some (Heap.PyList [11; 12]%positive)
  ∧ rows3d_at sample_heap [11; 12]%positive sample_grid_scaled
  ∧ (∃ h',
       Heap.create_text_response_1d 1%positive "" 0 0 0 sample_heap
       = Ok (create_text_response_1d [row_p_moho; row_s_top; row_p_top] "" 0 0 0, h')
       ∧ h' !! 1%positive = Some (Heap.PyList [2; 3; 4]%positive)
       ∧ h' !! 2%positive = Some (Heap.PyModel1D row_p_moho))
  ∧ Heap.create_text_response_3d 10%positive "VP" true "" 0 0 0 sample_heap
    = Ok ("3D GRID" +:+ newline +:+ "Longitude|Latitude|Depth|Vp|R" +:+ newline
          +:+ "23.5|38.01|5.0|6.12|1.0" +:+ newline +:+ "23.5|38.01|10.0|6.5|0.95",
          sample_heap).
Proof.
  assert (sample_heap !! 1%positive = Some (Heap.PyList [2; 3; 4]%positive)) as Hp
    by by vm_compute.
  assert (rows_at sample_heap [2; 3; 4]%positive [row_p_moho; row_s_top; row_p_top])
    as Hprows by (repeat constructor; by vm_compute).
  assert (sample_heap !! 10%positive = Some (Heap.PyList [11; 12]%positive)) as Hg
    by by vm_compute.
  assert (rows3d_at sample_heap [11; 12]%positive sample_grid_scaled) as Hgrows
    by (repeat constructor; by vm_compute).
  destruct (formatters_do_not_mutate sample_heap 1%positive 10%positive _ _ _ _
              "VP" true "" 0 0 0
              Hp Hprows Hg Hgrows) as [(h' & Hout & Hframe) Hgrid].
  split; [exact Hp|]. split; [exact Hprows|]. split; [exact Hg|]. split; [exact Hgrows|].
  split.
  - exists h'. split; [exact Hout|]. split; apply Hframe; by vm_compute.
  - rewrite Hgrid. by vm_compute.
Defined.

(** * Further properties of the formatters *)

Lemma list_sort_nil_iff {A : Type} (key : A → float) (l : list A) :
  list_sort key l = [] ↔ l = [].
Proof. split; [apply list_sort_nil_inv|by intros ->]. Qed.

Lemma section_size {A : Type} (key : A → float) (l : list A) :
  match list_sort key l with [] => 0%nat | _ => S (length (list_sort key l)) end
  = match l with [] => 0%nat | _ => S (length l) end.
Proof.
  destruct l as [|x l]; [done|].
  destruct (list_sort key (x :: l)) eqn:E; [by apply list_sort_nil_inv in E|].
  by rewrite <- E, length_list_sort.
Qed.

Lemma split_on_join (sep : ascii) (lines : list string) :
  lines ≠ [] → Forall (λ line, has_char sep line = false) lines →
  split_on sep (str_join (String sep "") lines) = lines.
Proof.
  induction lines as [|a [|b rest] IH]; [done| |]; intros _ Hall.
  - apply split_on_no_sep. by inversion Hall.
  - inversion Hall as [|? ? Ha Hrest]; subst.
    change (str_join (String sep "") (a :: b :: rest))
      with (a +:+ String sep "" +:+ str_join (String sep "") (b :: rest)).
    rewrite split_on_app by done. f_equal. by apply IH.
Qed.

Lemma title_line_no_newline (kind nfo bibref : string) :
  has_char "010" kind = false → has_char "010" nfo = false →
  has_char "010" bibref = false →
  has_char "010" (title_line kind nfo bibref) = false.
Proof.
  intros Hk Hn Hb. unfold title_line.
  destruct (str_nonempty bibref); rewrite !has_char_app, ?Hk, ?Hn, ?Hb; done.
Qed.

Lemma str_of_int_no_newline (n : Z) : has_char "010" (str_of_int n) = false.
Proof. apply has_char_number; [apply all_chars_str_of_int|done]. Qed.

Lemma header_lines_no_newline (kind nfo bibref : string)
    (count total_count offset limit : Z) :
  has_char "010" kind = false → has_char "010" nfo = false →
  has_char "010" bibref = false →
  Forall (λ line, has_char "010" line = false)
    (header_lines kind nfo bibref count total_count offset limit).
Proof.
  intros Hk Hn Hb. unfold header_lines.
  destruct (count <? total_count); repeat constructor;
    try by apply title_line_no_newline.
  unfold pagination_line. rewrite !has_char_app, !str_of_int_no_newline. by vm_compute.
Qed.

Lemma sections_no_newline (vp vs : list VelocityModel1D.t) :
  Forall (λ line, has_char "010" line = false) (vp_section vp ++ vs_section vs).
Proof.
  apply Forall_app. split.
  - unfold vp_section. destruct vp; [constructor|]. constructor.
    + rewrite !has_char_app, str_of_int_no_newline. by vm_compute.
    + by apply Forall_imap_velest.
  - unfold vs_section. destruct vs; [constructor|]. constructor.
    + rewrite !has_char_app, str_of_int_no_newline. by vm_compute.
    + by apply Forall_imap_velest.
Qed.

Lemma float_repr_no_newline (x : float) : has_char "010" (float_repr x) = false.
Proof. apply has_char_number; [apply all_chars_float_repr|done]. Qed.

Lemma mapM_grid_row_no_newline (wave_type : string) (show : bool)
    (models : list model3d) (rows : list string) :
  mapM (grid_row wave_type show) models = Ok rows →
  Forall (λ line, has_char "010" line = false) rows.
Proof.
  revert rows. induction models as [|m l IH]; intros rows; cbn.
  - by intros [= <-].
  - destruct (grid_row wave_type show m) as [row|] eqn:Hrow; [|done]. cbn.
    destruct (mapM (grid_row wave_type show) l) as [rest|]; [|done]. cbn.
    intros [= <-]. constructor; [|by apply IH].
    unfold grid_row in Hrow. destruct (velocity_of wave_type m) as [v|]; [|done].
    simpl in Hrow.
    destruct show; injection Hrow as <-;
      rewrite !has_char_app, !float_repr_no_newline; done.
Qed.

(** X1. When neither the NFO of the first record nor the reference holds a
    line break and no depth is NaN (which fixes the order the sort leaves),
    the text that the profile formatter returns for a non-empty list, cut
    at its line breaks, is: the title; the annotation exactly when
    [total_count] exceeds the number of records; and for each wave type
    that has records its section, one count line and one body line per
    record of that type.  Records of another wave type add no line. *)
Theorem profile_output_lines (models : list VelocityModel1D.t) (bibref : string)
    (total_count offset limit : Z) :
  models ≠ [] →
  Forall (λ m, is_nan (VelocityModel1D.depth m) = false) models →
  has_char "010" (first_nfo models) = false →
  has_char "010" bibref = false →
  let text_lines :=
    split_on "010" (create_text_response_1d models bibref total_count offset limit) in
  text_lines
  = title_line "1D" (first_nfo models) bibref
    :: (if len models <? total_count
        then [pagination_line (len models) total_count offset limit] else [])
    ++ vp_section (vp_models models) ++ vs_section (vs_models models)
  ∧ length (vp_section (vp_models models))
    = match select_wave "VP" models with [] => 0%nat | vp => S (length vp) end
  ∧ length (vs_section (vs_models models))
    = match select_wave "VS" models with [] => 0%nat | vs => S (length vs) end
  ∧ length text_lines
    = ((if (len models <? total_count)%Z then 2 else 1)
       + match select_wave "VP" models with [] => 0 | vp => S (length vp) end
       + match select_wave "VS" models with [] => 0 | vs => S (length vs) end)%nat.
Proof.
  intros Hne _ Hnfo Hbib text_lines.
  assert (text_lines = lines_1d models bibref total_count offset limit) as Hlines.
  { unfold text_lines. rewrite create_text_response_1d_joins by done.
    apply split_on_join.
    - unfold lines_1d, header_lines. cbv zeta. by destruct (len models <? total_count).
    - unfold lines_1d. cbv zeta. apply Forall_app. split.
      + by apply header_lines_no_newline.
      + apply sections_no_newline. }
  assert (length (vp_section (vp_models models))
          = match select_wave "VP" models with [] => 0%nat | vp => S (length vp) end)
    as Hvp.
  { rewrite length_vp_section. unfold vp_models. rewrite section_size.
    by destruct (select_wave "VP" models). }
  assert (length (vs_section (vs_models models))
          = match select_wave "VS" models with [] => 0%nat | vs => S (length vs) end)
    as Hvs.
  { rewrite length_vs_section. unfold vs_models. rewrite section_size.
    by destruct (select_wave "VS" models). }
  split; [|split; [exact Hvp|split; [exact Hvs|]]].
  - rewrite Hlines. unfold lines_1d, header_lines. cbv zeta.
    by destruct (len models <? total_count).
  - rewrite Hlines. unfold lines_1d. cbv zeta.
    rewrite !length_app, length_header_lines, Hvp, Hvs.
    destruct (len models <? total_count); lia.
Qed.

(** X2. When neither the NFO of the first record nor the reference holds a
    line break, the grid formatter returns, for a non-empty list of rows of
    the class the wave type selects, a text that, cut at its line breaks,
    is: the title; the annotation exactly when [total_count] exceeds the
    number of records; the column header; and one row per record, in the
    order of the input, with the values of that record. *)
Theorem grid_output_lines (models : list model3d) (wave_type : string) (include_r : bool)
    (bibref : string) (total_count offset limit : Z) :
  models ≠ [] →
  Forall (has_velocity wave_type) models →
  has_char "010" (first_nfo_3d models) = false →
  has_char "010" bibref = false →
  ∃ text rows,
    create_text_response_3d models wave_type include_r bibref total_count offset limit
    = Ok text
    ∧ split_on "010" text
      = title_line "3D" (first_nfo_3d models) bibref
        :: (if len models <? total_count
            then [pagination_line (len models) total_count offset limit] else [])
        ++ header wave_type (show_r include_r models) :: rows
    ∧ Forall2 (row_fields wave_type (show_r include_r models)) models rows
    ∧ length (split_on "010" text)
      = ((if (len models <? total_count)%Z then 2 else 1) + 1 + length models)%nat.
Proof.
  intros Hne Hv Hnfo Hbib.
  destruct (mapM_grid_row wave_type (show_r include_r models) models Hv)
    as (rows & Hrows & Hfields).
  assert (lines_3d models wave_type include_r bibref total_count offset limit
          = Ok (header_lines "3D" (first_nfo_3d models) bibref (len models)
                  total_count offset limit
                ++ header wave_type (show_r include_r models) :: rows)) as Hlines.
  { unfold lines_3d. cbv zeta. rewrite Hrows. cbn. by rewrite <- app_assoc. }
  exists (str_join newline
            (header_lines "3D" (first_nfo_3d models) bibref (len models)
               total_count offset limit
             ++ header wave_type (show_r include_r models) :: rows)), rows.
  split; [|split; [|split; [exact Hfields|]]].
  - unfold create_text_response_3d. destruct models; [done|]. by rewrite Hlines.
  - rewrite split_on_join.
    + unfold header_lines. by destruct (len models <? total_count).
    + unfold header_lines. by destruct (len models <? total_count).
    + apply Forall_app. split; [by apply header_lines_no_newline|].
      constructor; [|by eapply mapM_grid_row_no_newline].
      unfold header.
      by destruct (show_r include_r models), (String.eqb wave_type "VP").
  - rewrite split_on_join.
    + rewrite length_app, length_header_lines. simpl.
      rewrite <- (Forall2_length _ _ _ Hfields).
      destruct (len models <? total_count); lia.
    + unfold header_lines. by destruct (len models <? total_count).
    + apply Forall_app. split; [by apply header_lines_no_newline|].
      constructor; [|by eapply mapM_grid_row_no_newline].
      unfold header.
      by destruct (show_r include_r models), (String.eqb wave_type "VP").
Qed.

Lemma profile_output_lines_witness :
  split_on "010" (create_text_response_1d sample_profile "Herrin (1968)" 12 4 5)
  = ["1D CRUST1 Herrin (1968)";
     "# Showing 5-9 of 12 records (limit=5, offset=4)";
     " 2        vel,depth,vdamp,phase (f5.2,5x,f7.2,2x,f7.3,3x,a1)";
     " 5.80        0.00   001.000           P-VELOCITY MODEL";
     " 8.00       35.00   001.000";
     " 3";
     " 3.36        0.00   001.000           S-VELOCITY MODEL";
     " 3.40        0.00   001.000";
     " 4.47       35.00   001.000"]
  ∧ length (split_on "010" (create_text_response_1d sample_profile "Herrin (1968)" 12 4 5))
    = 9%nat.
Proof.
  destruct (profile_output_lines sample_profile "Herrin (1968)" 12 4 5)
    as (Hlines & _ & _ & Hcount);
    [done|by repeat constructor|reflexivity|reflexivity|].
  split; [|exact Hcount].
  etransitivity; [exact Hlines|]. by vm_compute.
Defined.

Lemma grid_output_lines_witness :
  ∃ text rows,
    create_text_response_3d sample_grid_scaled "VP" true "" 7 0 2 = Ok text
    ∧ split_on "010" text
      = "3D GRID" :: "# Showing 1-2 of 7 records (limit=2, offset=0)"
        :: "Longitude|Latitude|Depth|Vp|R" :: rows
    ∧ Forall2 (row_fields "VP" true) sample_grid_scaled rows
    ∧ length (split_on "010" text) = 5%nat.
Proof.
  destruct (grid_output_lines sample_grid_scaled "VP" true "" 7 0 2)
    as (text & rows & Htext & Hlines & Hfields & Hcount);
    [done|exact (proj1 (proj2 sample_grids_have_vp))|reflexivity|reflexivity|].
  exists text, rows. split; [exact Htext|]. split; [exact Hlines|].
  split; [exact Hfields|exact Hcount].
Defined.

Lemma StronglySorted_filter {A : Type} (R : A → A → Prop) (P : A → Prop)
    `{∀ x, Decision (P x)} (l : list A) :
  StronglySorted R l → StronglySorted R (filter P l).
Proof.
  induction 1 as [|x l Hl IH Hx]; [constructor|].
  rewrite filter_cons. destruct (decide (P x)); [|done].
  constructor; [done|].
  rewrite Forall_forall in Hx |- *. intros y [_ Hy]%list_elem_of_filter. by apply Hx.
Qed.

Lemma list_sort_sorted_id {A : Type} (key : A → float) (l : list A) :
  Forall (λ a, is_nan (key a) = false) l →
  StronglySorted (λ a b, float_le (key a) (key b) = true) l →
  list_sort key l = l.
Proof. intros Hnan Hsorted. symmetry. by apply list_sort_unique. Qed.

(** X3. When the input comes ordered by depth ascending and no depth is NaN,
    the sort of the formatter changes nothing: each section lists the rows
    of its wave type in the order of the input. *)
Theorem profile_sort_keeps_sorted_input (models : list VelocityModel1D.t) :
  Forall (λ m, is_nan (VelocityModel1D.depth m) = false) models →
  StronglySorted
    (λ a b, float_le (VelocityModel1D.depth a) (VelocityModel1D.depth b) = true) models →
  vp_models models = select_wave "VP" models
  ∧ vs_models models = select_wave "VS" models.
Proof.
  intros Hnan Hsorted.
  assert (∀ wt, list_sort VelocityModel1D.depth (select_wave wt models)
                = select_wave wt models) as Hid.
  { intros wt. apply list_sort_sorted_id.
    - rewrite Forall_forall in Hnan |- *. unfold select_wave.
      intros m [_ Hm]%list_elem_of_filter. by apply Hnan.
    - unfold select_wave. by apply StronglySorted_filter. }
  split; apply Hid.
Qed.

Lemma profile_sort_keeps_sorted_input_witness :
  Forall (λ m, is_nan (VelocityModel1D.depth m) = false)
    [row_s_top; row_p_top; row_s_top'; row_p_moho]
  ∧ StronglySorted
      (λ a b, float_le (VelocityModel1D.depth a) (VelocityModel1D.depth b) = true)
      [row_s_top; row_p_top; row_s_top'; row_p_moho]
  ∧ vs_models [row_s_top; row_p_top; row_s_top'; row_p_moho] = [row_s_top; row_s_top'].
Proof.
  assert (Forall (λ m, is_nan (VelocityModel1D.depth m) = false)
            [row_s_top; row_p_top; row_s_top'; row_p_moho]) as Hnan
    by repeat constructor.
  assert (StronglySorted
            (λ a b, float_le (VelocityModel1D.depth a) (VelocityModel1D.depth b) = true)
            [row_s_top; row_p_top; row_s_top'; row_p_moho]) as Hsorted
    by (repeat constructor; by vm_compute).
  split; [exact Hnan|]. split; [exact Hsorted|].
  exact (proj2 (profile_sort_keeps_sorted_input _ Hnan Hsorted)).
Defined.

Lemma imap_Forall2_ext {A B C : Type} (R : A → B → Prop) (f : nat → A → C)
    (g : nat → B → C) (l : list A) (k : list B) :
  (∀ i x y, R x y → f i x = g i y) → Forall2 R l k → imap f l = imap g k.
Proof.
  intros Hfg Hl. revert f g Hfg.
  induction Hl as [|x y l k Hxy Hl IH]; intros f g Hfg; [done|].
  rewrite !imap_cons. f_equal; [by apply Hfg|].
  apply IH. intros i a b Hab. by apply Hfg.
Qed.

(** X4. The profile formatter reads the depth, the velocity and the wave
    type of each row, and the [nfo] of the first row only: two inputs that
    agree on these give the same text, whatever the [id], the [author] and
    the other [nfo] values are. *)
Theorem profile_ignores_id_and_author (models models' : list VelocityModel1D.t)
    (bibref : string) (total_count offset limit : Z) :
  Forall2 (λ a b, VelocityModel1D.depth a = VelocityModel1D.depth b
                  ∧ VelocityModel1D.velocity a = VelocityModel1D.velocity b
                  ∧ VelocityModel1D.wave_type a = VelocityModel1D.wave_type b)
    models models' →
  first_nfo models = first_nfo models' →
  create_text_response_1d models bibref total_count offset limit
  = create_text_response_1d models' bibref total_count offset limit.
Proof.
  intros Hrel Hnfo.
  set (R := λ a b : VelocityModel1D.t,
         VelocityModel1D.depth a = VelocityModel1D.depth b
         ∧ VelocityModel1D.velocity a = VelocityModel1D.velocity b
         ∧ VelocityModel1D.wave_type a = VelocityModel1D.wave_type b) in *.
  assert (∀ wt, Forall2 R (list_sort VelocityModel1D.depth (select_wave wt models))
                  (list_sort VelocityModel1D.depth (select_wave wt models'))) as Hsel.
  { intros wt. apply list_sort_Forall2; [by intros a b [? _]|].
    unfold select_wave. clear Hnfo.
    induction Hrel as [|a b l k (Hd & Hv & Hw) _ IH]; [constructor|].
    rewrite !filter_cons, Hw. destruct (decide (_ = wt)); [|done].
    constructor; [by repeat split|done]. }
  assert (∀ phase l k, Forall2 R l k →
            imap (velest_line phase) l = imap (velest_line phase) k) as Hbody.
  { intros phase l k Hlk. apply (imap_Forall2_ext R); [|done].
    intros i a b (Hd & Hv & _). unfold velest_line. by rewrite Hd, Hv. }
  assert (lines_1d models bibref total_count offset limit
          = lines_1d models' bibref total_count offset limit) as Hlines.
  { unfold lines_1d. cbv zeta. rewrite Hnfo. unfold len.
    rewrite (Forall2_length _ _ _ Hrel). f_equal.
    assert (∀ l k, Forall2 R l k → vp_section l = vp_section k
                                   ∧ vs_section l = vs_section k) as Hsec.
    { intros l k Hlk. pose proof (Forall2_length _ _ _ Hlk) as Hlen.
      unfold vp_section, vs_section, len.
      rewrite !(Hbody _ _ _ Hlk), Hlen. by destruct Hlk. }
    unfold vp_models, vs_models.
    by rewrite (proj1 (Hsec _ _ (Hsel "VP"))), (proj2 (Hsec _ _ (Hsel "VS"))). }
  unfold create_text_response_1d. destruct Hrel; [done|]. by rewrite Hlines.
Qed.

Lemma profile_ignores_id_and_author_witness :
  Forall2 (λ a b, VelocityModel1D.depth a = VelocityModel1D.depth b
                  ∧ VelocityModel1D.velocity a = VelocityModel1D.velocity b
                  ∧ VelocityModel1D.wave_type a = VelocityModel1D.wave_type b)
    [row_p_top; row_s_top]
    [VelocityModel1D.mk 40 (float_literal 0 1) (float_literal 580 2) "VP" "CRUST1" "Kennett";
     VelocityModel1D.mk 41 (float_literal 0 1) (float_literal 336 2) "VS" "IASP91" "Kennett"]
  ∧ create_text_response_1d [row_p_top; row_s_top] "" 0 0 0
    = create_text_response_1d
        [VelocityModel1D.mk 40 (float_literal 0 1) (float_literal 580 2) "VP" "CRUST1" "Kennett";
         VelocityModel1D.mk 41 (float_literal 0 1) (float_literal 336 2) "VS" "IASP91" "Kennett"]
        "" 0 0 0.
Proof.
  assert (Forall2 (λ a b, VelocityModel1D.depth a = VelocityModel1D.depth b
                  ∧ VelocityModel1D.velocity a = VelocityModel1D.velocity b
                  ∧ VelocityModel1D.wave_type a = VelocityModel1D.wave_type b)
    [row_p_top; row_s_top]
    [VelocityModel1D.mk 40 (float_literal 0 1) (float_literal 580 2) "VP" "CRUST1" "Kennett";
     VelocityModel1D.mk 41 (float_literal 0 1) (float_literal 336 2) "VS" "IASP91" "Kennett"])
    as Hrel by (repeat constructor).
  split; [exact Hrel|].
  apply (profile_ignores_id_and_author _ _ "" 0 0 0 Hrel). reflexivity.
Defined.

Lemma str_length_app (a b : string) :
  String.length (a +:+ b) = (String.length a + String.length b)%nat.
Proof. induction a as [|c a IH]; simpl; [done|]. by rewrite IH. Qed.

Lemma length_spaces (n : nat) : String.length (spaces n) = n.
Proof. induction n as [|n IH]; simpl; [done|]. by rewrite IH. Qed.

Lemma length_pad_left (width : nat) (s : string) :
  String.length (pad_left width s) = Nat.max width (String.length s).
Proof. unfold pad_left. rewrite str_length_app, length_spaces. lia. Qed.

Lemma format_float_f_pad (width places : nat) (x : float) :
  format_float_f width places x = pad_left width (format_float_f 0 places x).
Proof. done. Qed.

Lemma depth_rule_branches (d : float) :
  (float_lt d (float_of_int 0) = true → depth_rule d 7 5)
  ∧ (float_lt d (float_of_int 0) = false → float_ge d (float_of_int 10) = true →
     depth_rule d 7 5)
  ∧ (float_lt d (float_of_int 0) = false → float_ge d (float_of_int 10) = false →
     depth_rule d 8 4).
Proof.
  unfold depth_rule, float_ge. split; [|split].
  - intros Hneg. split; [done|]. split; [done|]. intros Hz _.
    by rewrite (float_lt_not_ge _ _ Hneg) in Hz.
  - intros Hneg Hge. split; [done|]. split; [done|]. intros _ Hlt.
    by rewrite (float_lt_not_ge _ _ Hlt) in Hge.
  - intros Hneg Hge. split; [congruence|]. split; [congruence|]. done.
Qed.

(** X5. The depth column of a body line (the spacing and the depth text) is
    never narrower than 12 characters, and it is exactly 12 characters wide
    when the depth, printed with two decimals, fits the field of its branch:
    5 characters below 0 and from 10 on, 4 characters otherwise. *)
Theorem depth_column_width (d : float) :
  let column := (depth_field d).1 +:+ (depth_field d).2 in
  let text := format_float_f 0 2 d in
  ∃ lead width,
    depth_rule d lead width
    ∧ (lead + width = 12)%nat
    ∧ String.length column = (lead + Nat.max width (String.length text))%nat
    ∧ (12 ≤ String.length column)%nat
    ∧ (String.length column = 12%nat ↔ (String.length text ≤ width)%nat).
Proof.
  intros column text. subst column text.
  destruct (depth_rule_branches d) as (Hneg & Hbig & Hsmall).
  unfold depth_field.
  destruct (float_lt d (float_of_int 0)) eqn:E1;
    [exists 7%nat, 5%nat
    |destruct (float_ge d (float_of_int 10)) eqn:E2;
       [exists 7%nat, 5%nat|exists 8%nat, 4%nat]];
    cbn [fst snd];
    rewrite str_length_app, length_spaces, format_float_f_pad, length_pad_left;
    (split; [auto|]); (split; [done|]); (split; [done|]); split; lia.
Qed.

(** * The request handlers *)

Section HandlerProperties.
Context `{Engine}.

Lemma length_page {A : Type} (offset limit : Z) (rows : list A) :
  1 ≤ limit → 0 ≤ offset → offset < len rows →
  len (page offset limit rows) = Z.min limit (len rows - offset)
  ∧ page offset limit rows ≠ [].
Proof.
  intros Hlimit Hoffset Hlt. unfold len, page in *.
  assert (length (take (Z.to_nat limit) (drop (Z.to_nat offset) rows))
          = Nat.min (Z.to_nat limit) (length rows - Z.to_nat offset)) as Hlen.
  { by rewrite length_take, length_drop. }
  split; [lia|]. intros Hnil. rewrite Hnil in Hlen. simpl in Hlen. lia.
Qed.

Lemma page_subseteq {A : Type} (offset limit : Z) (rows : list A) :
  page offset limit rows ⊆ rows.
Proof.
  unfold page. intros x Hx.
  apply (subseteq_drop (Z.to_nat offset)), (subseteq_take (Z.to_nat limit)), Hx.
Qed.

Lemma response_starts_with_kind (nfo bibref : string) (count total_count offset limit : Z)
    (rest : list string) :
  ∃ tail,
    str_join newline (header_lines "1D" nfo bibref count total_count offset limit ++ rest)
    = "1D " +:+ tail.
Proof.
  unfold header_lines, title_line, str_join.
  destruct (str_nonempty bibref), (count <? total_count); simpl;
    try (destruct rest; simpl); eexists; reflexivity.
Qed.

(** X6. With [limit >= 1] and [offset >= 0], the 1D handler answers an
    offset below the number of matching rows with the profile text of a
    non-empty page: the page holds [min(limit, total - offset)] of the
    matching rows, and the text starts with the title.  An offset from the
    number of matching rows on is an error: 404 when nothing matches, 400
    otherwise. *)
Theorem query_1d_success (db : database) (author nfo : string) (limit offset : Z) :
  1 ≤ limit → 0 ≤ offset →
  let total_count := len (matching_1d db author nfo) in
  (offset < total_count →
   ∃ models tail,
     query_1d_velocity_models db author nfo limit offset
     = PlainTextResponse
         (str_join newline
            (lines_1d models (get_bibref_for_author db author) total_count offset limit))
     ∧ models ≠ []
     ∧ len models = Z.min limit (total_count - offset)
     ∧ models ⊆ matching_1d db author nfo
     ∧ str_join newline
         (lines_1d models (get_bibref_for_author db author) total_count offset limit)
       = "1D " +:+ tail)
  ∧ (total_count ≤ offset →
     ∃ status_code detail,
       query_1d_velocity_models db author nfo limit offset
       = HTTPException status_code detail
       ∧ (total_count = 0 → status_code = 404)
       ∧ (0 < total_count → status_code = 400 ∧ detail = offset_detail offset total_count)).
Proof.
  intros Hlimit Hoffset total_count. unfold query_1d_velocity_models.
  fold total_count. split.
  - intros Hlt.
    assert (len (order_by_depth (matching_1d db author nfo)) = total_count) as Hlen.
    { unfold len. by rewrite order_by_depth_perm. }
    destruct (length_page offset limit (order_by_depth (matching_1d db author nfo)))
      as [Hpage Hne]; [done|done|lia|].
    destruct (response_starts_with_kind
                (first_nfo (page offset limit (order_by_depth (matching_1d db author nfo))))
                (get_bibref_for_author db author)
                (len (page offset limit (order_by_depth (matching_1d db author nfo))))
                total_count offset limit
                (vp_section (vp_models (page offset limit
                                          (order_by_depth (matching_1d db author nfo))))
                 ++ vs_section (vs_models (page offset limit
                                          (order_by_depth (matching_1d db author nfo))))))
      as [tail Htail].
    exists (page offset limit (order_by_depth (matching_1d db author nfo))), tail.
    destruct (Z.eqb_spec total_count 0) as [?|_]; [lia|].
    destruct (Z.leb_spec total_count offset) as [?|_]; [lia|].
    split; [|split; [done|split; [lia|split; [|exact Htail]]]].
    + by rewrite create_text_response_1d_joins.
    + intros m Hm%page_subseteq. by rewrite order_by_depth_perm in Hm.
  - intros Hge. destruct (Z.eqb_spec total_count 0) as [H0|Hn].
    + eexists _, _. split; [done|]. split; [done|lia].
    + destruct (Z.leb_spec total_count offset) as [_|?]; [|lia].
      eexists _, _. split; [done|]. split; [lia|done].
Qed.

(** X7. With [limit >= 1] and [0 <= offset < total], the answer of the 1D
    handler carries the pagination annotation exactly when the page does not
    hold every matching row, that is when [offset > 0] or [limit < total];
    the annotation then reads
    [# Showing offset+1-offset+min(limit, total-offset) of total ...]. *)
Theorem query_1d_annotation (db : database) (author nfo : string) (limit offset : Z) :
  1 ≤ limit → 0 ≤ offset → offset < len (matching_1d db author nfo) →
  let total_count := len (matching_1d db author nfo) in
  let models := page offset limit (order_by_depth (matching_1d db author nfo)) in
  query_1d_velocity_models db author nfo limit offset
  = PlainTextResponse
      (str_join newline
         (lines_1d models (get_bibref_for_author db author) total_count offset limit))
  ∧ filter (λ line, is_annotation line)
      (lines_1d models (get_bibref_for_author db author) total_count offset limit)
    = if (0 <? offset) || (limit <? total_count)
      then [pagination_line (Z.min limit (total_count - offset)) total_count offset limit]
      else [].
Proof.
  intros Hlimit Hoffset Hlt total_count models.
  assert (len (order_by_depth (matching_1d db author nfo)) = total_count) as Hlen.
  { unfold len. by rewrite order_by_depth_perm. }
  destruct (length_page offset limit (order_by_depth (matching_1d db author nfo)))
    as [Hpage Hne]; [done|done|lia|].
  fold models in Hpage, Hne. rewrite Hlen in Hpage. split.
  - unfold query_1d_velocity_models. fold total_count.
    destruct (Z.eqb_spec total_count 0) as [?|_]; [lia|].
    destruct (Z.leb_spec total_count offset) as [?|_]; [subst total_count; lia|].
    fold models. by rewrite create_text_response_1d_joins.
  - unfold lines_1d. cbv zeta.
    rewrite filter_app, header_lines_annotation by done.
    rewrite (filter_none _ _ (sections_not_annotation _ _)), app_nil_r, Hpage.
    destruct (Z.ltb_spec (Z.min limit (total_count - offset)) total_count),
      (Z.ltb_spec 0 offset), (Z.ltb_spec limit total_count); simpl; try done; lia.
Qed.

Lemma rows_have_velocity_vp (l : list VelocityModel3D_VP.t) :
  Forall (has_velocity "VP") (RowVP <$> l).
Proof. apply Forall_fmap, Forall_true. intros m. by eexists. Qed.

Lemma rows_have_velocity_vs (l : list VelocityModel3D_VS.t) :
  Forall (has_velocity "VS") (RowVS <$> l).
Proof. apply Forall_fmap, Forall_true. intros m. by eexists. Qed.

Lemma create_text_response_3d_ok (models : list model3d) (wave_type : string)
    (include_r : bool) (bibref : string) (total_count offset limit : Z) :
  Forall (has_velocity wave_type) models →
  ∃ content,
    create_text_response_3d models wave_type include_r bibref total_count offset limit
    = Ok content.
Proof.
  intros Hv. unfold create_text_response_3d. destruct models as [|m l]; [by eexists|].
  destruct (lines_3d_layout (m :: l) wave_type include_r bibref total_count offset limit Hv)
    as (rows & -> & _).
  by eexists.
Qed.

(** X8. The 3D handler never answers 500: the rows it hands to the grid
    formatter come from the table of the requested wave type, so reading
    their velocity attribute cannot fail.  Its answers are the text, 404 or
    400. *)
Theorem query_3d_never_500 (db : database) (wave_type : wave_literal) (author : string)
    (include_r : bool) (limit offset : Z) :
  (∃ content,
     query_3d_velocity_models db wave_type author include_r limit offset
     = PlainTextResponse content)
  ∨ (∃ detail,
       query_3d_velocity_models db wave_type author include_r limit offset
       = HTTPException 404 detail)
  ∨ (∃ detail,
       query_3d_velocity_models db wave_type author include_r limit offset
       = HTTPException 400 detail).
Proof.
  unfold query_3d_velocity_models.
  destruct wave_type; unfold query_3d_table;
    (destruct (_ =? 0); [right; left; by eexists|]);
    (destruct (_ <=? offset); [right; right; by eexists|]); left.
  - edestruct (create_text_response_3d_ok) as [content ->];
      [apply rows_have_velocity_vp|]. by eexists.
  - edestruct (create_text_response_3d_ok) as [content ->];
      [apply rows_have_velocity_vs|]. by eexists.
Qed.

(** X9. With [limit >= 1] and [0 <= offset < total], the 3D handler for
    P-wave data answers with the title, the annotation when the page is
    smaller than the total, the column header, and one row for each of the
    [min(limit, total - offset)] rows of the page, in the order the database
    returned them. *)
Theorem query_3d_success (db : database) (author : string) (include_r : bool)
    (limit offset : Z) :
  let matching :=
    filter (λ m, ilike (VelocityModel3D_VP.author m) (contains_pattern author))
      (velocity_models_3d_vp db) in
  let models := RowVP <$> page offset limit (order_by_position_vp matching) in
  1 ≤ limit → 0 ≤ offset → offset < len matching →
  ∃ rows,
    query_3d_velocity_models db VP author include_r limit offset
    = PlainTextResponse
        (str_join newline
           (header_lines "3D" (first_nfo_3d models) (get_bibref_for_author db author)
              (len models) (len matching) offset limit
            ++ header "VP" (show_r include_r models) :: rows))
    ∧ Forall2 (row_fields "VP" (show_r include_r models)) models rows
    ∧ len models = Z.min limit (len matching - offset).
Proof.
  intros matching models Hlimit Hoffset Hlt.
  assert (len (order_by_position_vp matching) = len matching) as Hlen.
  { unfold len. by rewrite order_by_position_vp_perm. }
  destruct (length_page offset limit (order_by_position_vp matching))
    as [Hpage Hne]; [done|done|lia|].
  assert (len models = Z.min limit (len matching - offset)) as Hmodels.
  { unfold models, len. rewrite length_fmap. unfold len in *. lia. }
  assert (models ≠ []) as Hne'.
  { unfold models. intros Hnil%fmap_nil_inv. done. }
  destruct (lines_3d_layout models "VP" include_r (get_bibref_for_author db author)
              (len matching) offset limit (rows_have_velocity_vp _))
    as (rows & Hlines & Hfields).
  exists rows. split; [|done].
  unfold query_3d_velocity_models, query_3d_table. fold matching. fold models.
  destruct (Z.eqb_spec (len matching) 0) as [?|_]; [lia|].
  destruct (Z.leb_spec (len matching) offset) as [?|_]; [lia|].
  unfold create_text_response_3d. destruct models; [done|].
  simpl wave_str. by rewrite Hlines.
Qed.

Lemma StronglySorted_page {A : Type} (R : A → A → Prop) (offset limit : Z) (l : list A) :
  StronglySorted R l → StronglySorted R (page offset limit l).
Proof.
  intros Hl. unfold page.
  assert (StronglySorted R (drop (Z.to_nat offset) l)) as Hdrop.
  { rewrite <- (take_drop (Z.to_nat offset) l) in Hl.
    by apply StronglySorted_app_1_r in Hl. }
  rewrite <- (take_drop (Z.to_nat limit) (drop (Z.to_nat offset) l)) in Hdrop.
  by apply StronglySorted_app_1_l in Hdrop.
Qed.

(** X10. When the database returns the matching rows in ascending depth
    order and no stored depth is NaN, the sort of the formatter leaves the
    page as it is: the P-wave and S-wave sections of the 1D answer list the
    rows of the page in database order. *)
Theorem query_1d_keeps_database_order (db : database) (author nfo : string)
    (limit offset : Z) :
  Forall (λ m, is_nan (VelocityModel1D.depth m) = false) (velocity_models_1d db) →
  StronglySorted
    (λ a b, float_le (VelocityModel1D.depth a) (VelocityModel1D.depth b) = true)
    (order_by_depth (matching_1d db author nfo)) →
  let models := page offset limit (order_by_depth (matching_1d db author nfo)) in
  ∀ bibref total_count,
    lines_1d models bibref total_count offset limit
    = header_lines "1D" (first_nfo models) bibref (len models) total_count offset limit
      ++ vp_section (select_wave "VP" models) ++ vs_section (select_wave "VS" models).
Proof.
  intros Hnan Hsorted models bibref total_count.
  assert (Forall (λ m, is_nan (VelocityModel1D.depth m) = false) models) as Hnan'.
  { rewrite Forall_forall in Hnan |- *. intros m Hm%page_subseteq.
    rewrite order_by_depth_perm in Hm. apply list_elem_of_filter in Hm as [_ Hm].
    by apply Hnan. }
  assert (∀ wt, list_sort VelocityModel1D.depth (select_wave wt models)
                = select_wave wt models) as Hid.
  { intros wt. apply list_sort_sorted_id.
    - rewrite Forall_forall in Hnan' |- *. unfold select_wave.
      intros m [_ Hm]%list_elem_of_filter. by apply Hnan'.
    - unfold select_wave. by apply StronglySorted_filter, StronglySorted_page. }
  unfold lines_1d, vp_models, vs_models. cbv zeta. by rewrite !Hid.
Qed.

End HandlerProperties.

Lemma query_1d_success_witness :
  1 ≤ 2 ∧ 0 ≤ 1
  ∧ 1 < len (@matching_1d sample_engine sample_db "herrin" "crust")
  ∧ ∃ (models : list VelocityModel1D.t) tail,
      @query_1d_velocity_models sample_engine sample_db "herrin" "crust" 2 1
      = PlainTextResponse ("1D " +:+ tail)
      ∧ len models = 2.
Proof.
  assert (1 ≤ 2) as Hlimit by lia. assert (0 ≤ 1) as Hoffset by lia.
  assert (1 < len (@matching_1d sample_engine sample_db "herrin" "crust")) as Hlt
    by by vm_compute.
  split; [exact Hlimit|]. split; [exact Hoffset|]. split; [exact Hlt|].
  destruct (proj1 (@query_1d_success sample_engine sample_db "herrin" "crust" 2 1
                     Hlimit Hoffset) Hlt)
    as (models & tail & Hresp & _ & Hlen & _ & Htail).
  exists models, tail. split; [by rewrite Hresp, Htail|]. exact Hlen.
Defined.

Lemma query_1d_annotation_witness :
  1 ≤ 2 ∧ 0 ≤ 1
  ∧ 1 < len (@matching_1d sample_engine sample_db "herrin" "crust")
  ∧ filter (λ line, is_annotation line)
      (lines_1d
         (page 1 2 (@order_by_depth sample_engine
                      (@matching_1d sample_engine sample_db "herrin" "crust")))
         (@get_bibref_for_author sample_engine sample_db "herrin") 5 1 2)
    = ["# Showing 2-3 of 5 records (limit=2, offset=1)"].
Proof.
  assert (1 ≤ 2) as Hlimit by lia. assert (0 ≤ 1) as Hoffset by lia.
  assert (1 < len (@matching_1d sample_engine sample_db "herrin" "crust")) as Hlt
    by by vm_compute.
  split; [exact Hlimit|]. split; [exact Hoffset|]. split; [exact Hlt|].
  exact (proj2 (@query_1d_annotation sample_engine sample_db "herrin" "crust" 2 1
                  Hlimit Hoffset Hlt)).
Defined.

Lemma query_3d_success_witness :
  1 ≤ 10 ∧ 0 ≤ 0
  ∧ ∃ rows,
      @query_3d_velocity_models sample_engine sample_db VP "karakon" true 10 0
      = PlainTextResponse
          (str_join newline (["3D GRID"; "Longitude|Latitude|Depth|Vp|R"] ++ rows))
      ∧ length rows = 2%nat.
Proof.
  assert (1 ≤ 10) as Hlimit by lia. assert (0 ≤ 0) as Hoffset by lia.
  split; [exact Hlimit|]. split; [exact Hoffset|].
  destruct (@query_3d_success sample_engine sample_db "karakon" true 10 0
              Hlimit Hoffset) as (rows & Hresp & Hfields & _); [by vm_compute|].
  exists rows. split; [exact Hresp|].
  by rewrite <- (Forall2_length _ _ _ Hfields).
Defined.

Lemma query_1d_keeps_database_order_witness :
  Forall (λ m, is_nan (VelocityModel1D.depth m) = false) (velocity_models_1d sample_db)
  ∧ lines_1d
      (page 0 5 (@order_by_depth sample_engine
                   (@matching_1d sample_engine sample_db "herrin" "crust")))
      "" 5 0 5
    = ["1D CRUST1";
       " 2        vel,depth,vdamp,phase (f5.2,5x,f7.2,2x,f7.3,3x,a1)";
       " 5.80        0.00   001.000           P-VELOCITY MODEL";
       " 8.00       35.00   001.000";
       " 3";
       " 3.40        0.00   001.000           S-VELOCITY MODEL";
       " 3.36        0.00   001.000";
       " 4.47       35.00   001.000"].
Proof.
  assert (Forall (λ m, is_nan (VelocityModel1D.depth m) = false)
            (velocity_models_1d sample_db)) as Hnan by repeat constructor.
  assert (StronglySorted
            (λ a b, float_le (VelocityModel1D.depth a) (VelocityModel1D.depth b) = true)
            (@order_by_depth sample_engine
               (@matching_1d sample_engine sample_db "herrin" "crust"))) as Hsorted.
  { vm_compute. repeat constructor. }
  split; [exact Hnan|].
  rewrite (@query_1d_keeps_database_order sample_engine sample_db "herrin" "crust" 5 0
             Hnan Hsorted "" 5).
  by vm_compute.
Defined.

(** * [/authors] and [/nfos] *)

Lemma str_nonempty_true (s : string) : str_nonempty s = true ↔ s ≠ "".
Proof. by destruct s. Qed.

Lemma elem_of_add_names (a : string) (values : list string) (names : gset string) :
  a ∈ add_names values names ↔ a ∈ names ∨ (a ∈ values ∧ a ≠ "").
Proof.
  unfold add_names. revert names. induction values as [|v l IH]; intros names; simpl.
  - rewrite elem_of_nil. tauto.
  - rewrite IH, elem_of_cons. destruct (str_nonempty v) eqn:Hv.
    + apply str_nonempty_true in Hv. rewrite elem_of_union, elem_of_singleton.
      intuition congruence.
    + assert (v = "") as -> by (by destruct v). intuition congruence.
Qed.

Lemma elem_of_sorted_strings (a : string) (l : list string) :
  a ∈ sorted_strings l ↔ a ∈ l.
Proof. unfold sorted_strings. by rewrite merge_sort_Permutation. Qed.

Lemma elem_of_collect_names (a : string) (values_1d values_vp values_vs : list string) :
  a ∈ collect_names values_1d values_vp values_vs
  ↔ a ≠ "" ∧ (a ∈ values_1d ∨ a ∈ values_vp ∨ a ∈ values_vs).
Proof.
  unfold collect_names.
  rewrite elem_of_sorted_strings, elem_of_elements, !elem_of_add_names.
  rewrite elem_of_empty. tauto.
Qed.

(** X11. [/authors] lists exactly the non-empty author names stored in the
    1D table or in one of the two 3D tables (the table of bibliographic
    references is not consulted), and [/nfos] exactly the non-empty NFO
    names of the same three tables. *)
Theorem names_listed (db : database) (name : string) :
  (name ∈ author_names db
   ↔ name ≠ ""
     ∧ (name ∈ (VelocityModel1D.author <$> velocity_models_1d db)
        ∨ name ∈ (VelocityModel3D_VP.author <$> velocity_models_3d_vp db)
        ∨ name ∈ (VelocityModel3D_VS.author <$> velocity_models_3d_vs db)))
  ∧ (name ∈ nfo_names db
     ↔ name ≠ ""
       ∧ (name ∈ (VelocityModel1D.nfo <$> velocity_models_1d db)
          ∨ name ∈ (VelocityModel3D_VP.nfo <$> velocity_models_3d_vp db)
          ∨ name ∈ (VelocityModel3D_VS.nfo <$> velocity_models_3d_vs db))).
Proof. split; apply elem_of_collect_names. Qed.

Lemma string_compare_trans (a b c : string) :
  String.compare a b ≠ Gt → String.compare b c ≠ Gt → String.compare a c ≠ Gt.
Proof.
  revert b c. induction a as [|x a IH]; intros [|y b] [|z c]; simpl; try done.
  unfold Ascii.compare.
  destruct (N.compare_spec (N_of_ascii x) (N_of_ascii y)),
    (N.compare_spec (N_of_ascii y) (N_of_ascii z)),
    (N.compare_spec (N_of_ascii x) (N_of_ascii z)); try done; try lia.
  apply IH.
Qed.

Lemma string_leb_iff (a b : string) : String.leb a b = true ↔ String.compare a b ≠ Gt.
Proof. unfold String.leb. by destruct (String.compare a b). Qed.

Lemma string_leb_transitive : Transitive (λ a b : string, Is_true (String.leb a b)).
Proof.
  intros a b c Hab%Is_true_true Hbc%Is_true_true. apply Is_true_true.
  rewrite string_leb_iff in *. by eapply string_compare_trans.
Qed.

Lemma string_leb_total_rel : Total (λ a b : string, Is_true (String.leb a b)).
Proof.
  intros a b. destruct (String.leb_total a b) as [Hab|Hba]; [left|right];
    by apply Is_true_true.
Qed.

Lemma strictly_sorted (l : list string) :
  StronglySorted (λ a b, Is_true (String.leb a b)) l → NoDup l →
  StronglySorted (λ a b, String.ltb a b = true) l.
Proof.
  induction 1 as [|x l Hl IH Hx]; intros Hnd; [constructor|].
  apply NoDup_cons in Hnd as [Hnotin Hnd]. constructor; [by apply IH|].
  rewrite Forall_forall in Hx |- *. intros y Hy.
  specialize (Hx y Hy). apply Is_true_true in Hx.
  unfold String.leb, String.ltb in *.
  destruct (String.compare x y) eqn:E; try done.
  apply String.compare_eq_iff in E. by subst.
Qed.

Lemma collect_names_sorted (values_1d values_vp values_vs : list string) :
  StronglySorted (λ a b, String.ltb a b = true)
    (collect_names values_1d values_vp values_vs)
  ∧ NoDup (collect_names values_1d values_vp values_vs).
Proof.
  unfold collect_names, sorted_strings.
  assert (NoDup (merge_sort (λ a b : string, Is_true (String.leb a b))
                   (elements (add_names values_vs
                                (add_names values_vp (add_names values_1d ∅))))))
    as Hnd.
  { rewrite merge_sort_Permutation. apply NoDup_elements. }
  split; [|done]. apply strictly_sorted; [|done].
  apply (@StronglySorted_merge_sort _ _ _ string_leb_transitive string_leb_total_rel).
Qed.

(** X12. The names that [/authors] and [/nfos] join are in strictly
    ascending order of their bytes, so none is repeated; the text is these
    names joined by newlines, followed by one newline. *)
Theorem names_sorted (db : database) :
  (get_authors db = PlainTextResponse (str_join newline (author_names db) +:+ newline)
   ∧ StronglySorted (λ a b, String.ltb a b = true) (author_names db)
   ∧ NoDup (author_names db))
  ∧ (get_nfos db = PlainTextResponse (str_join newline (nfo_names db) +:+ newline)
     ∧ StronglySorted (λ a b, String.ltb a b = true) (nfo_names db)
     ∧ NoDup (nfo_names db)).
Proof.
  split.
  - split; [done|]. apply collect_names_sorted.
  - split; [done|]. apply collect_names_sorted.
Qed.

Example names_of_sample_db :
  get_authors sample_db
  = PlainTextResponse ("Herrin" +:+ newline +:+ "Karakonstantis" +:+ newline)
  ∧ get_nfos sample_db = PlainTextResponse ("CRUST1" +:+ newline +:+ "GRID" +:+ newline)
  ∧ get_authors (Database [] [] [] []) = PlainTextResponse newline.
Proof. by vm_compute. Qed.

(** * The import script *)

Section ImportProperties.
Context `{Engine}.

Lemma existsb_app_l {A : Type} (f : A → bool) (l k : list A) :
  existsb f l = true → existsb f (l ++ k) = true.
Proof. intros Hl. by rewrite existsb_app, Hl. Qed.

Lemma existsb_false_Forall {A : Type} (f : A → bool) (l : list A) :
  existsb f l = false → Forall (λ x, f x = false) l.
Proof.
  induction l as [|x l IH]; simpl; [constructor|].
  intros [Hx Hl]%orb_false_iff. constructor; auto.
Qed.

Lemma storable_number (x : float) : is_nan x = false → storable x = true.
Proof. intros Hx. unfold storable. rewrite Hx. apply orb_true_r. Qed.

Lemma storable_false (x : float) :
  storable x = false → stores_nan = false ∧ is_nan x = true.
Proof. unfold storable. destruct stores_nan, (is_nan x); by intros. Qed.

Lemma import_1d_loop_none (rows : list FileRow1D.t) :
  Exists (λ row, FileRow1D.depth row = None ∨ FileRow1D.velocity row = None) rows →
  ∀ table imported_count skipped_count,
    import_1d_loop rows table imported_count skipped_count = None.
Proof.
  induction 1 as [row rest Hrow|row rest Hrest IH]; intros table i s; simpl.
  - destruct Hrow as [-> | ->]; [done|]. by destruct (FileRow1D.depth row).
  - destruct (FileRow1D.depth row) as [depth|]; [|done].
    destruct (FileRow1D.velocity row) as [velocity|]; [|done].
    simpl. destruct (existsb _ table); [apply IH|].
    destruct (storable depth && storable velocity); [apply IH|done].
Qed.

Lemma import_1d_loop_refused (rows : list FileRow1D.t) :
  ∀ table imported_count skipped_count,
    import_1d_loop rows table imported_count skipped_count = None →
    Exists (λ row, FileRow1D.depth row = None ∨ FileRow1D.velocity row = None
                   ∨ (stores_nan = false
                      ∧ ∃ depth velocity,
                          FileRow1D.depth row = Some depth
                          ∧ FileRow1D.velocity row = Some velocity
                          ∧ is_nan depth || is_nan velocity = true)) rows.
Proof.
  induction rows as [|row rest IH]; intros table i s; simpl; [done|].
  destruct (FileRow1D.depth row) as [depth|] eqn:Hd;
    [|intros _; apply Exists_cons_hd; by left].
  destruct (FileRow1D.velocity row) as [velocity|] eqn:Hv;
    [|intros _; apply Exists_cons_hd; right; by left].
  simpl. destruct (existsb _ table).
  { intros Hloop. apply Exists_cons_tl. by eapply IH. }
  destruct (storable depth && storable velocity) eqn:Hstorable.
  { intros Hloop. apply Exists_cons_tl. by eapply IH. }
  intros _. apply Exists_cons_hd. right. right.
  apply andb_false_iff in Hstorable as [[? Hnan]%storable_false|[? Hnan]%storable_false].
  - split; [done|]. exists depth, velocity. by rewrite Hnan.
  - split; [done|]. exists depth, velocity. rewrite Hnan. by rewrite orb_true_r.
Qed.

Lemma import_1d_loop_done (rows : list FileRow1D.t) :
  ∀ table imported_count skipped_count table' imported_count' skipped_count',
    import_1d_loop rows table imported_count skipped_count
    = Some (table', imported_count', skipped_count') →
    Forall converts_1d rows
    ∧ ∃ added skipped,
        table' = table ++ added
        ∧ imported_count' = imported_count + len added
        ∧ skipped_count' = skipped_count + skipped
        ∧ 0 ≤ skipped
        ∧ len added + skipped = len rows
        ∧ Forall (λ m, ∃ row, row ∈ rows ∧ stored_from_1d row m) added
        ∧ Forall (λ m, storable (VelocityModel1D.depth m) = true
                       ∧ storable (VelocityModel1D.velocity m) = true) added
        ∧ (distinct_1d table → distinct_1d (table ++ added)).
Proof.
  induction rows as [|row rest IH]; intros table i s table' i' s'; simpl.
  - intros [= <- <- <-]. split; [constructor|]. exists [], 0.
    rewrite app_nil_r, !Z.add_0_r. by repeat split.
  - destruct (FileRow1D.depth row) as [depth|] eqn:Hd; [|done].
    destruct (FileRow1D.velocity row) as [velocity|] eqn:Hv; [|done]. simpl.
    assert (converts_1d row) as Hrow by (unfold converts_1d; by rewrite Hd, Hv).
    destruct (existsb _ table) eqn:Hexists.
    + intros (Hrest & added & skipped & -> & -> & -> & ? & ? & Hadded & Hstored & Hdistinct)%IH.
      split; [by constructor|]. exists added, (skipped + 1).
      split; [done|]. split; [done|]. split; [lia|]. split; [lia|].
      split; [unfold len in *; simpl; lia|]. split; [|done].
      eapply Forall_impl; [exact Hadded|]. intros m (row' & ? & ?).
      exists row'. split; [by apply list_elem_of_further|done].
    + destruct (storable depth && storable velocity) eqn:Hstorable; [|done].
      apply andb_true_iff in Hstorable as [Hsd Hsv].
      set (m := VelocityModel1D.mk (next_id (len table)) depth velocity
                  (FileRow1D.wave_type row) (FileRow1D.nfo row) (FileRow1D.author row)).
      intros (Hrest & added & skipped & -> & -> & -> & ? & ? & Hadded & Hstored & Hdistinct)%IH.
      split; [by constructor|]. exists (m :: added), skipped.
      rewrite <- !app_assoc. simpl.
      split; [done|]. split; [unfold len; simpl; lia|]. split; [done|]. split; [done|].
      split; [unfold len in *; simpl; lia|]. split; [|split].
      * constructor.
        -- exists row. split; [apply list_elem_of_here|]. by repeat split.
        -- eapply Forall_impl; [exact Hadded|]. intros m' (row' & ? & ?).
           exists row'. split; [by apply list_elem_of_further|done].
      * by constructor.
      * intros Htable. rewrite (cons_middle m table added), app_assoc. apply Hdistinct.
        apply StronglySorted_app. split; [|split; [done|by repeat constructor]].
        intros x y Hx ->%list_elem_of_singleton.
        apply existsb_false_Forall in Hexists.
        rewrite Forall_forall in Hexists. by apply Hexists.
Qed.

(** X13. A 1D import is all or nothing.  Either it fails and nothing is
    stored, not even the rows before the failure, and then some row of the
    file has a depth or velocity cell that does not convert, or holds NaN
    while the database does not store NaN; or it succeeds, every cell of
    the file converts, and the table grows at its end by the imported rows,
    each carrying the values of a row of the file that the database takes;
    the stored rows and the other tables are untouched, and the two counts
    add up to the number of rows of the file.  A cell that does not convert
    always makes the import fail, and a file whose cells are all numbers
    other than NaN is always imported. *)
Theorem import_1d_all_or_nothing (db : database) (rows : list FileRow1D.t) :
  ((import_1d_from_file db rows = (db, ImportFailed)
    ∧ Exists (λ row, FileRow1D.depth row = None ∨ FileRow1D.velocity row = None
                     ∨ (stores_nan = false
                        ∧ ∃ depth velocity,
                            FileRow1D.depth row = Some depth
                            ∧ FileRow1D.velocity row = Some velocity
                            ∧ is_nan depth || is_nan velocity = true)) rows)
   ∨ (Forall converts_1d rows
      ∧ ∃ added skipped_count,
          import_1d_from_file db rows
          = (Database (velocity_models_1d db ++ added) (velocity_models_3d_vp db)
               (velocity_models_3d_vs db) (author_bibref db),
             ImportDone (len added) skipped_count)
          ∧ 0 ≤ skipped_count
          ∧ len added + skipped_count = len rows
          ∧ Forall (λ m, ∃ row, row ∈ rows ∧ stored_from_1d row m) added
          ∧ Forall (λ m, storable (VelocityModel1D.depth m) = true
                         ∧ storable (VelocityModel1D.velocity m) = true) added))
  ∧ (Exists (λ row, FileRow1D.depth row = None ∨ FileRow1D.velocity row = None) rows →
     import_1d_from_file db rows = (db, ImportFailed))
  ∧ (Forall numbers_1d rows → (import_1d_from_file db rows).2 ≠ ImportFailed).
Proof.
  split; [|split].
  - unfold import_1d_from_file.
    destruct (import_1d_loop rows (velocity_models_1d db) 0 0) as [[[table i] s]|] eqn:Hloop.
    + right.
      apply import_1d_loop_done in Hloop
        as (Hrows & added & skipped & -> & -> & -> & ? & ? & ? & ? & _).
      split; [done|]. exists added, skipped. by rewrite !Z.add_0_l.
    + left. split; [done|]. by eapply import_1d_loop_refused.
  - intros Hbad. unfold import_1d_from_file. by rewrite (import_1d_loop_none rows Hbad).
  - intros Hrows. unfold import_1d_from_file.
    destruct (import_1d_loop rows (velocity_models_1d db) 0 0) as [[[table i] s]|] eqn:Hloop;
      [done|].
    apply import_1d_loop_refused in Hloop.
    apply Exists_exists in Hloop as (row & Hin & Hcause).
    rewrite Forall_forall in Hrows.
    destruct (Hrows row Hin) as (depth & velocity & Hd & Hv & Hnd & Hnv).
    destruct Hcause as [Hnone|[Hnone|(_ & d & v & Hd' & Hv' & Hnan)]]; [congruence..|].
    rewrite Hd in Hd'. rewrite Hv in Hv'. injection Hd' as <-. injection Hv' as <-.
    by rewrite Hnd, Hnv in Hnan.
Qed.

(** X14. The 1D import keeps the table free of duplicates: when no stored
    row is matched by the duplicate test with the values of a later row,
    the same holds after the import, whatever the file repeats. *)
Theorem import_1d_keeps_distinct (db : database) (rows : list FileRow1D.t) :
  distinct_1d (velocity_models_1d db) →
  distinct_1d (velocity_models_1d (import_1d_from_file db rows).1).
Proof.
  intros Hdb. unfold import_1d_from_file.
  destruct (import_1d_loop rows (velocity_models_1d db) 0 0) as [[[table i] s]|] eqn:Hloop;
    [|done].
  apply import_1d_loop_done in Hloop as (_ & added & skipped & -> & _ & _ & _ & _ & _ & _ & Hd).
  simpl. by apply Hd.
Qed.

Lemma import_1d_loop_skips (rows : list FileRow1D.t) (table : list VelocityModel1D.t) :
  Forall (λ row, ∃ depth velocity,
            FileRow1D.depth row = Some depth ∧ FileRow1D.velocity row = Some velocity
            ∧ existsb (same_1d depth velocity (FileRow1D.wave_type row)
                         (FileRow1D.nfo row) (FileRow1D.author row)) table = true) rows →
  ∀ imported_count skipped_count,
    import_1d_loop rows table imported_count skipped_count
    = Some (table, imported_count, skipped_count + len rows).
Proof.
  induction 1 as [|row rest (depth & velocity & Hd & Hv & Hexists) Hrest IH]; intros i s.
  - simpl. by rewrite Z.add_0_r.
  - simpl. rewrite Hd, Hv. simpl. rewrite Hexists, IH.
    do 2 f_equal. unfold len. simpl. lia.
Qed.

Lemma import_1d_loop_stores (rows : list FileRow1D.t) :
  (∀ x, is_nan x = false → eq_float x x = true) →
  (∀ s, eq_str s s = true) →
  Forall numbers_1d rows →
  ∀ table imported_count skipped_count,
    ∃ added imported_count' skipped_count',
      import_1d_loop rows table imported_count skipped_count
      = Some (table ++ added, imported_count', skipped_count')
      ∧ Forall (λ row, ∃ depth velocity,
                  FileRow1D.depth row = Some depth ∧ FileRow1D.velocity row = Some velocity
                  ∧ existsb (same_1d depth velocity (FileRow1D.wave_type row)
                               (FileRow1D.nfo row) (FileRow1D.author row))
                      (table ++ added) = true) rows.
Proof.
  intros Hfloat Hstr.
  induction 1 as [|row rest (depth & velocity & Hd & Hv & Hnd & Hnv) Hrest IH];
    intros table i s.
  - exists [], i, s. by rewrite app_nil_r.
  - simpl. rewrite Hd, Hv. simpl.
    destruct (existsb _ table) eqn:Hexists.
    + destruct (IH table i (s + 1)) as (added & i' & s' & -> & Hall).
      exists added, i', s'. split; [done|]. constructor; [|done].
      exists depth, velocity. repeat split; [done..|]. by apply existsb_app_l.
    + rewrite (storable_number depth Hnd), (storable_number velocity Hnv). simpl.
      set (m := VelocityModel1D.mk (next_id (len table)) depth velocity
                  (FileRow1D.wave_type row) (FileRow1D.nfo row) (FileRow1D.author row)).
      destruct (IH (table ++ [m]) (i + 1) s) as (added & i' & s' & -> & Hall).
      exists (m :: added), i', s'. rewrite (cons_middle m table added), app_assoc.
      split; [done|]. constructor; [|done].
      exists depth, velocity. repeat split; [done..|].
      apply existsb_app_l. rewrite existsb_app. simpl.
      unfold same_1d. simpl. rewrite (Hfloat depth Hnd), (Hfloat velocity Hnv), !Hstr.
      simpl. apply orb_true_r.
Qed.

(** X15. Importing a 1D file a second time stores nothing: when the
    comparison of the database holds between a number and itself and between
    a string and itself, and no cell of the file is NaN, the second run
    leaves the database as the first left it and counts every row of the
    file as a duplicate. *)
Theorem import_1d_idempotent (db : database) (rows : list FileRow1D.t) :
  (∀ x, is_nan x = false → eq_float x x = true) →
  (∀ s, eq_str s s = true) →
  Forall numbers_1d rows →
  let db' := (import_1d_from_file db rows).1 in
  import_1d_from_file db' rows = (db', ImportDone 0 (len rows)).
Proof.
  intros Hfloat Hstr Hrows.
  destruct (import_1d_loop_stores rows Hfloat Hstr Hrows (velocity_models_1d db) 0 0)
    as (added & i' & s' & Hloop & Hall).
  assert ((import_1d_from_file db rows).1
          = Database (velocity_models_1d db ++ added) (velocity_models_3d_vp db)
              (velocity_models_3d_vs db) (author_bibref db)) as Hdb.
  { unfold import_1d_from_file. by rewrite Hloop. }
  cbv zeta. rewrite Hdb. unfold import_1d_from_file. simpl.
  by rewrite (import_1d_loop_skips rows _ Hall 0 0), Z.add_0_l.
Qed.

(** ** The 3D import *)

Lemma import_3d_loop_adds {A : Type}
    (same : float → float → float → float → string → string → A → bool)
    (new : Z → float → float → float → float → option float → string → string → A)
    (P : FileRow3D.t → A → Prop) :
  (∀ row id longitude latitude depth velocity r_value,
     FileRow3D.longitude row = Some longitude → FileRow3D.latitude row = Some latitude →
     FileRow3D.depth row = Some depth → FileRow3D.velocity row = Some velocity →
     r_value_of (FileRow3D.r row) = Some r_value →
     P row (new id longitude latitude depth velocity (Some r_value)
              (FileRow3D.nfo row) (FileRow3D.author row))) →
  ∀ rows table imported_count skipped_count table' imported_count' skipped_count',
    import_3d_loop same new rows table imported_count skipped_count
    = Some (table', imported_count', skipped_count') →
    ∃ added,
      table' = table ++ added
      ∧ imported_count' = imported_count + len added
      ∧ imported_count' + skipped_count' = imported_count + skipped_count + len rows
      ∧ Forall (λ m, ∃ row, row ∈ rows ∧ P row m) added.
Proof.
  intros HP. induction rows as [|row rest IH]; intros table i s table' i' s'; simpl.
  - intros [= <- <- <-]. exists []. rewrite app_nil_r. unfold len. simpl.
    repeat split; [lia..|constructor].
  - destruct (FileRow3D.longitude row) as [longitude|] eqn:Hlon; [|done].
    destruct (FileRow3D.latitude row) as [latitude|] eqn:Hlat; [|done].
    destruct (FileRow3D.depth row) as [depth|] eqn:Hd; [|done].
    destruct (FileRow3D.velocity row) as [velocity|] eqn:Hv; [|done].
    destruct (r_value_of (FileRow3D.r row)) as [r_value|] eqn:Hr; [|done]. simpl.
    destruct (existsb _ table).
    + intros (added & -> & -> & Hcount & Hadded)%IH. exists added.
      repeat split; [unfold len in *; simpl; lia|].
      eapply Forall_impl; [exact Hadded|]. intros m (row' & ? & ?).
      exists row'. split; [by apply list_elem_of_further|done].
    + destruct (storable longitude && storable latitude && storable depth
                && storable velocity); [|done].
      intros (added & -> & -> & Hcount & Hadded)%IH.
      eexists (_ :: added). rewrite <- app_assoc. simpl.
      repeat split; [unfold len in *; simpl; lia..|].
      constructor.
      * exists row. split; [apply list_elem_of_here|]. by apply HP.
      * eapply Forall_impl; [exact Hadded|]. intros m (row' & ? & ?).
        exists row'. split; [by apply list_elem_of_further|done].
Qed.

Lemma import_3d_loop_skips {A : Type}
    (same : float → float → float → float → string → string → A → bool)
    (new : Z → float → float → float → float → option float → string → string → A)
    (rows : list FileRow3D.t) (table : list A) :
  Forall (λ row, ∃ longitude latitude depth velocity,
            FileRow3D.longitude row = Some longitude
            ∧ FileRow3D.latitude row = Some latitude
            ∧ FileRow3D.depth row = Some depth ∧ FileRow3D.velocity row = Some velocity
            ∧ is_Some (r_value_of (FileRow3D.r row))
            ∧ existsb (same longitude latitude depth velocity (FileRow3D.nfo row)
                         (FileRow3D.author row)) table = true) rows →
  ∀ imported_count skipped_count,
    import_3d_loop same new rows table imported_count skipped_count
    = Some (table, imported_count, skipped_count + len rows).
Proof.
  induction 1
    as [|row rest (lon & lat & depth & velocity & Hlon & Hlat & Hd & Hv & [r Hr] & Hexists)
          Hrest IH]; intros i s.
  - simpl. by rewrite Z.add_0_r.
  - simpl. rewrite Hlon, Hlat, Hd, Hv, Hr. simpl. rewrite Hexists, IH.
    do 2 f_equal. unfold len. simpl. lia.
Qed.


Lemma existsb_Forall_false {A : Type} (f : A → bool) (l : list A) :
  Forall (λ x, f x = false) l → existsb f l = false.
Proof. induction 1 as [|x l Hx Hl IH]; simpl; [done|]. by rewrite Hx, IH. Qed.

Lemma has_non_default_r_subseteq (models table : list model3d) :
  models ⊆ table → has_non_default_r table = false → has_non_default_r models = false.
Proof.
  unfold has_non_default_r. intros Hsub Htable%existsb_false_Forall.
  apply existsb_Forall_false. rewrite Forall_forall in Htable |- *.
  intros m Hm. apply Htable, Hsub, Hm.
Qed.

Lemma import_3d_loop_default {A : Type}
    (same : float → float → float → float → string → string → A → bool)
    (new : Z → float → float → float → float → option float → string → string → A)
    (row : A → model3d) (rows : list FileRow3D.t) (table table' : list A)
    (imported_count skipped_count : Z) :
  (∀ id longitude latitude depth velocity r nfo author,
     Row3D.r (row (new id longitude latitude depth velocity r nfo author)) = r) →
  Forall no_r_value rows →
  has_non_default_r (row <$> table) = false →
  import_3d_loop same new rows table 0 0 = Some (table', imported_count, skipped_count) →
  has_non_default_r (row <$> table') = false.
Proof.
  intros Hnew Hrows Htable Hloop.
  apply (import_3d_loop_adds _ _
           (λ file_row m, no_r_value file_row → Row3D.r (row m) = Some (float_literal 10 1)))
    in Hloop as (added & -> & _ & _ & Hadded).
  - unfold has_non_default_r in *. rewrite fmap_app, existsb_app, Htable. simpl.
    apply existsb_Forall_false, Forall_fmap. eapply Forall_impl; [exact Hadded|].
    intros m (file_row & Hin & Hm). simpl. rewrite Hm; [done|].
    rewrite Forall_forall in Hrows. by apply Hrows.
  - intros file_row id lon lat d v r _ _ _ _ Hr Hnone. rewrite Hnew.
    by destruct Hnone as [Hcell|Hcell]; rewrite Hcell in Hr; simpl in Hr; rewrite <- Hr.
Qed.

(** X17. A grid imported from files that give no scale factor never shows
    the [R] column: when no stored row of the wave type has a scale factor
    other than 1.0 and the file has no [R] column or only empty [R] cells,
    then after the import the grid formatter leaves the column out for
    every selection of rows of that table, also when the caller asks for
    it. *)
Theorem import_3d_default_scale_factor_hidden (db : database) (wave_type : wave_literal)
    (rows : list FileRow3D.t) (include_r : bool) (models : list model3d) :
  Forall no_r_value rows →
  has_non_default_r (rows_3d db wave_type) = false →
  models ⊆ rows_3d (import_3d_from_file db wave_type rows).1 wave_type →
  show_r include_r models = false.
Proof.
  intros Hrows Hdb Hmodels. unfold show_r.
  rewrite (has_non_default_r_subseteq _ _ Hmodels); [apply andb_false_r|].
  clear Hmodels. unfold import_3d_from_file. destruct wave_type.
  - destruct (import_3d_loop _ _ rows _ 0 0) as [[[table i] s]|] eqn:Hloop; [|done].
    simpl. by apply (import_3d_loop_default same_vp VelocityModel3D_VP.mk RowVP rows
                       (velocity_models_3d_vp db) table i s).
  - destruct (import_3d_loop _ _ rows _ 0 0) as [[[table i] s]|] eqn:Hloop; [|done].
    simpl. by apply (import_3d_loop_default same_vs VelocityModel3D_VS.mk RowVS rows
                       (velocity_models_3d_vs db) table i s).
Qed.

(** X18. The scale factor is no part of the duplicate test of the 3D
    import: a file whose rows all convert and name stored grid points
    (position, velocity, NFO and author) stores nothing and changes
    nothing, whatever its [R] cells hold; every row is counted as a
    duplicate. *)
Theorem import_3d_duplicate_ignores_r (db : database) (wave_type : wave_literal)
    (rows : list FileRow3D.t) :
  Forall (stored_3d wave_type db) rows →
  import_3d_from_file db wave_type rows = (db, ImportDone 0 (len rows)).
Proof.
  intros Hrows. unfold import_3d_from_file. destruct wave_type.
  - rewrite (import_3d_loop_skips same_vp _ rows (velocity_models_3d_vp db)).
    + rewrite Z.add_0_l. by destruct db.
    + eapply Forall_impl; [exact Hrows|].
      intros row (lon & lat & d & v & ? & ? & ? & ? & ? & ?). by exists lon, lat, d, v.
  - rewrite (import_3d_loop_skips same_vs _ rows (velocity_models_3d_vs db)).
    + rewrite Z.add_0_l. by destruct db.
    + eapply Forall_impl; [exact Hrows|].
      intros row (lon & lat & d & v & ? & ? & ? & ? & ? & ?). by exists lon, lat, d, v.
Qed.

(** ** The import of bibliographic references *)

Lemma stored_bibref_cons (b : AuthorBibref.t) (table : list AuthorBibref.t)
    (author : string) :
  stored_bibref (b :: table) author
  = if eq_str (AuthorBibref.author b) author then Some (AuthorBibref.bibref b)
    else stored_bibref table author.
Proof.
  unfold stored_bibref. simpl.
  destruct (eq_str (AuthorBibref.author b) author) eqn:Hb.
  - by rewrite decide_True.
  - rewrite decide_False; [|by intros []].
    by destruct (list_find _ table) as [[i x]|].
Qed.

Section ByteEquality.
Hypothesis eq_str_eqb : ∀ a b, eq_str a b = String.eqb a b.

Lemma stored_bibref_new (table : list AuthorBibref.t) (a b author : string) :
  list_find (λ x, eq_str (AuthorBibref.author x) a) table = None →
  stored_bibref (table ++ [AuthorBibref.mk a b]) author
  = if String.eqb a author then Some b else stored_bibref table author.
Proof.
  induction table as [|c table IH]; simpl.
  - intros _. by rewrite stored_bibref_cons, eq_str_eqb.
  - case_decide as Hc; [done|]. intros Hnone.
    rewrite !stored_bibref_cons, IH; [|by destruct (list_find _ table)].
    rewrite !eq_str_eqb in *.
    destruct (String.eqb_spec a author) as [->|]; [|done].
    by destruct (String.eqb (AuthorBibref.author c) author).
Qed.

Lemma stored_bibref_update (table : list AuthorBibref.t) (a b author : string)
    (i : nat) (existing : AuthorBibref.t) :
  list_find (λ x, eq_str (AuthorBibref.author x) a) table = Some (i, existing) →
  stored_bibref (<[i := AuthorBibref.mk (AuthorBibref.author existing) b]> table) author
  = if String.eqb a author then Some b else stored_bibref table author.
Proof.
  revert i. induction table as [|c table IH]; intros i; simpl; [done|].
  case_decide as Hc.
  - intros [= <- <-]. simpl. rewrite !stored_bibref_cons. simpl.
    rewrite eq_str_eqb in Hc. apply Is_true_true, String.eqb_eq in Hc. rewrite Hc.
    rewrite !eq_str_eqb. by destruct (String.eqb a author).
  - destruct (list_find _ table) as [[j x]|] eqn:Hfind; [|done].
    intros [= <- <-]. simpl. rewrite !stored_bibref_cons, (IH j); [|done].
    rewrite !eq_str_eqb in *.
    destruct (String.eqb_spec a author) as [->|]; [|done].
    by destruct (String.eqb (AuthorBibref.author c) author).
Qed.

Lemma stored_bibref_same (table : list AuthorBibref.t) (a b author : string)
    (i : nat) (existing : AuthorBibref.t) :
  list_find (λ x, eq_str (AuthorBibref.author x) a) table = Some (i, existing) →
  String.eqb (AuthorBibref.bibref existing) b = true →
  stored_bibref table author
  = if String.eqb a author then Some b else stored_bibref table author.
Proof.
  intros Hfind Hb%String.eqb_eq.
  destruct (String.eqb_spec a author) as [<-|]; [|done].
  unfold stored_bibref. rewrite Hfind. simpl. by rewrite Hb.
Qed.

Lemma import_bibrefs_loop_stored (rows : list (string * string)) (author : string) :
  ∀ table imported_count updated_count,
    stored_bibref (import_bibrefs_loop rows table imported_count updated_count).1.1 author
    = match last_bibref rows author with
      | Some bibref => Some bibref
      | None => stored_bibref table author
      end.
Proof.
  induction rows as [|[a b] rest IH]; intros table i u; simpl; [done|].
  destruct (list_find _ table) as [[j existing]|] eqn:Hfind.
  - destruct (String.eqb (AuthorBibref.bibref existing) b) eqn:Hb.
    + rewrite IH. destruct (last_bibref rest author); [done|].
      rewrite (stored_bibref_same table a b author j existing Hfind Hb).
      by destruct (String.eqb a author).
    + rewrite IH. destruct (last_bibref rest author); [done|].
      rewrite (stored_bibref_update table a b author j existing Hfind).
      by destruct (String.eqb a author).
  - rewrite IH. destruct (last_bibref rest author); [done|].
    rewrite (stored_bibref_new table a b author Hfind).
    by destruct (String.eqb a author).
Qed.

Lemma import_bibrefs_loop_unique (rows : list (string * string)) :
  ∀ table imported_count updated_count,
    NoDup (AuthorBibref.author <$> table) →
    NoDup (AuthorBibref.author
             <$> (import_bibrefs_loop rows table imported_count updated_count).1.1).
Proof.
  induction rows as [|[a b] rest IH]; intros table i u Hnd; simpl; [done|].
  destruct (list_find _ table) as [[j existing]|] eqn:Hfind.
  - apply list_find_Some in Hfind as (Hj & _ & _).
    destruct (String.eqb (AuthorBibref.bibref existing) b); apply IH; [done|].
    rewrite list_fmap_insert. simpl. rewrite list_insert_id; [done|].
    by rewrite list_lookup_fmap, Hj.
  - apply IH. rewrite fmap_app. simpl. apply NoDup_app. split; [done|].
    split; [|apply NoDup_singleton].
    intros x Hx ->%list_elem_of_singleton.
    apply list_elem_of_fmap in Hx as (c & -> & Hc).
    rewrite list_find_None, Forall_forall in Hfind.
    apply (Hfind c Hc). rewrite eq_str_eqb. apply Is_true_true, String.eqb_refl.
Qed.

End ByteEquality.

Lemma import_bibrefs_loop_counts (rows : list (string * string)) :
  ∀ table imported_count updated_count,
    ∃ authors updated,
      AuthorBibref.author
        <$> (import_bibrefs_loop rows table imported_count updated_count).1.1
      = (AuthorBibref.author <$> table) ++ authors
      ∧ (import_bibrefs_loop rows table imported_count updated_count).1.2
        = imported_count + len authors
      ∧ (import_bibrefs_loop rows table imported_count updated_count).2
        = updated_count + updated
      ∧ 0 ≤ updated
      ∧ len authors + updated ≤ len rows
      ∧ authors ⊆ rows.*1.
Proof.
  induction rows as [|[a b] rest IH]; intros table i u; simpl.
  - exists [], 0. rewrite app_nil_r, !Z.add_0_r. by repeat split.
  - destruct (list_find _ table) as [[j existing]|] eqn:Hfind.
    + apply list_find_Some in Hfind as (Hj & _ & _).
      destruct (String.eqb (AuthorBibref.bibref existing) b).
      * destruct (IH table i u) as (authors & updated & -> & -> & -> & ? & ? & Hsub).
        exists authors, updated. repeat split; [done| |].
        -- unfold len in *. simpl. lia.
        -- intros x Hx. by apply list_elem_of_further, Hsub.
      * destruct (IH (<[j := AuthorBibref.mk (AuthorBibref.author existing) b]> table)
                    i (u + 1))
          as (authors & updated & -> & -> & -> & ? & ? & Hsub).
        exists authors, (updated + 1). rewrite list_fmap_insert. simpl.
        rewrite (list_insert_id (AuthorBibref.author <$> table));
          [|by rewrite list_lookup_fmap, Hj].
        repeat split; [lia|lia| |].
        -- unfold len in *. simpl. lia.
        -- intros x Hx. by apply list_elem_of_further, Hsub.
    + destruct (IH (table ++ [AuthorBibref.mk a b]) (i + 1) u)
        as (authors & updated & -> & -> & -> & ? & ? & Hsub).
      exists (a :: authors), updated. rewrite fmap_app, <- app_assoc. simpl.
      repeat split; [unfold len; simpl; lia|done| |].
      * unfold len in *. simpl. lia.
      * intros x [->|Hx]%elem_of_cons; [apply list_elem_of_here|].
        by apply list_elem_of_further, Hsub.
Qed.

(** X19. After an import of bibliographic references, with a database
    that compares strings byte by byte, the reference stored for an author
    is the one of the last row of the file that names this author, and the
    one stored before for an author the file does not name. *)
Theorem import_bibrefs_last_wins (db : database) (rows : list (string * string))
    (author : string) :
  (∀ a b, eq_str a b = String.eqb a b) →
  stored_bibref (author_bibref (import_bibrefs_from_file db rows).1) author
  = match last_bibref rows author with
    | Some bibref => Some bibref
    | None => stored_bibref (author_bibref db) author
    end.
Proof.
  intros Heq. rewrite <- (import_bibrefs_loop_stored Heq rows author (author_bibref db) 0 0).
  unfold import_bibrefs_from_file.
  by destruct (import_bibrefs_loop rows (author_bibref db) 0 0) as [[table i] u].
Qed.

(** X20. The import of bibliographic references keeps one row per author:
    with a database that compares strings byte by byte, a table in which no
    author occurs twice is one after the import, whatever the file
    repeats. *)
Theorem import_bibrefs_one_row_per_author (db : database) (rows : list (string * string)) :
  (∀ a b, eq_str a b = String.eqb a b) →
  NoDup (AuthorBibref.author <$> author_bibref db) →
  NoDup (AuthorBibref.author <$> author_bibref (import_bibrefs_from_file db rows).1).
Proof.
  intros Heq Hdb.
  pose proof (import_bibrefs_loop_unique Heq rows (author_bibref db) 0 0 Hdb) as Hloop.
  unfold import_bibrefs_from_file.
  by destruct (import_bibrefs_loop rows (author_bibref db) 0 0) as [[table i] u].
Qed.

(** X21. The import of bibliographic references never fails and never
    removes or renames an author: the stored authors keep their rows, the
    authors it adds are names of the file and come at the end, the first
    count is their number, and the two counts together do not exceed the
    number of rows of the file.  The other tables are untouched. *)
Theorem import_bibrefs_keeps_authors (db : database) (rows : list (string * string)) :
  ∃ table authors imported_count updated_count,
    import_bibrefs_from_file db rows
    = (Database (velocity_models_1d db) (velocity_models_3d_vp db)
         (velocity_models_3d_vs db) table,
       ImportDone imported_count updated_count)
    ∧ AuthorBibref.author <$> table = (AuthorBibref.author <$> author_bibref db) ++ authors
    ∧ imported_count = len authors
    ∧ 0 ≤ updated_count
    ∧ imported_count + updated_count ≤ len rows
    ∧ authors ⊆ rows.*1.
Proof.
  destruct (import_bibrefs_loop_counts rows (author_bibref db) 0 0)
    as (authors & updated & Htable & Hi & Hu & ? & ? & ?).
  unfold import_bibrefs_from_file.
  destruct (import_bibrefs_loop rows (author_bibref db) 0 0) as [[table i] u].
  simpl in *. exists table, authors, i, u. repeat split; [done|lia|lia|lia|done].
Qed.

End ImportProperties.

Lemma import_1d_keeps_distinct_witness :
  distinct_1d (H := sample_engine) (velocity_models_1d sample_db)
  ∧ distinct_1d (H := sample_engine)
      (velocity_models_1d (@import_1d_from_file sample_engine sample_db sample_file_1d).1).
Proof.
  assert (distinct_1d (H := sample_engine) (velocity_models_1d sample_db)) as Hdb.
  { unfold distinct_1d. simpl. unfold sample_profile.
    repeat (constructor; [|repeat (constructor; [vm_compute; reflexivity|])]).
    all: constructor. }
  split; [exact Hdb|].
  exact (@import_1d_keeps_distinct sample_engine sample_db sample_file_1d Hdb).
Defined.

Lemma import_1d_idempotent_witness :
  let db' := (@import_1d_from_file sample_engine sample_db sample_file_1d).1 in
  len (velocity_models_1d db') = 6
  ∧ @import_1d_from_file sample_engine db' sample_file_1d = (db', ImportDone 0 3).
Proof.
  split; [reflexivity|].
  apply (@import_1d_idempotent sample_engine sample_db sample_file_1d).
  - exact float_eq_refl.
  - exact String.eqb_refl.
  - repeat (constructor; [eexists _, _; repeat split; vm_compute; reflexivity|]).
    constructor.
Defined.


Lemma import_3d_default_scale_factor_hidden_witness :
  show_r true (rows_3d (@import_3d_from_file sample_engine sample_db VS sample_file_3d).1 VS)
  = false.
Proof.
  apply (@import_3d_default_scale_factor_hidden sample_engine sample_db VS sample_file_3d).
  - constructor; [by left|]. constructor; [by right|]. constructor.
  - reflexivity.
  - intros m Hm. exact Hm.
Defined.

Lemma import_3d_duplicate_ignores_r_witness :
  @import_3d_from_file sample_engine sample_db VP sample_file_3d_rescaled
  = (sample_db, ImportDone 0 1).
Proof.
  apply (@import_3d_duplicate_ignores_r sample_engine sample_db VP sample_file_3d_rescaled).
  constructor; [|constructor].
  eexists _, _, _, _. split; [reflexivity|]. split; [reflexivity|].
  split; [reflexivity|]. split; [reflexivity|]. split; [by eexists|].
  vm_compute. reflexivity.
Defined.

Lemma import_bibrefs_last_wins_witness :
  stored_bibref (H := sample_engine)
    (author_bibref (@import_bibrefs_from_file sample_engine sample_db sample_bibrefs).1)
    "Kennett"
  = Some "Kennett et al. (1995)"
  ∧ stored_bibref (H := sample_engine)
      (author_bibref (@import_bibrefs_from_file sample_engine sample_db sample_bibrefs).1)
      "Herrin"
    = Some "Herrin (1968), revised".
Proof.
  split.
  - apply (@import_bibrefs_last_wins sample_engine sample_db sample_bibrefs "Kennett").
    intros a b. reflexivity.
  - reflexivity.
Defined.

Lemma import_bibrefs_one_row_per_author_witness :
  NoDup (AuthorBibref.author
           <$> author_bibref
                 (@import_bibrefs_from_file sample_engine sample_db sample_bibrefs).1).
Proof.
  apply (@import_bibrefs_one_row_per_author sample_engine sample_db sample_bibrefs).
  - intros a b. reflexivity.
  - simpl. apply NoDup_singleton.
Defined.

Example import_results_of_sample_files :
  (@import_1d_from_file sample_engine sample_db sample_file_1d).2 = ImportDone 1 2
  ∧ (@import_3d_from_file sample_engine sample_db VP sample_file_3d).2 = ImportDone 1 1
  ∧ (@import_bibrefs_from_file sample_engine sample_db sample_bibrefs).2 = ImportDone 1 2
  ∧ @import_1d_from_file sample_engine sample_db
      [FileRow1D.mk (Some (float_literal 10 1)) (Some (float_literal 600 2)) "VP" "CRUST1"
         "Herrin";
       FileRow1D.mk (Some (float_literal 20 1)) None "VP" "CRUST1" "Herrin"]
    = (sample_db, ImportFailed).
Proof. by vm_compute. Qed.

Example import_1d_nan_refused :
  @import_1d_from_file sample_engine sample_db
    [FileRow1D.mk (Some (float_literal 10 1)) (Some (float_literal 600 2)) "VP" "CRUST1"
       "Herrin";
     FileRow1D.mk (Some S754_nan) (Some (float_literal 600 2)) "VP" "CRUST1" "Herrin"]
  = (sample_db, ImportFailed).
Proof. by vm_compute. Qed.
